(* ===== verification/_CoqProject ===== *)
-Q . S2P
Prelude.v
Hex.v
Crypto.v
Mongo.v
Auth.v
Handlers.v
Fixtures.v
Isolation.v
Accounts.v
Client.v
Typing.v
Login.v
Dashboard.v
Store.v
Concurrency.v
Scheduling.v
Startup.v
Connection.v
