(* ===== verification/Prelude.v ===== *)
(** * Gym membership management: a verification development

    The program (repository sivzz-22/Gym_Membership_Management) is an
    Express/Mongoose backend, [src/backend/index.js], and two React
    components, [src/frontend/src/Login.jsx] and
    [src/frontend/src/Dashboard.jsx].  The backend keeps two MongoDB
    collections ([User], [Customer]), hashes passwords with bcrypt, issues
    one-hour JWTs at login, and guards four customer routes with the
    [verifyToken] middleware, which extracts the caller's user id; every
    customer query filters on that id.  A request flows: Express routing
    and [cors()] -> [verifyToken] (customer routes) -> the route handler
    -> Mongoose calls on the collections -> the JSON response.

    Files, in dependency order (each requires only files before it):
    - [Prelude]: this header; the state-and-exception monad [SE] (an
      [async] handler whose [await]s may throw into its [try]/[catch]),
      with stdpp's [MRet]/[MBind] instances and equations
      [SE_bind_run]/[SE_ret_run]; first-match list updates
      ([update_first], [delete_first]) for MongoDB's [findOneAnd*];
      [split_on] for [String.prototype.split]; the [gym] hint databases.
    - [Hex]: ObjectIds as numbers below [2^96]; [oid_hex] (the 24-digit
      lowercase form of [res.json] and of the JWT payload) and [cast_oid]
      (Mongoose's cast of a request string, [None] being the
      [CastError]); round trip and bound theorems.
    - [Crypto]: the libraries the code only calls, as classes whose laws
      are what the code relies on: [PasswordHasher] (bcryptjs; a hash is
      compared on the password's first 72 bytes) and [JwtScheme]
      (jsonwebtoken; signing then decoding gives the payload back; tokens
      are base64url); [jwt_verify] with the library's expiry rule
      ([now >= exp] is expired).  Executable toy instances satisfy the
      laws; the witnesses use them.
    - [Mongo]: [UserSchema]/[CustomerSchema] (lines 24-37) as records,
      the database [Db] (both collections in insertion order and the
      ObjectId counter), and each Mongoose call of the handlers as an
      [SE Db Exn] computation ([required] validation, the unique index on
      [username], casts); the invariant [db_wf] (distinct ids below the
      counter, distinct non-empty usernames, non-empty hashes) and its
      preservation by every call ([preserves]); [readonly] calls.
    - [Auth]: [JWT_SECRET] with its fallback (line 9), JavaScript's
      first-occurrence [replace], [verifyToken] (lines 39-51), the signing
      of line 86 ([jwt_sign_1h]); theorems on the one-hour window, the
      optional ["Bearer "] prefix and the forgeable fallback secret.
    - [Handlers]: the six handlers (lines 53-154) with [catch_500], the
      routing of Express (case-insensitive paths, optional trailing
      slash, [:id] one segment) and the whole application [app] for one
      request.
    - [Fixtures]: a concrete two-user database and tokens for the
      witnesses.
    - [Isolation]: the customer routes through [app]: a caller reads
      exactly its own records; updates and deletes of another owner's
      record answer 200 and change nothing; create/update/delete then
      read round trips; a malformed id is a 500; [db_wf] holds after
      every request ([app_wf]).
    - [Accounts]: register and login through [app]: fresh and duplicate
      usernames, register-then-login yielding a token that maps back to
      the new user, login changes nothing, the 403 gate of the customer
      routes, and the finding on the two login messages.
    - [Client]: the browser side of the two components: JavaScript values
      ([JsValue], template literals, truthiness), the network [Net] of
      deployments ([Backend]: secret, clock, database) keyed by origin,
      [fetch] running [app] at the origin it names, [response.json()]
      (a text body rejects), [response.ok], the [Shell] the components
      share (the [token] prop and the router's location), and
      [net_step]: other clients' requests and clocks moving between two
      user events.
    - [Typing]: the REST table of spec.md (6) per method and route
      ([rest_table]: each route's statuses with the kind of body each
      carries, the 401/403 text of [verifyToken], the 204 preflight and
      Express's 404); every response of [app] is a row of the table of
      its method and route, by a walk over each handler's binds
      ([returns]); hence [response.json()] succeeds on every ok answer
      but the preflight's.
    - [Login]: [Login.jsx]: its state, [handleSubmit] with its three
      outcomes, the [required] inputs, the rendered markup as an element
      tree ([login_view]); logging in through the page gives a token the
      deployment accepts for that user, a refused login shows the
      server's message, and the page only ever talks to the deployed
      host.
    - [Dashboard]: [Dashboard.jsx]: its state, [fetchCustomers],
      [handleAdd], [handleEdit], [handleUpdate], [handleDelete],
      [handleLogout], the Cancel button, the events the rendered page
      offers, and [dash_reach], the page's life from mount with the rest
      of the world acting in between.  Theorems: the page only ever shows
      its user's records (an invariant by rule induction on
      [dash_reach]); add, edit-then-update and delete through the page,
      each with the state of the page and of the database after it; a
      refused token is reported as ["Server Error"].
    - [Store]: the ownership-scoped record store of spec.md (4.3) as a
      step relation [spec_step] on a map from ids to records; the
      abstraction [abs] of the [customers] collection; [abs] commutes
      with the first-match update and delete of MongoDB; and the
      refinement theorem: any sequence of one caller's customer requests
      runs the abstract store, each response saying what the abstract
      step returns.  A creation with a missing or empty field is a 500,
      not the 4xx of the spec.
    - [Concurrency]: requests in flight at once.  Each handler is cut at
      its [await]s into a [Prog], a chain of atomic database calls;
      [app_prog] run alone is [app].  Configurations of requests in
      flight step by a request arriving or by one request running its
      next awaited call; each await is tagged as a Mongoose or a bcryptjs
      call.  [db_wf] holds under every interleaving; two
      registrations of one name can both pass [User.findOne], and the
      second then gets a 500 from the unique index instead of a 400.
    - [Scheduling]: orders of requests in flight.  A request run with no
      other between its calls reaches the answer [run_thread] gives.  Two
      updates of one record in flight end with the fields of the one that
      ran last (spec.md 5, last write wins); a login racing the
      registration of its name is refused or given a token depending
      only on whether its [User.findOne] runs before or after the save.
    - [Startup]: the start-up of index.js: [dotenv.config()] (line 8),
      [JWT_SECRET] (9), [PORT] with no default (11) and [app.listen]
      (156-158) as Node reads its argument: [Number()] on the string
      (the StringNumericLiteral grammar on ASCII, decimals read exactly),
      pipe names, [validatePort]; the network the browser then sees.
      With [PORT] unset the Dashboard's [http://localhost:5000] finds no
      server and the start-up log names [http://localhost:undefined].
    - [Connection]: [mongoose.connect] (lines 13-19), not awaited: the
      connection is pending, open, or failed for good, and decides how
      each awaited call of a cut handler answers ([answer]: model calls
      run, wait in Mongoose's buffer, or reject; bcryptjs calls run).
      The process steps by arrivals, calls and the connection settling
      ([sstep]); on an open connection this is [Concurrency]'s
      configuration step.  While the database is unavailable a request
      reaching a handler waits or is answered 500, and every other
      request is answered as [app] answers it; when the configured URI
      does not connect, no interleaving changes the database or answers
      a request with success.

    Modelling choices, and why they are enough.  Time is whole seconds
    ([Math.floor(Date.now()/1000)], what jsonwebtoken uses).  The driver's
    ObjectIds are drawn from a counter in [Db]; theorems that send an id
    back through a string assume it is below [2^96] (fewer than [2^96]
    documents), which [cast_oid_bound] shows is the only range a cast can
    produce.  No definition needs fuel: every function is structural; a
    cut handler is an inductive chain of awaits, so it cannot loop, and
    the model does not claim termination as a property of the code.
    Mongoose 7 and later is assumed ([undefined] fields are stripped from
    an update), the unique index on [username] is assumed built, and a
    missing [username] in a query is [null] and matches no stored user.

    On the client, a handler reads the props and state of the render
    it was created in and never reads back what it set, so React's
    batching of state updates does not change what it does; the
    [fetchCustomers()] the handlers call without [await] catches every
    rejection itself and is run to completion where it is called; the
    CORS preflight the browser sends first is answered by [cors()] with
    no effect and is not a step of its own.

    For concurrency, each [await] is tagged with what it waits on (a
    Mongoose call or a bcryptjs call), and every Mongoose call is one
    atomic step of the database (MongoDB's single-document operations
    are atomic, and the unique index is checked with the insert); Node's
    choice of which pending request resumes next is left free.

    [Number()] rounds a decimal to a double; the model reads it exactly,
    which agrees on every numeral of at most 15 significant digits.  A
    port of 0 is one the system picks from its ephemeral range, taken as
    at least 32768 (Linux's default; 49152 elsewhere).

    Not modelled: the HTTP transport beyond the origin the listening
    socket serves, and a port already in use; parsing the text of the
    [.env] file (it arrives as key/value pairs); a connection lost after
    it opened (Mongoose's reconnection), and the 10-second timing of a
    buffered call; console logging beyond the start-up URL and the
    connection's two lines; body parsing by [express.json()] (bodies arrive
    parsed, each field a string or absent; JSON [null], numbers and
    malformed bodies are not modelled); URI decoding of [:id] and [HEAD]
    requests; the 12-character string form of ObjectIds; the
    Dashboard's JSX markup beyond the rows and the events it offers;
    the parent component that owns the token (not in the repository);
    the [Register] link's page; the [require]/[import] and [export]
    lines, which carry no behaviour.  The Dashboard's un-awaited
    [fetchCustomers] still running when the next event starts is not
    stated as a theorem (the page model runs it to completion where it
    is called, see above). *)

From stdpp Require Export base list strings sets.
From Stdlib Require Export NArith Ascii.

Declare Scope gym_scope.
Delimit Scope gym_scope with gym.
Open Scope string_scope.
Open Scope list_scope.

Create HintDb gym discriminated.
Create Rewrite HintDb gym_rw.

(** ** A state and exception monad

    [SE S E A] runs on a state [S] and either throws an [E] or returns an
    [A]; the state reached before a throw is kept, as a JavaScript
    [await] that rejects keeps the effects of the awaits before it. *)

Definition SE (S E A : Type) : Type := S -> (E + A) * S.

Section SE.
Context {S E : Type}.

#[export] Instance SE_ret : MRet (SE S E) := fun A x s => (inr x, s).
#[export] Instance SE_bind : MBind (SE S E) :=
  fun A B (k : A -> SE S E B) (m : SE S E A) s =>
    match m s with
    | (inl e, s') => (inl e, s')
    | (inr x, s') => k x s'
    end.

Definition throw {A} (e : E) : SE S E A := fun s => (inl e, s).
Definition gets {A} (f : S -> A) : SE S E A := fun s => (inr (f s), s).
Definition modify (f : S -> S) : SE S E unit := fun s => (inr tt, f s).

(** [try { m } catch (e) { h(e) }]: the handler runs from the state
    reached when [m] threw. *)
Definition try_catch {A} (m : SE S E A) (h : E -> SE S E A) : SE S E A :=
  fun s => match m s with
           | (inl e, s') => h e s'
           | (inr x, s') => (inr x, s')
           end.

Lemma SE_bind_ret {A B} (x : A) (k : A -> SE S E B) s :
  (mret x ≫= k) s = k x s.
Proof. reflexivity. Qed.

Lemma SE_ret_run {A} (x : A) s : (mret x : SE S E A) s = (inr x, s).
Proof. reflexivity. Qed.

Lemma SE_bind_run {A B} (m : SE S E A) (k : A -> SE S E B) s :
  (m ≫= k) s = match m s with
               | (inl e, s') => (inl e, s')
               | (inr x, s') => k x s'
               end.
Proof. reflexivity. Qed.

Lemma SE_bind_assoc {A B C} (m : SE S E A) (k : A -> SE S E B)
      (h : B -> SE S E C) s :
  ((m ≫= k) ≫= h) s = (m ≫= fun x => k x ≫= h) s.
Proof. rewrite !SE_bind_run. by destruct (m s) as [[e|x] s']. Qed.
End SE.

Arguments throw {S E A} e _ /.
Arguments gets {S E A} f _ /.
Arguments modify {S E} f _ /.
Arguments try_catch {S E A} m h _ /.

(** Both instances reduce by [simpl] in every proof of the development. *)
Arguments SE_ret {S E} A x _ /.
Arguments SE_bind {S E} A B k m _ /.

(** ** Sublists *)

Lemma sublist_fmap_of {A B} (g : A -> B) (l1 l2 : list A) :
  l1 `sublist_of` l2 -> g <$> l1 `sublist_of` g <$> l2.
Proof. induction 1; simpl; by constructor. Qed.

Lemma Forall_sublist_of {A} (P : A -> Prop) (l1 l2 : list A) :
  l1 `sublist_of` l2 -> Forall P l2 -> Forall P l1.
Proof. induction 1; inversion 1; subst; auto. Qed.

(** [Array.prototype.filter] (and MongoDB's [find]) keeps a sublist. *)
Lemma filter_sublist_of {A} (f : A -> bool) (l : list A) : List.filter f l `sublist_of` l.
Proof.
  induction l as [|x l IH]; simpl; [done|].
  destruct (f x); [by apply sublist_skip|by apply sublist_cons].
Qed.

(** Distinct keys stay distinct in a sublist. *)
Lemma NoDup_fmap_sublist {A B} (g : A -> B) (l1 l2 : list A) :
  l1 `sublist_of` l2 -> NoDup (g <$> l2) -> NoDup (g <$> l1).
Proof. intros Hs Hn. eapply sublist_NoDup; [exact Hn|]. by apply sublist_fmap_of. Qed.

Lemma NoDup_fmap_eq {A B} (g : A -> B) (l : list A) x y :
  NoDup (g <$> l) -> x ∈ l -> y ∈ l -> g x = g y -> x = y.
Proof.
  induction l as [|z l IH]; [set_solver|]. rewrite fmap_cons, NoDup_cons.
  intros [Hz Hl]. rewrite !elem_of_cons.
  intros [->|Hx] [->|Hy] Hg; auto;
    exfalso; apply Hz; [rewrite Hg|rewrite <-Hg]; by apply list_elem_of_fmap_2.
Qed.

(** ** First-match list updates

    MongoDB's [findOneAndUpdate] and [findOneAndDelete] act on the first
    document, in natural (insertion) order, that matches the filter, and
    resolve to that document as it was before the change. *)

Section FirstMatch.
Context {A : Type} (p : A -> bool).

Fixpoint update_first (f : A -> A) (l : list A) : option A * list A :=
  match l with
  | [] => (None, [])
  | x :: l' =>
      if p x then (Some x, f x :: l')
      else let '(r, l'') := update_first f l' in (r, x :: l'')
  end.

Fixpoint delete_first (l : list A) : option A * list A :=
  match l with
  | [] => (None, [])
  | x :: l' =>
      if p x then (Some x, l')
      else let '(r, l'') := delete_first l' in (r, x :: l'')
  end.

Lemma update_first_none f l :
  Forall (fun x => p x = false) l -> update_first f l = (None, l).
Proof. induction 1 as [|x l Hx _ IH]; simpl; [done|]. by rewrite Hx, IH. Qed.

Lemma delete_first_none l :
  Forall (fun x => p x = false) l -> delete_first l = (None, l).
Proof. induction 1 as [|x l Hx _ IH]; simpl; [done|]. by rewrite Hx, IH. Qed.

(** The untouched prefix, the first match and the untouched suffix. *)
Lemma update_first_split f l x :
  (update_first f l).1 = Some x ->
  exists l1 l2, l = l1 ++ x :: l2 /\ Forall (fun y => p y = false) l1 /\
                p x = true /\ (update_first f l).2 = l1 ++ f x :: l2.
Proof.
  induction l as [|y l IH]; simpl; [done|].
  destruct (p y) eqn:Hy; simpl.
  - intros [= <-]. by exists [], l.
  - destruct (update_first f l) as [r l''] eqn:E; simpl in *.
    intros Hr. destruct (IH Hr) as (l1 & l2 & -> & Hl1 & Hx & Hl).
    exists (y :: l1), l2. repeat split; [by constructor|done|by subst].
Qed.

Lemma delete_first_split l x :
  (delete_first l).1 = Some x ->
  exists l1 l2, l = l1 ++ x :: l2 /\ Forall (fun y => p y = false) l1 /\
                p x = true /\ (delete_first l).2 = l1 ++ l2.
Proof.
  induction l as [|y l IH]; simpl; [done|].
  destruct (p y) eqn:Hy; simpl.
  - intros [= <-]. by exists [], l.
  - destruct (delete_first l) as [r l''] eqn:E; simpl in *.
    intros Hr. destruct (IH Hr) as (l1 & l2 & -> & Hl1 & Hx & Hl).
    exists (y :: l1), l2. repeat split; [by constructor|done|by subst].
Qed.

Lemma update_first_hit f l x :
  x ∈ l -> p x = true -> exists y, (update_first f l).1 = Some y.
Proof.
  induction l as [|z l IH]; [set_solver|]. rewrite elem_of_cons. intros Hx Hp. simpl.
  destruct (p z) eqn:Hz; [by eexists|].
  destruct Hx as [->|Hx]; [congruence|]. destruct (IH Hx Hp) as [y Hy].
  destruct (update_first f l); simpl in *. by exists y.
Qed.

Lemma delete_first_hit l x :
  x ∈ l -> p x = true -> exists y, (delete_first l).1 = Some y.
Proof.
  induction l as [|z l IH]; [set_solver|]. rewrite elem_of_cons. intros Hx Hp. simpl.
  destruct (p z) eqn:Hz; [by eexists|].
  destruct Hx as [->|Hx]; [congruence|]. destruct (IH Hx Hp) as [y Hy].
  destruct (delete_first l); simpl in *. by exists y.
Qed.

Lemma update_first_ext f g l : (forall x, f x = g x) -> update_first f l = update_first g l.
Proof.
  intros Hfg. induction l as [|x l IH]; simpl; [done|]. rewrite Hfg, IH. done.
Qed.

(** Two updates of the first match, when the update keeps the record
    matching, are one update by the composition. *)
Lemma update_first_twice f g l :
  (forall x, p (f x) = p x) ->
  (update_first g (update_first f l).2).2 = (update_first (fun x => g (f x)) l).2.
Proof.
  intros Hp. induction l as [|x l IH]; simpl; [done|].
  destruct (p x) eqn:Hx; simpl; [by rewrite Hp, Hx|].
  destruct (update_first f l) as [r1 l1]. simpl in *. rewrite Hx.
  destruct (update_first g l1) as [r2 l2]. destruct (update_first (fun x => g (f x)) l) as [r3 l3].
  simpl in *. by subst.
Qed.

Lemma update_first_result_none f l :
  (update_first f l).1 = None -> (update_first f l).2 = l.
Proof.
  induction l as [|y l IH]; simpl; [done|].
  destruct (p y); simpl; [done|].
  destruct (update_first f l); simpl in *. intros H. by rewrite IH.
Qed.

Lemma delete_first_result_none l :
  (delete_first l).1 = None -> (delete_first l).2 = l.
Proof.
  induction l as [|y l IH]; simpl; [done|].
  destruct (p y); simpl; [done|].
  destruct (delete_first l); simpl in *. intros H. by rewrite IH.
Qed.

(** After the update every element was already there, or is the image
    by [f] of an element that matched. *)
Lemma update_first_elem f l y :
  y ∈ (update_first f l).2 -> y ∈ l \/ exists x, x ∈ l /\ p x = true /\ y = f x.
Proof.
  induction l as [|z l IH]; simpl; [set_solver|].
  destruct (p z) eqn:Hz; simpl.
  - rewrite elem_of_cons. intros [->|Hy].
    + right. exists z. split; [rewrite elem_of_cons; by left|done].
    + left. rewrite elem_of_cons; by right.
  - destruct (update_first f l) as [r l''] eqn:E; simpl in *.
    rewrite elem_of_cons. intros [->|Hy]; [left; rewrite elem_of_cons; by left|].
    destruct (IH Hy) as [H|(x & Hx & Hp & ->)].
    + left. rewrite elem_of_cons; by right.
    + right. exists x. split; [rewrite elem_of_cons; by right|done].
Qed.

Lemma update_first_fmap {B} (g : A -> B) f l :
  (forall x, g (f x) = g x) -> g <$> (update_first f l).2 = g <$> l.
Proof.
  intros Hg. induction l as [|z l IH]; [done|]. cbn [update_first].
  destruct (p z); cbn [fst snd]; rewrite !fmap_cons; [by rewrite Hg|].
  destruct (update_first f l) as [r l']. cbn [fst snd] in *. by rewrite fmap_cons, IH.
Qed.

Lemma update_first_Forall (P : A -> Prop) f l :
  (forall x, P x -> P (f x)) -> Forall P l -> Forall P (update_first f l).2.
Proof.
  intros Hf. induction 1 as [|z l Hz Hl IH]; simpl; [done|].
  destruct (p z); simpl; [by constructor; auto|].
  destruct (update_first f l); simpl in *. by constructor.
Qed.

Lemma delete_first_sublist l : (delete_first l).2 `sublist_of` l.
Proof.
  induction l as [|z l IH]; simpl; [done|].
  destruct (p z); simpl; [by apply sublist_cons|].
  destruct (delete_first l) as [r l'']; simpl in *. by apply sublist_skip.
Qed.
End FirstMatch.

(** ** Strings *)

Fixpoint string_forall (f : ascii -> bool) (s : string) : bool :=
  match s with
  | EmptyString => true
  | String c s' => f c && string_forall f s'
  end.

Lemma string_forall_app f a b :
  string_forall f (a +:+ b) = string_forall f a && string_forall f b.
Proof. induction a as [|c a IH]; simpl; [done|]. by rewrite IH, andb_assoc. Qed.

(** [s.split(sep)] for a one-character separator. *)
Fixpoint split_on (sep : ascii) (s : string) : list string :=
  match s with
  | EmptyString => [EmptyString]
  | String c s' =>
      if Ascii.eqb c sep then EmptyString :: split_on sep s'
      else match split_on sep s' with
           | [] => [String c EmptyString]
           | w :: ws => String c w :: ws
           end
  end.

Definition no_sep (sep : ascii) : string -> bool :=
  string_forall (fun c => negb (Ascii.eqb c sep)).

Lemma split_on_nosep sep a : no_sep sep a = true -> split_on sep a = [a].
Proof.
  induction a as [|c a IH]; simpl; [done|].
  unfold no_sep at 1. simpl. destruct (Ascii.eqb c sep) eqn:Hc; simpl; [done|].
  intros Ha. by rewrite IH.
Qed.

Lemma split_on_app sep a b :
  no_sep sep a = true -> split_on sep (a +:+ String sep b) = a :: split_on sep b.
Proof.
  induction a as [|c a IH]; simpl.
  - by rewrite Ascii.eqb_refl.
  - unfold no_sep at 1. simpl. destruct (Ascii.eqb c sep) eqn:Hc; simpl; [done|].
    intros Ha. by rewrite IH.
Qed.

(** ** Tactics shared by the component files *)

(** Run a monadic handler one bind at a time. *)
Ltac se_step :=
  repeat (rewrite ?SE_bind_run; simpl).

(** Case on the first [if]/[match] a computation is blocked on. *)
Ltac case_block :=
  match goal with
  | |- context [if ?b then _ else _] => destruct b eqn:?
  | |- context [match ?x with _ => _ end] => destruct x eqn:?
  end.

Ltac invc H := inversion H; subst; clear H.

#[export] Hint Resolve update_first_none delete_first_none : gym.
#[export] Hint Resolve update_first_result_none delete_first_result_none : gym.
