(* ===== verification/Hex.v ===== *)
(** * ObjectIds and their hexadecimal form

    A MongoDB ObjectId is 12 bytes, a number below [2^96].  It travels as
    the 24-digit lowercase hex string of [ObjectId.toHexString]: in the
    JSON of [res.json(customers)] (index.js line 119), in the JWT payload
    [{ userId: user._id }] (line 86), and back in request strings
    ([req.params.id], line 132; [req.userId], line 118).  Mongoose casts
    such a string to an ObjectId before a query runs, and throws a
    [CastError] when it is not 24 hex digits.  This file renders and casts,
    and proves the round trip and the 96-bit bound. *)

From S2P Require Import Prelude.

Module Hex.

Definition oid_bound : N := 2 ^ 96.

(** [hex_char d] for a digit [d < 16]: ['0'..'9'] then ['a'..'f']. *)
Definition hex_char (d : N) : ascii :=
  Ascii.ascii_of_N (if (d <? 10)%N then 48 + d else 87 + d)%N.

(** The digit of a character, both cases accepted, as bson's
    [/^[0-9a-fA-F]{24}$/] does. *)
Definition hex_val (c : ascii) : option N :=
  let n := Ascii.N_of_ascii c in
  if (48 <=? n)%N && (n <=? 57)%N then Some (n - 48)%N
  else if (97 <=? n)%N && (n <=? 102)%N then Some (n - 87)%N
  else if (65 <=? n)%N && (n <=? 70)%N then Some (n - 55)%N
  else None.

(** The [k] low hex digits of [n], most significant first, put in front
    of [acc]. *)
Fixpoint hex_fill (k : nat) (n : N) (acc : string) : string :=
  match k with
  | O => acc
  | S k' => hex_fill k' (n / 16)%N (String (hex_char (n mod 16)%N) acc)
  end.

(** [ObjectId.prototype.toHexString]. *)
Definition oid_hex (o : N) : string := hex_fill 24 o "".

Fixpoint hex_parse (s : string) (acc : N) : option N :=
  match s with
  | EmptyString => Some acc
  | String c s' =>
      match hex_val c with
      | Some d => hex_parse s' (acc * 16 + d)%N
      | None => None
      end
  end.

(** Mongoose's ObjectId cast of a string: [None] is the [CastError]. *)
Definition cast_oid (s : string) : option N :=
  if Nat.eqb (String.length s) 24 then hex_parse s 0 else None.

(** ** Digits *)

Lemma hex_val_char d : (d < 16)%N -> hex_val (hex_char d) = Some d.
Proof.
  intros Hd. unfold hex_val, hex_char.
  destruct (N.ltb_spec d 10);
    rewrite Ascii.N_ascii_embedding by lia;
    repeat case_bool_decide; repeat first
      [ match goal with
        | |- context [(?a <=? ?b)%N] => destruct (N.leb_spec a b)
        end
      | progress simpl
      | f_equal; lia
      | lia ].
Qed.

Lemma length_hex_fill k n acc :
  String.length (hex_fill k n acc) = k + String.length acc.
Proof.
  revert n acc. induction k as [|k IH]; intros n acc; simpl; [done|].
  rewrite IH. simpl. lia.
Qed.

(** Parsing what [hex_fill] wrote: [k] digits of [n] reappear as
    [n mod 16^k]. *)
Lemma hex_parse_fill k n acc a :
  hex_parse (hex_fill k n acc) a = hex_parse acc (a * 16 ^ N.of_nat k + n mod 16 ^ N.of_nat k)%N.
Proof.
  revert n acc a. induction k as [|k IH]; intros n acc a; simpl.
  - by rewrite N.mul_1_r, N.mod_1_r, N.add_0_r.
  - rewrite IH. simpl. rewrite hex_val_char by (apply N.mod_lt; lia).
    f_equal. rewrite Nat2N.inj_succ, N.pow_succ_r'.
    rewrite (N.Div0.mod_mul_r n 16 (16 ^ N.of_nat k)). lia.
Qed.

(** A parse that succeeds on [s] stays below [(a + 1) * 16^|s|]. *)
Lemma hex_parse_bound s a r :
  hex_parse s a = Some r -> (r < (a + 1) * 16 ^ N.of_nat (String.length s))%N.
Proof.
  revert a. induction s as [|c s IH]; intros a; simpl.
  - intros [= <-]. lia.
  - destruct (hex_val c) as [d|] eqn:Hd; [|done].
    intros Hr. apply IH in Hr.
    assert (d < 16)%N.
    { unfold hex_val in Hd. repeat case_match; simplify_eq;
        repeat match goal with H : _ && _ = true |- _ => apply andb_true_iff in H as [? ?] end;
        repeat match goal with H : (_ <=? _)%N = true |- _ => apply N.leb_le in H end; lia. }
    rewrite Nat2N.inj_succ, N.pow_succ_r'. nia.
Qed.

Lemma N_of_hex_char d :
  (d < 16)%N -> Ascii.N_of_ascii (hex_char d) = (if (d <? 10)%N then 48 + d else 87 + d)%N.
Proof. intros Hd. unfold hex_char. apply Ascii.N_ascii_embedding. case_match; lia. Qed.

(** A test that every hex digit passes passes all of [hex_fill]. *)
Lemma string_forall_hex_fill f k n acc :
  (forall d, (d < 16)%N -> f (hex_char d) = true) ->
  string_forall f (hex_fill k n acc) = string_forall f acc.
Proof.
  intros Hf. revert n acc. induction k as [|k IH]; intros n acc; simpl; [done|].
  rewrite IH. simpl. rewrite Hf; [done|]. apply N.mod_lt. lia.
Qed.

(** Hex digits are all above ['/'] and ['.']. *)
Lemma hex_char_ne d c :
  (d < 16)%N -> (Ascii.N_of_ascii c < 48)%N -> negb (Ascii.eqb (hex_char d) c) = true.
Proof.
  intros Hd Hc. apply negb_true_iff, Ascii.eqb_neq. intros He.
  rewrite <-He, N_of_hex_char in Hc by done. case_match; lia.
Qed.

Lemma oid_hex_forall f o :
  (forall d, (d < 16)%N -> f (hex_char d) = true) -> string_forall f (oid_hex o) = true.
Proof. intros Hf. unfold oid_hex. by rewrite string_forall_hex_fill. Qed.

Lemma oid_hex_nosep o : no_sep "/" (oid_hex o) = true.
Proof. apply oid_hex_forall. intros d Hd. by apply hex_char_ne. Qed.

#[export] Hint Rewrite length_hex_fill hex_parse_fill : gym_rw.

(** ** Round trip and bounds *)

Lemma oid_hex_length o : String.length (oid_hex o) = 24.
Proof. unfold oid_hex. by rewrite length_hex_fill. Qed.

Lemma oid_hex_nonempty o : oid_hex o <> "".
Proof. intros He. pose proof (oid_hex_length o) as Hl. by rewrite He in Hl. Qed.


(** Casting back the hex form of an ObjectId gives the ObjectId: the
    string of [res.json] or of a JWT payload, sent back in a later
    request, names the same document. *)
Theorem cast_oid_hex o : (o < oid_bound)%N -> cast_oid (oid_hex o) = Some o.
Proof.
  intros Ho. unfold cast_oid. rewrite oid_hex_length, Nat.eqb_refl.
  unfold oid_hex. rewrite hex_parse_fill. cbn [hex_parse]. f_equal.
  change (16 ^ N.of_nat 24)%N with oid_bound. rewrite N.mod_small; lia.
Qed.

(** Every ObjectId a cast produces is below [2^96]. *)
Theorem cast_oid_bound s o : cast_oid s = Some o -> (o < oid_bound)%N.
Proof.
  unfold cast_oid. destruct (Nat.eqb_spec (String.length s) 24) as [Hl|]; [|done].
  intros Hp. apply hex_parse_bound in Hp. rewrite Hl in Hp. exact Hp.
Qed.

(** The hex rendering of ObjectIds below [2^96] is injective:
    two ids that render alike are equal, so the [userId] of a token
    names one user. *)
Theorem oid_hex_inj o1 o2 :
  (o1 < oid_bound)%N -> (o2 < oid_bound)%N -> oid_hex o1 = oid_hex o2 -> o1 = o2.
Proof.
  intros H1 H2 He. apply (f_equal cast_oid) in He.
  rewrite !cast_oid_hex in He by done. by injection He.
Qed.

(** ** Witnesses *)



End Hex.
