(* ===== verification/Crypto.v ===== *)
(** * The cryptographic libraries the backend calls

    [bcryptjs] (index.js lines 60 and 83) and [jsonwebtoken] (lines 45 and
    86) are libraries, not code of this repository, so they enter as
    interfaces: the classes [PasswordHasher] and [JwtScheme] state what
    the backend relies on.  The laws follow the libraries' documented
    behaviour: bcrypt only looks at the first 72 bytes of a password, and
    [jwt.verify] rejects a token whose [exp] is at or before the current
    second.  Toy instances, executable and satisfying the laws, make the
    witnesses of later files concrete. *)

From S2P Require Import Prelude Hex.

Module Crypto.
Import Hex.

(** ** bcrypt *)

(** The bytes bcrypt hashes: the first 72 of the password. *)
Definition bcrypt_prefix (pw : string) : string := String.substring 0 72 pw.

(** [bhash pw salt] is [bcrypt.hash(pw, 10)] when the library draws
    [salt]; [bcompare pw h] is [bcrypt.compare(pw, h)]. *)
Class PasswordHasher := {
  bhash : string -> nat -> string;
  bcompare : string -> string -> bool;
  bcompare_bhash pw pw' salt :
    bcompare pw (bhash pw' salt) = bool_decide (bcrypt_prefix pw = bcrypt_prefix pw');
  bhash_nonempty pw salt : bhash pw salt <> ""
}.

(** ** JSON Web Tokens *)

(** The claims of a token: the code signs [{ userId }], the library
    adds [iat] and, for [expiresIn], [exp] (seconds since the epoch). *)
Record Payload := mkPayload { userId : string; iat : nat; exp : option nat }.

#[export] Instance Payload_eq_dec : EqDecision Payload.
Proof. solve_decision. Defined.

(** The characters of a compact JWS: base64url and the dots. *)
Definition token_char (c : ascii) : bool :=
  let n := Ascii.N_of_ascii c in
  (((48 <=? n) && (n <=? 57)) || ((65 <=? n) && (n <=? 90))
  || ((97 <=? n) && (n <=? 122)) || (n =? 45) || (n =? 95) || (n =? 46))%N.

(** [jsign k p] signs [p] under the secret [k]; [jdecode k t] checks the
    signature of [t] under [k] and decodes its payload. *)
Class JwtScheme := {
  jsign : string -> Payload -> string;
  jdecode : string -> string -> option Payload;
  jdecode_jsign k p : jdecode k (jsign k p) = Some p;
  jsign_chars k p : string_forall token_char (jsign k p) = true;
  jdecode_empty k : jdecode k "" = None
}.

(** [jwt.verify(token, secret)]: a bad signature or a malformed token
    fails, and so does an expired one, [clockTimestamp >= payload.exp]
    (jsonwebtoken's verify.js); a payload without [exp] never expires. *)
Definition jwt_verify `{JwtScheme} (secret : string) (now : nat) (tok : string)
  : option Payload :=
  match jdecode secret tok with
  | None => None
  | Some p =>
      match exp p with
      | Some e => if e <=? now then None else Some p
      | None => Some p
      end
  end%nat.

Section Verify.
Context `{JwtScheme}.

Lemma jwt_verify_jsign k now p :
  jwt_verify k now (jsign k p) =
    match exp p with
    | Some e => if (e <=? now)%nat then None else Some p
    | None => Some p
    end.
Proof. unfold jwt_verify. by rewrite jdecode_jsign. Qed.

Lemma jwt_verify_decode k now t p : jwt_verify k now t = Some p -> jdecode k t = Some p.
Proof. unfold jwt_verify. destruct (jdecode k t) as [q|]; [|done]. repeat case_match; congruence. Qed.
End Verify.

(** ** Executable instances for the witnesses *)

Definition toy_bhash (pw : string) (salt : nat) : string :=
  String (Ascii.ascii_of_nat salt) (bcrypt_prefix pw).

Definition toy_bcompare (pw h : string) : bool :=
  match h with
  | EmptyString => false
  | String _ r => bool_decide (bcrypt_prefix pw = r)
  end.

#[export] Program Instance toy_hasher : PasswordHasher := {|
  bhash := toy_bhash; bcompare := toy_bcompare |}.
Next Obligation. done. Qed.
Next Obligation. done. Qed.

(** A toy compact token [hex(k).hex(userId).x..x.(n|s x..x)]: the
    secret, the user id character by character in hex, [iat] in unary,
    and [exp] absent ([n]) or present ([s] and unary). *)
Fixpoint hexs (s : string) : string :=
  match s with
  | EmptyString => EmptyString
  | String c s' => hex_fill 2 (Ascii.N_of_ascii c) (hexs s')
  end.

Fixpoint unhexs (s : string) : option string :=
  match s with
  | EmptyString => Some EmptyString
  | String a (String b r) =>
      match hex_parse (String a (String b EmptyString)) 0, unhexs r with
      | Some n, Some r' => Some (String (Ascii.ascii_of_N n) r')
      | _, _ => None
      end
  | _ => None
  end.

Fixpoint unary (n : nat) : string :=
  match n with O => EmptyString | S n' => String "x" (unary n') end.

Fixpoint ununary (s : string) : option nat :=
  match s with
  | EmptyString => Some O
  | String c s' => if Ascii.eqb c "x" then S <$> ununary s' else None
  end.

Definition enc_exp (e : option nat) : string :=
  match e with None => "n" | Some n => String "s" (unary n) end.

Definition dec_exp (s : string) : option (option nat) :=
  match s with
  | String c r =>
      if Ascii.eqb c "n" then (if String.eqb r "" then Some None else None)
      else if Ascii.eqb c "s" then Some <$> ununary r else None
  | EmptyString => None
  end.

Definition split_dot : string -> list string := split_on ".".

Definition toy_jsign (k : string) (p : Payload) : string :=
  hexs k +:+ String "." (hexs (userId p) +:+ String "." (unary (iat p)
    +:+ String "." (enc_exp (exp p)))).

Definition toy_jdecode (k t : string) : option Payload :=
  match split_dot t with
  | [a; b; c; d] =>
      if String.eqb a (hexs k) then
        match unhexs b, ununary c, dec_exp d with
        | Some u, Some i, Some e => Some (mkPayload u i e)
        | _, _, _ => None
        end
      else None
  | _ => None
  end.

Definition no_dot : string -> bool := no_sep ".".

Lemma split_dot_nodot a : no_dot a = true -> split_dot a = [a].
Proof. apply split_on_nosep. Qed.

Lemma split_dot_app a b :
  no_dot a = true -> split_dot (a +:+ String "." b) = a :: split_dot b.
Proof. apply split_on_app. Qed.

Lemma N_of_ascii_lt c : (Ascii.N_of_ascii c < 256)%N.
Proof. destruct c as [[] [] [] [] [] [] [] []]; by vm_compute. Qed.

Lemma string_forall_hexs f s :
  (forall d, (d < 16)%N -> f (hex_char d) = true) -> string_forall f (hexs s) = true.
Proof.
  intros Hf. induction s as [|c s IH]; [done|]. cbn [hexs]. by rewrite string_forall_hex_fill.
Qed.

Lemma hex_char_no_dot d : (d < 16)%N -> negb (Ascii.eqb (hex_char d) ".") = true.
Proof. intros Hd. by apply hex_char_ne. Qed.

Lemma hex_char_token d : (d < 16)%N -> token_char (hex_char d) = true.
Proof.
  intros Hd. unfold token_char. rewrite N_of_hex_char by done.
  destruct (N.ltb_spec d 10);
    repeat match goal with |- context [(?a <=? ?b)%N] => destruct (N.leb_spec a b) end;
    simpl; try done; lia.
Qed.

Lemma unhexs_hexs s : unhexs (hexs s) = Some s.
Proof.
  induction s as [|c s IH]; simpl; [done|]. rewrite IH.
  pose proof (hex_parse_fill 2 (Ascii.N_of_ascii c) "" 0) as Hp. simpl in Hp |- *.
  rewrite Hp. rewrite N.mod_small by apply N_of_ascii_lt.
  change (0 * 16 ^ N.of_nat 2)%N with 0%N. by rewrite N.add_0_l, Ascii.ascii_N_embedding.
Qed.

Lemma ununary_unary n : ununary (unary n) = Some n.
Proof. induction n as [|n IH]; simpl; [done|]. by rewrite IH. Qed.

Lemma nodot_unary n : no_dot (unary n) = true.
Proof. unfold no_dot. induction n; simpl; auto. Qed.

Lemma token_unary n : string_forall token_char (unary n) = true.
Proof. induction n; simpl; auto. Qed.

#[export] Program Instance toy_jwt : JwtScheme := {|
  jsign := toy_jsign; jdecode := toy_jdecode |}.
Next Obligation.
  intros k [u i e]. unfold toy_jdecode, toy_jsign. simpl.
  rewrite !split_dot_app by
    (apply string_forall_hexs || apply nodot_unary; apply hex_char_no_dot).
  rewrite split_dot_nodot by (by destruct e as [n|]; [apply nodot_unary|]).
  rewrite String.eqb_refl, unhexs_hexs, ununary_unary.
  destruct e as [n|]; simpl; [by rewrite ununary_unary|done].
Qed.
Next Obligation.
  intros k [u i e]. unfold toy_jsign. cbn [userId iat exp].
  rewrite !string_forall_app. cbn [string_forall]. rewrite !string_forall_app.
  cbn [string_forall]. rewrite !string_forall_app. cbn [string_forall].
  rewrite !string_forall_hexs, token_unary by apply hex_char_token.
  destruct e; simpl; [by rewrite token_unary|done].
Qed.
Next Obligation. done. Qed.

End Crypto.
