(* ===== verification/Mongo.v ===== *)
(** * The two Mongoose models and the calls the handlers make

    [UserSchema] and [CustomerSchema] (index.js lines 24-37) become the
    records [User] and [Customer]; the database is the two collections in
    natural (insertion) order and the driver's ObjectId counter.  Each
    Mongoose call of a handler is an [SE Db Exn] computation: it reads or
    writes the collections, or throws what Mongoose throws ([CastError]
    for an id that is not 24 hex digits, [ValidationError] for a
    [required] path that is missing or empty, the duplicate key error of
    the unique index on [username]).  The invariant [db_wf] is what the
    collections keep between requests. *)

From S2P Require Import Prelude Hex.

Module Mongo.
Import Hex.

(** ** Documents and state *)

(** [UserSchema]: [username] required and unique, [password] required
    (it holds the bcrypt hash). *)
Record User := mkUser { u_id : N; username : string; password : string }.

(** [CustomerSchema]: [name] and [membershipType] required, [user] the
    owner's ObjectId. *)
Record Customer := mkCustomer {
  c_id : N; name : string; membershipType : string; user : N }.

#[export] Instance User_eq_dec : EqDecision User.
Proof. solve_decision. Defined.
#[export] Instance Customer_eq_dec : EqDecision Customer.
Proof. solve_decision. Defined.

(** The [users] and [customers] collections and the next ObjectId the
    driver hands out. *)
Record Db := mkDb { users : list User; customers : list Customer; next_oid : N }.

Definition with_users (s : Db) (l : list User) : Db := mkDb l (customers s) (next_oid s).
Definition with_customers (s : Db) (l : list Customer) : Db := mkDb (users s) l (next_oid s).

(** What a Mongoose call can throw; the handlers' [catch] turns each
    into a 500 response.  [BufferTimeout] is the [MongooseError] of a
    call buffered while the connection is down (see [Connection]). *)
Inductive Exn := CastError | ValidationError | DuplicateKey | IllegalArguments | BufferTimeout.

Abbreviation M := (SE Db Exn).

(** ** The calls *)

(** [new User(...)] / [new Customer(...)] draws a fresh [_id]. *)
Definition new_oid : M N :=
  fun s => (inr (next_oid s), mkDb (users s) (customers s) (next_oid s + 1)%N).

(** Mongoose's [required] validator for a String path: present and not
    the empty string. *)
Definition required (v : option string) : option string :=
  match v with
  | Some x => if String.eqb x "" then None else Some x
  | None => None
  end.

(** [User.findOne({ username })]: the first user with that name; a
    missing name is [null] in the query and matches no stored user. *)
Definition User_findOne (uname : option string) : M (option User) :=
  gets (fun s => List.find (fun u => bool_decide (Some (username u) = uname)) (users s)).

(** [user.save()] for [new User({ username, password })]: validation,
    then the unique index on [username], then the insert. *)
Definition User_save (oid : N) (uname : option string) (pw : string) : M unit :=
  match required uname, required (Some pw) with
  | Some n, Some p =>
      s ← gets id;
      if existsb (fun u => String.eqb (username u) n) (users s) then throw DuplicateKey
      else modify (fun s => with_users s (users s ++ [mkUser oid n p]))
  | _, _ => throw ValidationError
  end.

(** [customer.save()] for [new Customer({ name, membershipType, user:
    req.userId })]: both strings required, and [user] cast to an
    ObjectId (a failed cast is reported at validation). *)
Definition Customer_save (oid : N) (nm mt : option string) (uid : string) : M unit :=
  match required nm, required mt, cast_oid uid with
  | Some n, Some t, Some u =>
      modify (fun s => with_customers s (customers s ++ [mkCustomer oid n t u]))
  | _, _, _ => throw ValidationError
  end.

(** The filter [{ user: req.userId }] once cast. *)
Definition owned_by (u : N) (c : Customer) : bool := bool_decide (user c = u).

(** The filter [{ _id: req.params.id, user: req.userId }] once cast. *)
Definition id_owned_by (i u : N) (c : Customer) : bool :=
  bool_decide (c_id c = i) && owned_by u c.

(** [Customer.find({ user: req.userId })]. *)
Definition Customer_find (uid : string) : M (list Customer) :=
  match cast_oid uid with
  | Some u => gets (fun s => List.filter (owned_by u) (customers s))
  | None => throw CastError
  end.

(** The update [{ name, membershipType }]: an [undefined] field is
    stripped from the update (Mongoose 7 and later) and the field keeps
    its value; [findOneAndUpdate] runs no validators by default. *)
Definition apply_update (nm mt : option string) (c : Customer) : Customer :=
  mkCustomer (c_id c) (default (name c) nm) (default (membershipType c) mt) (user c).

(** [Customer.findOneAndUpdate({ _id, user }, { name, membershipType })],
    resolving to the matched document before the update, or [null]. *)
Definition Customer_findOneAndUpdate (id uid : string) (nm mt : option string)
  : M (option Customer) :=
  match cast_oid id, cast_oid uid with
  | Some i, Some u =>
      fun s => let '(r, l) := update_first (id_owned_by i u) (apply_update nm mt) (customers s) in
               (inr r, with_customers s l)
  | _, _ => throw CastError
  end.

(** [Customer.findOneAndDelete({ _id, user })]. *)
Definition Customer_findOneAndDelete (id uid : string) : M (option Customer) :=
  match cast_oid id, cast_oid uid with
  | Some i, Some u =>
      fun s => let '(r, l) := delete_first (id_owned_by i u) (customers s) in
               (inr r, with_customers s l)
  | _, _ => throw CastError
  end.

(** [new User({ username, password }); await user.save()] (lines
    62-67) and [new Customer({...}); await customer.save()] (lines
    101-107): the id is drawn when the document is built, before the
    save can fail. *)
Definition User_create (uname : option string) (pw : string) : M unit :=
  oid ← new_oid; User_save oid uname pw.

Definition Customer_create (nm mt : option string) (uid : string) : M unit :=
  oid ← new_oid; Customer_save oid nm mt uid.

(** ** The invariant of the collections *)

(** Ids are distinct and below the counter; usernames are distinct
    (the unique index) and non-empty; stored hashes are non-empty. *)
Definition db_wf (s : Db) : Prop :=
  NoDup (u_id <$> users s) /\ NoDup (username <$> users s) /\
  Forall (fun u => (u_id u < next_oid s)%N /\ username u <> "" /\ password u <> "") (users s) /\
  NoDup (c_id <$> customers s) /\
  Forall (fun c => (c_id c < next_oid s)%N) (customers s).

#[export] Instance db_wf_dec s : Decision (db_wf s).
Proof. unfold db_wf. apply _. Defined.

Definition initial_db : Db := mkDb [] [] 0.

Definition preserves {A} (m : M A) : Prop := forall s, db_wf s -> db_wf (m s).2.

Lemma initial_db_wf : db_wf initial_db.
Proof. repeat split; constructor. Qed.

Lemma preserves_bind {A B} (m : M A) (k : A -> M B) :
  preserves m -> (forall x, preserves (k x)) -> preserves (m ≫= k).
Proof.
  intros Hm Hk s Hs. rewrite SE_bind_run.
  pose proof (Hm s Hs) as H. destruct (m s) as [[e|x] s']; [done|]. by apply Hk.
Qed.

Lemma preserves_ret {A} (x : A) : preserves (mret x).
Proof. by intros s Hs. Qed.

Lemma preserves_throw {A} e : preserves (throw (A := A) e).
Proof. by intros s Hs. Qed.

Lemma preserves_gets {A} (f : Db -> A) : preserves (gets f).
Proof. by intros s Hs. Qed.

#[export] Hint Resolve preserves_bind preserves_ret preserves_throw preserves_gets : gym.

(** Computations that only read leave the database as it was. *)
Definition readonly {A} (m : M A) : Prop := forall s, (m s).2 = s.

Lemma readonly_bind {A B} (m : M A) (k : A -> M B) :
  readonly m -> (forall x, readonly (k x)) -> readonly (m ≫= k).
Proof.
  intros Hm Hk s. rewrite SE_bind_run. specialize (Hm s).
  destruct (m s) as [[e|x] s']; simpl in *; [done|]. by rewrite Hk.
Qed.

Lemma readonly_ret {A} (x : A) : readonly (mret x).
Proof. done. Qed.

Lemma readonly_throw {A} e : readonly (throw (A := A) e).
Proof. done. Qed.

Lemma readonly_gets {A} (f : Db -> A) : readonly (gets f).
Proof. done. Qed.

#[export] Hint Resolve readonly_bind readonly_ret readonly_throw readonly_gets : gym.

Lemma Forall_lt_mono {T} (g : T -> N) (l : list T) a b :
  (a <= b)%N -> Forall (fun x => (g x < a)%N) l -> Forall (fun x => (g x < b)%N) l.
Proof. intros Hab Hl. eapply Forall_impl; [exact Hl|]. intros x. simpl. lia. Qed.

Lemma NoDup_fmap_snoc {T B} (g : T -> B) (l : list T) x :
  NoDup (g <$> l) -> g x ∉ g <$> l -> NoDup (g <$> l ++ [x]).
Proof.
  intros Hl Hx. rewrite fmap_app. apply NoDup_app. split; [done|].
  split; [|apply NoDup_singleton]. simpl. set_solver.
Qed.

Lemma fresh_not_in {T} (g : T -> N) (l : list T) n :
  Forall (fun y => (g y < n)%N) l -> n ∉ g <$> l.
Proof.
  rewrite Forall_forall. intros Hl Hn. apply list_elem_of_fmap in Hn as (y & Hy & Hin).
  specialize (Hl y Hin). lia.
Qed.

Lemma required_Some v x : required v = Some x -> v = Some x /\ x <> "".
Proof.
  destruct v as [y|]; simpl; [|done].
  destruct (String.eqb_spec y "") as [->|Hy]; [done|]. by intros [= <-].
Qed.

Lemma eqb_nonempty x : x <> "" -> String.eqb x "" = false.
Proof. apply String.eqb_neq. Qed.

Lemma required_nonempty x : x <> "" -> required (Some x) = Some x.
Proof. intros Hx. simpl. by rewrite eqb_nonempty. Qed.

Lemma existsb_username_free (l : list User) un :
  un ∉ username <$> l -> existsb (fun u => String.eqb (username u) un) l = false.
Proof.
  intros Hfree. apply not_true_iff_false. intros (u & Hu & He)%existsb_exists.
  apply String.eqb_eq in He. apply Hfree, list_elem_of_fmap. exists u.
  split; [done|]. by apply list_elem_of_In.
Qed.

(** Saving a user under a free, non-empty name appends it. *)
Lemma User_create_spec s un h :
  un <> "" -> h <> "" -> un ∉ username <$> users s ->
  User_create (Some un) h s =
    (inr tt, mkDb (users s ++ [mkUser (next_oid s) un h]) (customers s) (next_oid s + 1)).
Proof.
  intros Hun Hh Hfree. unfold User_create, User_save. rewrite SE_bind_run. simpl.
  rewrite !eqb_nonempty by done. rewrite SE_bind_run. simpl.
  by rewrite existsb_username_free.
Qed.

Lemma User_findOne_run un s :
  User_findOne un s =
    (inr (List.find (fun u => bool_decide (Some (username u) = un)) (users s)), s).
Proof. reflexivity. Qed.

(** [oid] is above every stored id and below the counter. *)
Definition fresh_for (s : Db) (oid : N) : Prop :=
  (oid < next_oid s)%N /\ Forall (fun u => (u_id u < oid)%N) (users s) /\
  Forall (fun c => (c_id c < oid)%N) (customers s).

Lemma new_oid_fresh s :
  db_wf s -> db_wf (new_oid s).2 /\ fresh_for (new_oid s).2 (next_oid s).
Proof.
  intros (Hid & Hnm & Hus & Hcid & Hcs). simpl.
  repeat split; simpl; try done; try lia.
  - eapply Forall_impl; [done|]. intros u (? & ? & ?). repeat split; [lia|done..].
  - eapply Forall_lt_mono; [|done]; lia.
  - eapply Forall_impl; [done|]. by intros u (? & ? & ?).
Qed.

Lemma User_save_wf s oid uname pw :
  db_wf s -> fresh_for s oid -> db_wf (User_save oid uname pw s).2.
Proof.
  intros (Hid & Hnm & Hus & Hcid & Hcs) (Hlt & Hfu & Hfc). unfold User_save.
  destruct (required uname) as [nm|] eqn:Hr; [|by repeat split].
  destruct (required (Some pw)) as [p|] eqn:Hp; [|by repeat split].
  apply required_Some in Hr as [_ Hr], Hp as [_ Hp]. rewrite SE_bind_run. simpl.
  destruct (existsb (fun u => String.eqb (username u) nm) (users s)) eqn:Hex; simpl; [by repeat split|].
  repeat split; simpl; try done.
  - apply NoDup_fmap_snoc; [done|]. by apply fresh_not_in.
  - apply NoDup_fmap_snoc; [done|]. simpl. intros (u & Hu & Hin)%list_elem_of_fmap.
    apply not_true_iff_false in Hex. apply Hex, existsb_exists.
    exists u. split; [by apply list_elem_of_In|]. by apply String.eqb_eq.
  - apply Forall_app. split; [done|]. by repeat constructor.
Qed.

Lemma Customer_save_wf s oid nm mt uid :
  db_wf s -> fresh_for s oid -> db_wf (Customer_save oid nm mt uid s).2.
Proof.
  intros (Hid & Hnm & Hus & Hcid & Hcs) (Hlt & Hfu & Hfc). unfold Customer_save.
  repeat case_match; try by repeat split.
  repeat split; simpl; try done.
  - apply NoDup_fmap_snoc; [done|]. by apply fresh_not_in.
  - apply Forall_app. split; [done|]. by repeat constructor.
Qed.

Lemma User_create_wf uname pw : preserves (User_create uname pw).
Proof.
  intros s Hs. unfold User_create. rewrite SE_bind_run.
  destruct (new_oid_fresh s Hs) as [Hs' Hf]. by apply User_save_wf.
Qed.

Lemma Customer_create_wf nm mt uid : preserves (Customer_create nm mt uid).
Proof.
  intros s Hs. unfold Customer_create. rewrite SE_bind_run.
  destruct (new_oid_fresh s Hs) as [Hs' Hf]. by apply Customer_save_wf.
Qed.

Lemma User_findOne_wf u : preserves (User_findOne u).
Proof. apply preserves_gets. Qed.

Lemma Customer_find_wf uid : preserves (Customer_find uid).
Proof. unfold Customer_find. case_match; auto with gym. Qed.

Lemma Customer_findOneAndUpdate_wf id uid nm mt :
  preserves (Customer_findOneAndUpdate id uid nm mt).
Proof.
  unfold Customer_findOneAndUpdate. intros s (Hid & Hnm & Hus & Hcid & Hcs).
  repeat case_match; try by repeat split.
  match goal with H : update_first ?p ?f ?l = (?r, ?l') |- _ =>
    pose proof (update_first_fmap p c_id f l) as Hl;
    pose proof (update_first_Forall p (fun c => (c_id c < next_oid s)%N) f l) as Hf;
    rewrite H in Hl, Hf end.
  simpl in Hl, Hf.
  repeat split; simpl; try done.
  - rewrite Hl; [done|]. by intros [].
  - apply Hf; [|done]. by intros [].
Qed.

Lemma Customer_findOneAndDelete_wf id uid : preserves (Customer_findOneAndDelete id uid).
Proof.
  unfold Customer_findOneAndDelete. intros s (Hid & Hnm & Hus & Hcid & Hcs).
  repeat case_match; try by repeat split.
  match goal with H : delete_first ?p ?l = (?r, ?l') |- _ =>
    pose proof (delete_first_sublist p l) as Hsub; rewrite H in Hsub end.
  simpl in Hsub. repeat split; simpl; try done.
  - eapply sublist_NoDup; [exact Hcid|]. by apply sublist_fmap_of.
  - by eapply Forall_sublist_of.
Qed.

Lemma User_findOne_ro u : readonly (User_findOne u).
Proof. apply readonly_gets. Qed.

Lemma Customer_find_ro uid : readonly (Customer_find uid).
Proof. unfold Customer_find. case_match; auto with gym. Qed.

#[export] Hint Resolve User_findOne_ro Customer_find_ro : gym.

#[export] Hint Resolve User_create_wf Customer_create_wf User_findOne_wf Customer_find_wf
  Customer_findOneAndUpdate_wf Customer_findOneAndDelete_wf : gym.

End Mongo.
