(* ===== verification/Auth.v ===== *)
(** * Configuration and the [verifyToken] middleware

    [JWT_SECRET] (index.js line 9) falls back to a constant when the
    environment variable is unset or empty.  [verifyToken] (lines 39-51)
    answers 403 when the [authorization] header is absent or empty,
    removes the first occurrence of ["Bearer "] with JavaScript's
    [String.prototype.replace], and answers 401 unless [jwt.verify]
    accepts the rest; otherwise the request proceeds with [req.userId]. *)

From S2P Require Import Prelude Hex Crypto.

Module Auth.
Import Crypto.

Definition default_secret : string := "your_jwt_secret_key".

(** [process.env.JWT_SECRET || 'your_jwt_secret_key']: [||] also skips
    the empty string, which is falsy. *)
Definition jwt_secret (env : option string) : string :=
  match env with
  | Some k => if String.eqb k "" then default_secret else k
  | None => default_secret
  end.

(** [s.replace(pat, rep)] with a string pattern: only the first
    occurrence, searched from the left, is replaced. *)
Fixpoint replace_first (pat rep s : string) : string :=
  if String.prefix pat s then
    rep +:+ String.substring (String.length pat) (String.length s - String.length pat) s
  else match s with
       | EmptyString => EmptyString
       | String c s' => String c (replace_first pat rep s')
       end.

Definition bearer : string := "Bearer ".

(** What the middleware decides: the response it sends, or [next()]
    with [req.userId]. *)
Inductive AuthResult :=
| AuthDenied (status : nat) (msg : string)
| AuthOk (userId : string).

Section Middleware.
Context `{JwtScheme}.

Definition verifyToken (secret : string) (now : nat) (authorization : option string)
  : AuthResult :=
  match authorization with
  | None => AuthDenied 403 "Token Missing"
  | Some h =>
      if String.eqb h "" then AuthDenied 403 "Token Missing"
      else
        let token := replace_first bearer "" h in
        match jwt_verify secret now token with
        | None => AuthDenied 401 "Invalid Token"
        | Some decoded => AuthOk (userId decoded)
        end
  end.
End Middleware.

(** ** Strings *)

Lemma substring_full s : String.substring 0 (String.length s) s = s.
Proof. induction s as [|c s IH]; simpl; [done|]. by rewrite IH. Qed.

Lemma substring_after a b :
  String.substring (String.length a) (String.length (a +:+ b) - String.length a) (a +:+ b) = b.
Proof.
  induction a as [|c a IH]; simpl; [|done].
  by rewrite Nat.sub_0_r, substring_full.
Qed.

Lemma prefix_app a b : String.prefix a (a +:+ b) = true.
Proof.
  induction a as [|c a IH]; simpl; [by destruct b|].
  by destruct (Ascii.ascii_dec c c).
Qed.

(** A prefix of a string passes every test the string passes. *)
Lemma prefix_forall f pat s :
  String.prefix pat s = true -> string_forall f s = true -> string_forall f pat = true.
Proof.
  revert s. induction pat as [|c pat IH]; intros [|c' s]; simpl; try done.
  destruct (Ascii.ascii_dec c c') as [<-|]; [|done].
  intros Hp [Hc Hs]%andb_true_iff. rewrite Hc. simpl. eauto.
Qed.

(** [replace_first] unfolded once on a non-empty string. *)
Lemma replace_first_cons pat rep c s :
  replace_first pat rep (String c s) =
    if String.prefix pat (String c s) then
      rep +:+ String.substring (String.length pat)
                (String.length (String c s) - String.length pat) (String c s)
    else String c (replace_first pat rep s).
Proof. reflexivity. Qed.

(** [replace] finds no occurrence in a string that lacks one of the
    pattern's characters. *)
Lemma replace_first_absent f pat rep s :
  string_forall f pat = false -> string_forall f s = true -> replace_first pat rep s = s.
Proof.
  intros Hpat. induction s as [|c s IH]; intros Hs.
  - simpl. by destruct pat.
  - rewrite replace_first_cons.
    destruct (String.prefix pat (String c s)) eqn:Hp.
    + rewrite (prefix_forall f pat (String c s) Hp Hs) in Hpat. done.
    + simpl in Hs. apply andb_true_iff in Hs as [_ Hs]. by rewrite IH.
Qed.

(** The header [Bearer <token>] gives back [<token>]. *)
Lemma replace_first_prefix pat rep t :
  pat <> "" -> replace_first pat rep (pat +:+ t) = rep +:+ t.
Proof.
  destruct pat as [|c p]; [done|]. intros _.
  change (String c p +:+ t) with (String c (p +:+ t)). rewrite replace_first_cons.
  change (String c (p +:+ t)) with (String c p +:+ t).
  by rewrite prefix_app, substring_after.
Qed.

Lemma replace_bearer t : replace_first bearer "" (bearer +:+ t) = t.
Proof. by apply replace_first_prefix. Qed.

Lemma token_no_bearer `{JwtScheme} k p : replace_first bearer "" (jsign k p) = jsign k p.
Proof. apply (replace_first_absent token_char); [done|apply jsign_chars]. Qed.

#[export] Hint Rewrite replace_bearer @token_no_bearer : gym_rw.

(** ** The middleware *)

Section Theorems.
Context `{JwtScheme}.

(** The signing in [/api/Login] (line 86): [{ userId }] with
    [expiresIn: '1h'], so [iat] is the current second and [exp] one
    hour later. *)
Definition jwt_sign_1h (secret uid : string) (now : nat) : string :=
  jsign secret (mkPayload uid now (Some (now + 3600))).

(** C5: The one-hour window of an issued token: accepted with its user id
    at every second before [t + 3600], refused with 401 at every
    second from [t + 3600] on. *)
Theorem verifyToken_window secret uid t now :
  (now < t + 3600 ->
   verifyToken secret now (Some (bearer +:+ jwt_sign_1h secret uid t)) = AuthOk uid) /\
  (t + 3600 <= now ->
   verifyToken secret now (Some (bearer +:+ jwt_sign_1h secret uid t)) =
     AuthDenied 401 "Invalid Token").
Proof.
  unfold verifyToken, jwt_sign_1h. rewrite replace_bearer, jwt_verify_jsign. simpl.
  split; intros Hn; destruct (Nat.leb_spec (t + 3600) now); first [done | lia].
Qed.

(** A token the server issued at second [t], presented as
    [Bearer <token>], lets the request through with its user id
    strictly before [t + 3600], and is refused with 401 from then
    on. *)
Lemma verify_issued secret uid t now :
  verifyToken secret now (Some (bearer +:+ jwt_sign_1h secret uid t)) =
    if (now <? t + 3600)%nat then AuthOk uid else AuthDenied 401 "Invalid Token".
Proof.
  unfold verifyToken, jwt_sign_1h. rewrite replace_bearer, jwt_verify_jsign. simpl.
  destruct (Nat.ltb_spec now (t + 3600)), (Nat.leb_spec (t + 3600) now); try lia; done.
Qed.

(** Without the header, or with an empty one, the middleware answers
    403 whatever the secret and the time. *)
Lemma verifyToken_missing secret now h :
  h = None \/ h = Some "" -> verifyToken secret now h = AuthDenied 403 "Token Missing".
Proof. by intros [-> | ->]. Qed.

(** C28: The ["Bearer "] prefix is not required: a bare token is treated
    as the same token with the prefix, because [replace] only removes
    an occurrence when there is one. *)
Theorem verifyToken_bare_token secret now k p :
  verifyToken secret now (Some (jsign k p)) =
  verifyToken secret now (Some (bearer +:+ jsign k p)).
Proof.
  unfold verifyToken. rewrite token_no_bearer, replace_bearer.
  destruct (String.eqb_spec (jsign k p) "") as [He|]; simpl; [|done].
  pose proof (jsign_chars k p) as Hc. pose proof (jdecode_jsign k p) as Hd.
  rewrite He, jdecode_empty in Hd. done.
Qed.

(** C29: With [JWT_SECRET] unset or empty, the secret is the constant of
    the source, so anyone can sign a token, for any user id and with
    no expiry, that [verifyToken] accepts at every time. *)
Theorem default_secret_forgeable env uid now :
  env = None \/ env = Some "" ->
  verifyToken (jwt_secret env) now
    (Some (bearer +:+ jsign default_secret (mkPayload uid 0 None))) = AuthOk uid.
Proof.
  intros Henv. assert (Hk : jwt_secret env = default_secret) by (by destruct Henv as [-> | ->]).
  rewrite Hk. unfold verifyToken. by rewrite replace_bearer, jwt_verify_jsign.
Qed.
End Theorems.

(** ** Witnesses, with the toy JWT instance *)

Lemma verifyToken_window_witness :
  verifyToken "k" 3599 (Some (bearer +:+ jwt_sign_1h "k" "u" 0)) = AuthOk "u" /\
  verifyToken "k" 3600 (Some (bearer +:+ jwt_sign_1h "k" "u" 0)) = AuthDenied 401 "Invalid Token".
Proof.
  split; [apply (proj1 (verifyToken_window "k" "u" 0 3599)) | apply (proj2 (verifyToken_window "k" "u" 0 3600))];
    lia.
Defined.

Lemma default_secret_forgeable_witness :
  verifyToken (jwt_secret None) 99999
    (Some (bearer +:+ jsign default_secret (mkPayload "000000000000000000000000" 0 None)))
  = AuthOk "000000000000000000000000".
Proof. apply default_secret_forgeable. by left. Defined.

End Auth.
