(* ===== verification/Handlers.v ===== *)
(** * The route handlers and the Express application

    Each [async (req, res) => { try { ... } catch { 500 } }] handler of
    index.js (lines 53-154) is an [SE Db Exn Response] computation run by
    [catch_500]; [app] routes a request the way Express does (paths
    matched case-insensitively, an optional trailing slash, [:id] one
    non-empty segment), lets [cors()] answer preflight requests, runs
    [verifyToken] before the four customer routes, and answers 404 to
    anything else.  One request runs at a time here; the interleaving of
    the [await] points of concurrent requests is modelled in a later
    file. *)

From S2P Require Import Prelude Hex Crypto Mongo Auth.

Module Handlers.
Import Hex Crypto Mongo Auth.

(** ** Requests and responses *)

Inductive Method := GET | POST | PUT | DELETE | OPTIONS | OtherMethod (m : string).

(** The JSON body after [express.json()]: each field a string or
    absent ([undefined]). *)
Record Body := mkBody {
  b_username : option string; b_password : option string;
  b_name : option string; b_membershipType : option string }.

Definition empty_body : Body := mkBody None None None None.

Record Request := mkRequest {
  method : Method; path : string; authorization : option string; body : Body }.

(** [res.json({ message })], [res.json({ token })], [res.json(customers)],
    [res.send(text)], the empty body of a 204, and Express's HTML 404. *)
Inductive RespBody :=
| JMessage (m : string)
| JToken (t : string)
| JCustomers (l : list Customer)
| Text (t : string)
| NoBody
| CannotRoute.

Record Response := mkResponse { status : nat; rbody : RespBody }.

(** The time ([Math.floor(Date.now() / 1000)]) and the salt bcrypt
    draws while the request runs. *)
Record Ctx := mkCtx { now : nat; salt : nat }.

Definition server_error : Response := mkResponse 500 (JMessage "Server Error").

(** The handlers' [catch (error)]: any exception becomes a 500. *)
Definition catch_500 (m : M Response) (s : Db) : Response * Db :=
  match m s with
  | (inl _, s') => (server_error, s')
  | (inr r, s') => (r, s')
  end.

Lemma catch_500_state m s : (catch_500 m s).2 = (m s).2.
Proof. unfold catch_500. by destruct (m s) as [[e|r] s']. Qed.

Section Handlers.
Context `{PasswordHasher} `{JwtScheme}.

(** [await bcrypt.hash(password, 10)]: bcryptjs rejects an argument
    that is not a string. *)
Definition bcrypt_hash (pw : option string) (salt : nat) : M string :=
  match pw with Some p => mret (bhash p salt) | None => throw IllegalArguments end.

(** [await bcrypt.compare(password, user.password)]. *)
Definition bcrypt_compare (pw : option string) (h : string) : M bool :=
  match pw with Some p => mret (bcompare p h) | None => throw IllegalArguments end.

(** [POST /api/register] (lines 53-74). *)
Definition register (salt : nat) (b : Body) : M Response :=
  oldUser ← User_findOne (b_username b);
  match oldUser with
  | Some _ => mret (mkResponse 400 (JMessage "Username already exists"))
  | None =>
      hashedPassword ← bcrypt_hash (b_password b) salt;
      User_create (b_username b) hashedPassword;;
      mret (mkResponse 201 (JMessage "User Registered Successfully"))
  end.

(** [POST /api/Login] (lines 76-94); note the two 401 messages. *)
Definition login (secret : string) (now : nat) (b : Body) : M Response :=
  user ← User_findOne (b_username b);
  match user with
  | None => mret (mkResponse 401 (JMessage "Invaild Credentials"))
  | Some u =>
      isMatch ← bcrypt_compare (b_password b) (password u);
      if (isMatch : bool) then mret (mkResponse 200 (JToken (jwt_sign_1h secret (oid_hex (u_id u)) now)))
      else mret (mkResponse 401 (JMessage "Invalid Credentials"))
  end.

(** [POST /api/Customer] (lines 97-114). *)
Definition addCustomer (userId : string) (b : Body) : M Response :=
  Customer_create (b_name b) (b_membershipType b) userId;;
  mret (mkResponse 201 (JMessage "Customer Added Successfully")).

(** [GET /api/readCustomer] (lines 116-125). *)
Definition readCustomer (userId : string) : M Response :=
  customers ← Customer_find userId;
  mret (mkResponse 200 (JCustomers customers)).

(** [PUT /api/Customer/:id] (lines 127-142): the result of
    [findOneAndUpdate] is not looked at. *)
Definition updateCustomer (id userId : string) (b : Body) : M Response :=
  Customer_findOneAndUpdate id userId (b_name b) (b_membershipType b);;
  mret (mkResponse 200 (JMessage "Customer Updated Successfully")).

(** [DELETE /api/Customer/:id] (lines 145-154). *)
Definition deleteCustomer (id userId : string) : M Response :=
  Customer_findOneAndDelete id userId;;
  mret (mkResponse 200 (JMessage "Customer Deleted Successfully")).
End Handlers.

(** ** Routing *)

(** The letters Express's case-insensitive route regexps fold. *)
Definition ascii_lower (c : ascii) : ascii :=
  let n := Ascii.N_of_ascii c in
  if (65 <=? n)%N && (n <=? 90)%N then Ascii.ascii_of_N (n + 32) else c.

Fixpoint lower (s : string) : string :=
  match s with
  | EmptyString => EmptyString
  | String c s' => String (ascii_lower c) (lower s')
  end.

Definition seg_is (lit seg : string) : bool := String.eqb (lower seg) (lower lit).

(** The segments after the leading ["/"]; Express's non-strict routes
    accept one trailing slash ([\/?$]). *)
Definition path_segments (p : string) : option (list string) :=
  match split_on "/" p with
  | EmptyString :: segs =>
      match last segs with
      | Some EmptyString => Some (removelast segs)
      | _ => Some segs
      end
  | _ => None
  end.

Inductive PublicRoute := RRegister | RLogin.
Inductive ProtectedRoute :=
| RAddCustomer | RReadCustomer | RUpdateCustomer (id : string) | RDeleteCustomer (id : string).
Inductive Route := Public (r : PublicRoute) | Protected (r : ProtectedRoute).

(** The six [app.METHOD(path, ...)] registrations; [:id] is one
    non-empty segment ([[^\/]+?]). *)
Definition route (m : Method) (p : string) : option Route :=
  match m, path_segments p with
  | POST, Some [a; b] =>
      if seg_is "api" a && seg_is "register" b then Some (Public RRegister)
      else if seg_is "api" a && seg_is "Login" b then Some (Public RLogin)
      else if seg_is "api" a && seg_is "Customer" b then Some (Protected RAddCustomer)
      else None
  | GET, Some [a; b] =>
      if seg_is "api" a && seg_is "readCustomer" b then Some (Protected RReadCustomer) else None
  | PUT, Some [a; b; i] =>
      if seg_is "api" a && seg_is "Customer" b && negb (String.eqb i "")
      then Some (Protected (RUpdateCustomer i)) else None
  | DELETE, Some [a; b; i] =>
      if seg_is "api" a && seg_is "Customer" b && negb (String.eqb i "")
      then Some (Protected (RDeleteCustomer i)) else None
  | _, _ => None
  end.

Section App.
Context `{PasswordHasher} `{JwtScheme}.

Definition protected_handler (r : ProtectedRoute) (uid : string) (b : Body) : M Response :=
  match r with
  | RAddCustomer => addCustomer uid b
  | RReadCustomer => readCustomer uid
  | RUpdateCustomer id => updateCustomer id uid b
  | RDeleteCustomer id => deleteCustomer id uid
  end.

(** The whole application for one request: [cors()] ends every
    preflight with 204, an unmatched request falls through to
    Express's 404, and the customer routes run [verifyToken] first. *)
Definition app (secret : string) (ctx : Ctx) (req : Request) (s : Db) : Response * Db :=
  match method req with
  | OPTIONS => (mkResponse 204 NoBody, s)
  | m =>
      match route m (path req) with
      | None => (mkResponse 404 CannotRoute, s)
      | Some (Public RRegister) => catch_500 (register (salt ctx) (body req)) s
      | Some (Public RLogin) => catch_500 (login secret (now ctx) (body req)) s
      | Some (Protected r) =>
          match verifyToken secret (now ctx) (authorization req) with
          | AuthDenied st msg => (mkResponse st (Text msg), s)
          | AuthOk uid => catch_500 (protected_handler r uid (body req)) s
          end
      end
  end.
End App.

End Handlers.
