(* ===== verification/Fixtures.v ===== *)
(** * Concrete data for the witnesses

    A database with two users, alice (ObjectId 0) and bob (ObjectId 3),
    each owning one customer record, and the tokens the server would
    have issued them at second 0, built with the toy instances of
    [Crypto]. *)

From S2P Require Import Prelude Hex Crypto Mongo Auth Handlers.

Module Fixtures.
Import Hex Crypto Mongo Auth Handlers.

Definition secret : string := "k".

Definition db1 : Db :=
  mkDb [mkUser 0 "alice" (bhash "pw1" 7); mkUser 3 "bob" (bhash "pw2" 8)]
       [mkCustomer 1 "Bob" "Gold" 0; mkCustomer 2 "Ann" "Basic" 3] 4.

Definition auth_alice : option string := Some (bearer +:+ jwt_sign_1h secret (oid_hex 0) 0).

Definition ctx1 : Ctx := mkCtx 10 9.

Definition body_nm (n t : string) : Body := mkBody None None (Some n) (Some t).

(** Discharges a decidable hypothesis at concrete data. *)
Ltac by_computation :=
  first [ reflexivity | lia | apply (bool_decide_unpack _); by vm_compute | by vm_compute ].
End Fixtures.
