(* ===== verification/Isolation.v ===== *)
(** * Ownership-scoped customer records, at the level of [app]

    The four customer routes of index.js (lines 97-154) behind
    [verifyToken]: what each does to the [customers] collection and what
    it answers, for a caller whose token carries the user id [uid] (cast
    to the ObjectId [u]).  The theorems state the data isolation of the
    spec (section 4.3): a caller reads exactly its own records, and an
    update or delete aimed at another owner's record answers 200 and
    changes nothing; and the round trips create/read, update/read and
    delete/read.  The invariant [db_wf] holds after every request. *)

From S2P Require Import Prelude Hex Crypto Mongo Auth Handlers Fixtures.

Module Isolation.
Import Hex Crypto Mongo Auth Handlers.

(** ** Routing of the customer paths *)

Definition customer_path (i : string) : string := "/api/Customer/" +:+ i.

Lemma path_segments_customer i :
  i <> "" -> no_sep "/" i = true -> path_segments (customer_path i) = Some ["api"; "Customer"; i].
Proof.
  intros Hi Hs. unfold path_segments, customer_path.
  change ("/api/Customer/" +:+ i)
    with ("" +:+ String "/" ("api" +:+ String "/" ("Customer" +:+ String "/" i))).
  rewrite !split_on_app by reflexivity. rewrite split_on_nosep by done.
  by destruct i.
Qed.

Lemma route_update i :
  i <> "" -> no_sep "/" i = true -> route PUT (customer_path i) = Some (Protected (RUpdateCustomer i)).
Proof.
  intros Hi Hs. unfold route. rewrite path_segments_customer by done. simpl.
  by destruct (String.eqb_spec i "").
Qed.

Lemma route_delete i :
  i <> "" -> no_sep "/" i = true -> route DELETE (customer_path i) = Some (Protected (RDeleteCustomer i)).
Proof.
  intros Hi Hs. unfold route. rewrite path_segments_customer by done. simpl.
  by destruct (String.eqb_spec i "").
Qed.

Section Props.
Context `{PasswordHasher} `{JwtScheme}.

(** A routed customer request with an accepted token runs its handler. *)
Lemma app_protected secret ctx m p h b s r uid :
  m <> OPTIONS -> route m p = Some (Protected r) ->
  verifyToken secret (now ctx) h = AuthOk uid ->
  app secret ctx (mkRequest m p h b) s = catch_500 (protected_handler r uid b) s.
Proof.
  intros Hm Hr Hv. unfold app. cbn [method path authorization body].
  destruct m; try congruence; by rewrite Hr, Hv.
Qed.

(** ** The Mongo calls, one equation each *)

Lemma Customer_find_spec uid u s :
  cast_oid uid = Some u ->
  Customer_find uid s = (inr (List.filter (owned_by u) (customers s)), s).
Proof. intros Hu. unfold Customer_find. by rewrite Hu. Qed.

Lemma with_customers_id s : with_customers s (customers s) = s.
Proof. by destruct s. Qed.

(** With distinct ids, no customer matches [{ _id, user: u }] when the
    record with that id belongs to someone else. *)
Lemma foreign_no_match s c u :
  NoDup (c_id <$> customers s) -> c ∈ customers s -> user c <> u ->
  Forall (fun x => id_owned_by (c_id c) u x = false) (customers s).
Proof.
  intros Hnd Hc Hu. apply Forall_forall. intros x Hx. unfold id_owned_by, owned_by.
  destruct (bool_decide_reflect (c_id x = c_id c)) as [He|]; [|done].
  rewrite (NoDup_fmap_eq c_id _ x c Hnd Hx Hc He).
  by apply bool_decide_eq_false_2.
Qed.

(** ** Reading *)

(** [GET /api/readCustomer]: 200 with the caller's records in storage
    order, no change. *)
Lemma app_read_spec secret ctx h b s uid u :
  verifyToken secret (now ctx) h = AuthOk uid -> cast_oid uid = Some u ->
  app secret ctx (mkRequest GET "/api/readCustomer" h b) s =
    (mkResponse 200 (JCustomers (List.filter (owned_by u) (customers s))), s).
Proof.
  intros Hv Hu. rewrite (app_protected _ _ _ _ _ _ _ RReadCustomer uid) by done.
  unfold catch_500, protected_handler, readCustomer. rewrite SE_bind_run.
  by rewrite (Customer_find_spec uid u).
Qed.

Lemma filter_owned_in u x l : x ∈ l -> user x = u -> x ∈ List.filter (owned_by u) l.
Proof.
  intros Hx Hu. apply list_elem_of_In, filter_In. split; [by apply list_elem_of_In|].
  unfold owned_by. by apply bool_decide_eq_true_2.
Qed.

Lemma filter_in x f (l : list Customer) : x ∈ List.filter f l -> x ∈ l.
Proof. intros Hx. apply list_elem_of_In in Hx. apply list_elem_of_In, (filter_In f x l), Hx. Qed.

(** C1: Data isolation of reads: [GET /api/readCustomer] answers 200,
    changes nothing, and lists a record exactly when it is stored and
    owned by the caller; no record of another owner ever appears. *)
Theorem app_readCustomer_isolated secret ctx h b s uid u :
  verifyToken secret (now ctx) h = AuthOk uid -> cast_oid uid = Some u ->
  exists l, app secret ctx (mkRequest GET "/api/readCustomer" h b) s =
              (mkResponse 200 (JCustomers l), s) /\
            (forall c, c ∈ l <-> c ∈ customers s /\ user c = u).
Proof.
  intros Hv Hu. eexists. split; [by apply (app_read_spec _ _ _ _ _ uid)|].
  intros c. split.
  - intros Hc. split; [by apply filter_in in Hc|].
    apply list_elem_of_In, filter_In in Hc as [_ Hc]. by apply bool_decide_eq_true_1 in Hc.
  - intros [Hc Hcu]. by apply filter_owned_in.
Qed.

(** ** The mutating routes, one equation each *)

Lemma app_addCustomer secret ctx h b s uid u n t :
  verifyToken secret (now ctx) h = AuthOk uid -> cast_oid uid = Some u ->
  b_name b = Some n -> b_membershipType b = Some t -> n <> "" -> t <> "" ->
  app secret ctx (mkRequest POST "/api/Customer" h b) s =
    (mkResponse 201 (JMessage "Customer Added Successfully"),
     mkDb (users s) (customers s ++ [mkCustomer (next_oid s) n t u]) (next_oid s + 1)).
Proof.
  intros Hv Hu Hn Ht Hn0 Ht0.
  rewrite (app_protected _ _ _ _ _ _ _ RAddCustomer uid) by done.
  unfold catch_500, protected_handler, addCustomer, Customer_create, Customer_save.
  rewrite !SE_bind_run. simpl. rewrite Hn, Ht, !required_nonempty, Hu by done. done.
Qed.

Definition updated (o u : N) (b : Body) (s : Db) : list Customer :=
  (update_first (id_owned_by o u) (apply_update (b_name b) (b_membershipType b)) (customers s)).2.

Lemma app_update_spec secret ctx h b s uid u o :
  verifyToken secret (now ctx) h = AuthOk uid -> cast_oid uid = Some u -> (o < oid_bound)%N ->
  app secret ctx (mkRequest PUT (customer_path (oid_hex o)) h b) s =
    (mkResponse 200 (JMessage "Customer Updated Successfully"), with_customers s (updated o u b s)).
Proof.
  intros Hv Hu Hb.
  rewrite (app_protected _ _ _ _ _ _ _ (RUpdateCustomer (oid_hex o)) uid)
    by auto using route_update, oid_hex_nonempty, oid_hex_nosep.
  unfold catch_500, protected_handler, updateCustomer, Customer_findOneAndUpdate, updated.
  rewrite SE_bind_run, cast_oid_hex, Hu by done. by destruct update_first.
Qed.

Definition deleted (o u : N) (s : Db) : list Customer :=
  (delete_first (id_owned_by o u) (customers s)).2.

Lemma app_delete_spec secret ctx h b s uid u o :
  verifyToken secret (now ctx) h = AuthOk uid -> cast_oid uid = Some u -> (o < oid_bound)%N ->
  app secret ctx (mkRequest DELETE (customer_path (oid_hex o)) h b) s =
    (mkResponse 200 (JMessage "Customer Deleted Successfully"), with_customers s (deleted o u s)).
Proof.
  intros Hv Hu Hb.
  rewrite (app_protected _ _ _ _ _ _ _ (RDeleteCustomer (oid_hex o)) uid)
    by auto using route_delete, oid_hex_nonempty, oid_hex_nosep.
  unfold catch_500, protected_handler, deleteCustomer, Customer_findOneAndDelete, deleted.
  rewrite SE_bind_run, cast_oid_hex, Hu by done. by destruct delete_first.
Qed.

(** ** Mutations aimed at another owner's record *)

(** C2: [PUT /api/Customer/:id] on a record of another owner reports
    success and leaves the database as it was. *)
Theorem app_update_foreign secret ctx h b s uid u c :
  db_wf s -> verifyToken secret (now ctx) h = AuthOk uid -> cast_oid uid = Some u ->
  c ∈ customers s -> user c <> u -> (c_id c < oid_bound)%N ->
  app secret ctx (mkRequest PUT (customer_path (oid_hex (c_id c))) h b) s =
    (mkResponse 200 (JMessage "Customer Updated Successfully"), s).
Proof.
  intros (_ & _ & _ & Hnd & _) Hv Hu Hc Hown Hb.
  rewrite (app_update_spec _ _ _ _ _ uid u) by done. unfold updated.
  by rewrite update_first_none, with_customers_id by by apply foreign_no_match.
Qed.

(** C3: [DELETE /api/Customer/:id] on a record of another owner reports
    success and leaves the database as it was. *)
Theorem app_delete_foreign secret ctx h b s uid u c :
  db_wf s -> verifyToken secret (now ctx) h = AuthOk uid -> cast_oid uid = Some u ->
  c ∈ customers s -> user c <> u -> (c_id c < oid_bound)%N ->
  app secret ctx (mkRequest DELETE (customer_path (oid_hex (c_id c))) h b) s =
    (mkResponse 200 (JMessage "Customer Deleted Successfully"), s).
Proof.
  intros (_ & _ & _ & Hnd & _) Hv Hu Hc Hown Hb.
  rewrite (app_delete_spec _ _ _ _ _ uid u) by done. unfold deleted.
  by rewrite delete_first_none, with_customers_id by by apply foreign_no_match.
Qed.

(** C22: An [:id] that is not 24 hex digits makes Mongoose throw a
    [CastError]: the caller gets 500, not the silent success of a
    well-formed id that matches nothing, and nothing changes. *)
Theorem app_update_bad_id secret ctx h b s uid i :
  verifyToken secret (now ctx) h = AuthOk uid ->
  i <> "" -> no_sep "/" i = true -> cast_oid i = None ->
  app secret ctx (mkRequest PUT (customer_path i) h b) s = (server_error, s).
Proof.
  intros Hv Hi Hs Hc.
  rewrite (app_protected _ _ _ _ _ _ _ (RUpdateCustomer i) uid) by auto using route_update.
  unfold catch_500, protected_handler, updateCustomer, Customer_findOneAndUpdate.
  by rewrite SE_bind_run, Hc.
Qed.

(** ** Round trips through [GET /api/readCustomer] *)

(** C8: A record created by a caller is the last of the caller's records
    that the next read returns, after the ones it had before. *)
Theorem add_then_read secret ctx ctx' h b b' s uid u n t :
  verifyToken secret (now ctx) h = AuthOk uid -> verifyToken secret (now ctx') h = AuthOk uid ->
  cast_oid uid = Some u ->
  b_name b = Some n -> b_membershipType b = Some t -> n <> "" -> t <> "" ->
  (app secret ctx' (mkRequest GET "/api/readCustomer" h b')
     (app secret ctx (mkRequest POST "/api/Customer" h b) s).2).1 =
    mkResponse 200 (JCustomers (List.filter (owned_by u) (customers s)
                                  ++ [mkCustomer (next_oid s) n t u])).
Proof.
  intros Hv Hv' Hu Hn Ht Hn0 Ht0. rewrite (app_addCustomer _ _ _ _ _ uid u n t) by done.
  rewrite (app_read_spec _ _ _ _ _ uid u) by done. simpl.
  rewrite List.filter_app. simpl. unfold owned_by at 2. by rewrite bool_decide_eq_true_2.
Qed.

(** C9: After an update of one of the caller's records with both fields,
    the caller reads the new values under the same id, and no other
    record with that id. *)
Theorem update_then_read secret ctx ctx' h b b' s uid u c n t :
  db_wf s -> verifyToken secret (now ctx) h = AuthOk uid ->
  verifyToken secret (now ctx') h = AuthOk uid -> cast_oid uid = Some u ->
  c ∈ customers s -> user c = u -> (c_id c < oid_bound)%N ->
  b_name b = Some n -> b_membershipType b = Some t ->
  exists l,
    (app secret ctx' (mkRequest GET "/api/readCustomer" h b')
       (app secret ctx (mkRequest PUT (customer_path (oid_hex (c_id c))) h b) s).2).1 =
      mkResponse 200 (JCustomers l) /\
    mkCustomer (c_id c) n t u ∈ l /\
    (forall x, x ∈ l -> c_id x = c_id c -> x = mkCustomer (c_id c) n t u).
Proof.
  intros Hwf Hv Hv' Hu Hc Hcu Hb Hn Ht.
  rewrite (app_update_spec _ _ _ _ _ uid u) by done. simpl.
  rewrite (app_read_spec _ _ _ _ _ uid u) by done. simpl.
  eexists. split; [done|].
  assert (Hp : id_owned_by (c_id c) u c = true).
  { unfold id_owned_by, owned_by. by rewrite !bool_decide_eq_true_2. }
  destruct (update_first_hit _ (apply_update (b_name b) (b_membershipType b)) _ _ Hc Hp) as [y Hy].
  destruct (update_first_split _ _ _ _ Hy) as (l1 & l2 & Hl & _ & Hyp & Hnew).
  unfold id_owned_by, owned_by in Hyp. apply andb_true_iff in Hyp as [Hyi Hyu].
  apply bool_decide_eq_true_1 in Hyi, Hyu.
  assert (Hfy : apply_update (b_name b) (b_membershipType b) y = mkCustomer (c_id c) n t u).
  { unfold apply_update. by rewrite Hn, Ht, Hyi, Hyu. }
  assert (Hin : mkCustomer (c_id c) n t u ∈ updated (c_id c) u b s).
  { unfold updated. rewrite Hnew, <-Hfy. set_solver. }
  split; [by apply filter_owned_in|].
  intros x Hx Hxi. apply filter_in in Hx.
  pose proof (Customer_findOneAndUpdate_wf (oid_hex (c_id c)) uid (b_name b) (b_membershipType b) s Hwf)
    as (_ & _ & _ & Hnd & _).
  unfold Customer_findOneAndUpdate in Hnd. rewrite cast_oid_hex, Hu in Hnd by done.
  destruct update_first as [r l'] eqn:E in Hnd. unfold updated in Hx, Hin. rewrite E in Hx, Hin.
  by apply (NoDup_fmap_eq c_id l').
Qed.

(** C10: After the caller deletes one of its records, no record with that
    id is left, for the caller or anyone else. *)
Theorem delete_then_read secret ctx ctx' h b b' s uid u c :
  db_wf s -> verifyToken secret (now ctx) h = AuthOk uid ->
  verifyToken secret (now ctx') h = AuthOk uid -> cast_oid uid = Some u ->
  c ∈ customers s -> user c = u -> (c_id c < oid_bound)%N ->
  let s' := (app secret ctx (mkRequest DELETE (customer_path (oid_hex (c_id c))) h b) s).2 in
  (app secret ctx' (mkRequest GET "/api/readCustomer" h b') s').1 =
    mkResponse 200 (JCustomers (List.filter (owned_by u) (customers s'))) /\
  (forall x, x ∈ customers s' -> c_id x <> c_id c).
Proof.
  intros (_ & _ & _ & Hnd & _) Hv Hv' Hu Hc Hcu Hb s'.
  split; [by rewrite (app_read_spec _ _ _ _ _ uid u)|].
  subst s'. rewrite (app_delete_spec _ _ _ _ _ uid u) by done. simpl. unfold deleted.
  assert (Hp : id_owned_by (c_id c) u c = true).
  { unfold id_owned_by, owned_by. by rewrite !bool_decide_eq_true_2. }
  destruct (delete_first_hit _ _ _ Hc Hp) as [y Hy].
  destruct (delete_first_split _ _ _ Hy) as (l1 & l2 & Hl & _ & Hyp & ->).
  unfold id_owned_by in Hyp. apply andb_true_iff in Hyp as [Hyi _].
  apply bool_decide_eq_true_1 in Hyi. rewrite Hl in Hnd.
  intros x Hx Hxi.
  assert (x = y) as ->.
  { apply (NoDup_fmap_eq c_id (l1 ++ y :: l2)); [done| set_solver | set_solver | congruence]. }
  apply NoDup_fmap_1 in Hnd. apply NoDup_app in Hnd as (_ & Hdis & Hnd2).
  apply NoDup_cons in Hnd2 as [Hy2 _]. apply elem_of_app in Hx as [Hx|Hx].
  - apply (Hdis y Hx). set_solver.
  - done.
Qed.

(** ** The invariant over every request *)

Lemma bcrypt_hash_wf pw salt : preserves (bcrypt_hash pw salt).
Proof. unfold bcrypt_hash. case_match; auto with gym. Qed.

Lemma bcrypt_compare_wf pw h' : preserves (bcrypt_compare pw h').
Proof. unfold bcrypt_compare. case_match; auto with gym. Qed.

#[local] Hint Resolve bcrypt_hash_wf bcrypt_compare_wf : gym.

Lemma register_wf salt b : preserves (register salt b).
Proof. unfold register. apply preserves_bind; [auto with gym|]. intros [?|]; auto 10 with gym. Qed.

Lemma login_wf secret now b : preserves (login secret now b).
Proof.
  unfold login. apply preserves_bind; [auto with gym|]. intros [?|]; [|auto with gym].
  apply preserves_bind; [auto with gym|]. intros []; auto with gym.
Qed.

Lemma protected_handler_wf r uid b : preserves (protected_handler r uid b).
Proof.
  destruct r; unfold protected_handler, addCustomer, readCustomer, updateCustomer, deleteCustomer;
    auto 10 with gym.
Qed.

(** C18: Every request, whatever its method, path, header and body, keeps
    the collections well formed. *)
Theorem app_wf secret ctx req s : db_wf s -> db_wf (app secret ctx req s).2.
Proof.
  intros Hs. unfold app.
  repeat case_match; rewrite ?catch_500_state;
    first [done | by apply register_wf | by apply login_wf | by apply protected_handler_wf].
Qed.
End Props.

(** ** Witnesses, on the database of [Fixtures]: alice is user 0 and
    owns record 1, bob is user 3 and owns record 2. *)
Import Fixtures.

Lemma app_readCustomer_isolated_witness :
  exists l, app secret ctx1 (mkRequest GET "/api/readCustomer" auth_alice empty_body) db1 =
              (mkResponse 200 (JCustomers l), db1) /\
            (forall c, c ∈ l <-> c ∈ customers db1 /\ user c = 0%N).
Proof. apply (app_readCustomer_isolated _ _ _ _ _ (oid_hex 0)); by_computation. Defined.

Lemma app_update_foreign_witness :
  app secret ctx1 (mkRequest PUT (customer_path (oid_hex 2)) auth_alice (body_nm "X" "Y")) db1 =
    (mkResponse 200 (JMessage "Customer Updated Successfully"), db1).
Proof.
  apply (app_update_foreign _ _ _ _ _ (oid_hex 0) 0 (mkCustomer 2 "Ann" "Basic" 3)); by_computation.
Defined.

Lemma app_delete_foreign_witness :
  app secret ctx1 (mkRequest DELETE (customer_path (oid_hex 2)) auth_alice empty_body) db1 =
    (mkResponse 200 (JMessage "Customer Deleted Successfully"), db1).
Proof.
  apply (app_delete_foreign _ _ _ _ _ (oid_hex 0) 0 (mkCustomer 2 "Ann" "Basic" 3)); by_computation.
Defined.

Lemma app_update_bad_id_witness :
  app secret ctx1 (mkRequest PUT (customer_path "zz") auth_alice (body_nm "X" "Y")) db1 =
    (server_error, db1).
Proof. apply (app_update_bad_id _ _ _ _ _ (oid_hex 0)); by_computation. Defined.

Lemma add_then_read_witness :
  (app secret ctx1 (mkRequest GET "/api/readCustomer" auth_alice empty_body)
     (app secret ctx1 (mkRequest POST "/api/Customer" auth_alice (body_nm "Cy" "Gold")) db1).2).1 =
    mkResponse 200 (JCustomers (List.filter (owned_by 0) (customers db1)
                                  ++ [mkCustomer (next_oid db1) "Cy" "Gold" 0])).
Proof. apply (add_then_read _ _ _ _ _ _ _ (oid_hex 0)); by_computation. Defined.

Lemma update_then_read_witness :
  exists l,
    (app secret ctx1 (mkRequest GET "/api/readCustomer" auth_alice empty_body)
       (app secret ctx1 (mkRequest PUT (customer_path (oid_hex 1)) auth_alice
                           (body_nm "Robert" "Platinum")) db1).2).1 =
      mkResponse 200 (JCustomers l) /\
    mkCustomer 1 "Robert" "Platinum" 0 ∈ l /\
    (forall x, x ∈ l -> c_id x = 1%N -> x = mkCustomer 1 "Robert" "Platinum" 0).
Proof.
  apply (update_then_read _ _ _ _ _ _ _ (oid_hex 0) 0 (mkCustomer 1 "Bob" "Gold" 0)); by_computation.
Defined.

Lemma delete_then_read_witness :
  let s' := (app secret ctx1 (mkRequest DELETE (customer_path (oid_hex 1)) auth_alice empty_body) db1).2 in
  (app secret ctx1 (mkRequest GET "/api/readCustomer" auth_alice empty_body) s').1 =
    mkResponse 200 (JCustomers (List.filter (owned_by 0) (customers s'))) /\
  (forall x, x ∈ customers s' -> c_id x <> 1%N).
Proof.
  apply (delete_then_read _ _ _ _ _ _ _ (oid_hex 0) 0 (mkCustomer 1 "Bob" "Gold" 0)); by_computation.
Defined.

Lemma app_wf_witness :
  db_wf (app secret ctx1 (mkRequest POST "/api/Customer" auth_alice (body_nm "Cy" "Gold")) db1).2.
Proof. apply app_wf. by_computation. Defined.
End Isolation.
