(* ===== verification/Accounts.v ===== *)
(** * Registration, login and the token gate, at the level of [app]

    [POST /api/register] and [POST /api/Login] (index.js lines 53-94)
    and the 403 every customer route answers without a token.  The
    theorems: a fresh username registers; a taken one is refused with 400
    and no change; what was registered logs in and yields a token that
    [verifyToken] maps back to the new user's id for one hour; login
    changes nothing; and two behaviours the spec does not describe: the
    two 401 messages tell an unknown username from a wrong password, and
    a password is only compared on its first 72 bytes. *)

From S2P Require Import Prelude Hex Crypto Mongo Auth Handlers Fixtures.

Module Accounts.
Import Hex Crypto Mongo Auth Handlers.

Definition register_req (b : Body) : Request := mkRequest POST "/api/register" None b.
Definition login_req (b : Body) : Request := mkRequest POST "/api/Login" None b.

(** [User.findOne({ username })] finds the one user with that name. *)
Lemma find_username (l : list User) u :
  NoDup (username <$> l) -> u ∈ l ->
  List.find (fun x => bool_decide (Some (username x) = Some (username u))) l = Some u.
Proof.
  induction l as [|x l IH]; [set_solver|]. rewrite fmap_cons, NoDup_cons, elem_of_cons.
  intros [Hx Hl] [->|Hu]; simpl; [by rewrite bool_decide_eq_true_2|].
  case_bool_decide as He; [|by apply IH].
  exfalso. apply Hx. injection He as ->. by apply list_elem_of_fmap_2.
Qed.

Lemma find_username_none (l : list User) un :
  un ∉ username <$> l -> List.find (fun x => bool_decide (Some (username x) = Some un)) l = None.
Proof.
  induction l as [|x l IH]; [done|]. rewrite fmap_cons, not_elem_of_cons. intros [Hx Hl]. simpl.
  rewrite bool_decide_eq_false_2 by congruence. by apply IH.
Qed.

Section Props.
Context `{PasswordHasher} `{JwtScheme}.

Lemma app_register secret ctx b s :
  app secret ctx (register_req b) s = catch_500 (register (salt ctx) b) s.
Proof. reflexivity. Qed.

Lemma app_login secret ctx b s :
  app secret ctx (login_req b) s = catch_500 (login secret (now ctx) b) s.
Proof. reflexivity. Qed.

(** A username nobody has registers: the user is stored with the
    bcrypt hash under the next ObjectId, and the answer is 201. *)
Theorem app_register_new secret ctx s un pw nm mt :
  un <> "" -> un ∉ username <$> users s ->
  app secret ctx (register_req (mkBody (Some un) (Some pw) nm mt)) s =
    (mkResponse 201 (JMessage "User Registered Successfully"),
     mkDb (users s ++ [mkUser (next_oid s) un (bhash pw (salt ctx))]) (customers s)
          (next_oid s + 1)).
Proof.
  intros Hun Hfree. rewrite app_register. unfold catch_500, register.
  rewrite SE_bind_run, User_findOne_run; cbn [b_username b_password]; rewrite find_username_none by done.
  cbn -[User_create]. rewrite SE_bind_run. unfold bcrypt_hash. rewrite SE_ret_run.
  cbn -[User_create]. rewrite SE_bind_run, User_create_spec by auto using bhash_nonempty.
  done.
Qed.

(** C17: A taken username is refused with 400 whatever the password, and
    nothing changes. *)
Theorem app_register_duplicate secret ctx s u pw nm mt :
  db_wf s -> u ∈ users s ->
  app secret ctx (register_req (mkBody (Some (username u)) pw nm mt)) s =
    (mkResponse 400 (JMessage "Username already exists"), s).
Proof.
  intros (_ & Hnd & _) Hu. rewrite app_register. unfold catch_500, register.
  by rewrite SE_bind_run, User_findOne_run; cbn [b_username b_password]; rewrite find_username.
Qed.

(** Login reads the users and nothing else: the database after it is
    the database before. *)
Theorem app_login_stateless secret ctx s b :
  (app secret ctx (login_req b) s).2 = s.
Proof.
  rewrite app_login, catch_500_state. revert s. unfold login.
  apply readonly_bind; [auto with gym|]. intros [u|]; [|auto with gym].
  apply readonly_bind; [unfold bcrypt_compare; case_match; auto with gym|].
  intros []; auto with gym.
Qed.

(** Login of a stored user whose password matches (on its first 72
    bytes) answers 200 with a one-hour token for the user's id. *)
Lemma app_login_match secret ctx s u pw salt0 nm mt :
  db_wf s -> u ∈ users s -> password u = bhash pw salt0 ->
  forall pw', bcrypt_prefix pw' = bcrypt_prefix pw ->
  app secret ctx (login_req (mkBody (Some (username u)) (Some pw') nm mt)) s =
    (mkResponse 200 (JToken (jwt_sign_1h secret (oid_hex (u_id u)) (now ctx))), s).
Proof.
  intros (_ & Hnd & _) Hu Hpw pw' Hpre. rewrite app_login. unfold catch_500, login.
  rewrite SE_bind_run, User_findOne_run; cbn [b_username b_password]; rewrite find_username by done. cbn -[jwt_sign_1h].
  by rewrite Hpw, bcompare_bhash, bool_decide_eq_true_2.
Qed.

(** C11: Register then login with the same pair: the token the login
    returns at second [t], presented before [t + 3600], lets requests
    through as the new user, whose id the customer queries cast back
    to the stored ObjectId. *)
Theorem register_then_login secret ctx ctx' s un pw nm mt t' :
  db_wf s -> un <> "" -> un ∉ username <$> users s -> (next_oid s < oid_bound)%N ->
  (t' < now ctx' + 3600)%nat ->
  let s1 := (app secret ctx (register_req (mkBody (Some un) (Some pw) nm mt)) s).2 in
  exists tok,
    app secret ctx' (login_req (mkBody (Some un) (Some pw) nm mt)) s1 =
      (mkResponse 200 (JToken tok), s1) /\
    verifyToken secret t' (Some (bearer +:+ tok)) = AuthOk (oid_hex (next_oid s)) /\
    cast_oid (oid_hex (next_oid s)) = Some (next_oid s).
Proof.
  intros Hwf Hun Hfree Hb Ht s1. subst s1. rewrite app_register_new by done. cbn [snd].
  set (u := mkUser (next_oid s) un (bhash pw (salt ctx))).
  pose proof (User_create_wf (Some un) (bhash pw (salt ctx)) s Hwf) as Hwf1.
  rewrite User_create_spec in Hwf1 by auto using bhash_nonempty.
  exists (jwt_sign_1h secret (oid_hex (next_oid s)) (now ctx')). split; [|split].
  - change un with (username u).
    apply (app_login_match _ _ _ u pw (salt ctx)); [done|set_solver|done|done].
  - rewrite verify_issued. by destruct (Nat.ltb_spec t' (now ctx' + 3600)); [|lia].
  - by apply cast_oid_hex.
Qed.

(** C30: An unknown username and a wrong password both get 401, but with
    different messages (["Invaild"] against ["Invalid"]), so a caller
    learns which usernames exist. *)
Theorem login_enumeration secret ctx s un u pw salt0 pw' nm mt :
  db_wf s -> un ∉ username <$> users s -> u ∈ users s -> password u = bhash pw salt0 ->
  bcrypt_prefix pw' <> bcrypt_prefix pw ->
  app secret ctx (login_req (mkBody (Some un) (Some pw') nm mt)) s =
    (mkResponse 401 (JMessage "Invaild Credentials"), s) /\
  app secret ctx (login_req (mkBody (Some (username u)) (Some pw') nm mt)) s =
    (mkResponse 401 (JMessage "Invalid Credentials"), s).
Proof.
  intros (_ & Hnd & _) Hfree Hu Hpw Hne. split.
  - rewrite app_login. unfold catch_500, login.
    by rewrite SE_bind_run, User_findOne_run; cbn [b_username b_password]; rewrite find_username_none.
  - rewrite app_login. unfold catch_500, login.
    rewrite SE_bind_run, User_findOne_run; cbn [b_username b_password]; rewrite find_username by done.
    cbn -[jwt_sign_1h]. by rewrite Hpw, bcompare_bhash, bool_decide_eq_false_2.
Qed.

(** C4: The gate: a customer route without a token, or with an empty
    [authorization] header, is answered 403 before any query runs. *)
Theorem app_missing_token secret ctx m p h b s r :
  m <> OPTIONS -> route m p = Some (Protected r) -> h = None \/ h = Some "" ->
  app secret ctx (mkRequest m p h b) s = (mkResponse 403 (Text "Token Missing"), s).
Proof.
  intros Hm Hr Hh. unfold app. cbn [method path authorization body].
  rewrite verifyToken_missing by done. destruct m; try congruence; by rewrite Hr.
Qed.

End Props.

(** ** Witnesses, on the database of [Fixtures] *)
Import Fixtures.

Lemma register_then_login_witness :
  let s1 := (app secret ctx1 (register_req (mkBody (Some "carol") (Some "pw3") None None)) db1).2 in
  exists tok,
    app secret (mkCtx 20 0) (login_req (mkBody (Some "carol") (Some "pw3") None None)) s1 =
      (mkResponse 200 (JToken tok), s1) /\
    verifyToken secret 3000 (Some (bearer +:+ tok)) = AuthOk (oid_hex (next_oid db1)) /\
    cast_oid (oid_hex (next_oid db1)) = Some (next_oid db1).
Proof. apply register_then_login; by_computation. Defined.

Lemma app_register_duplicate_witness :
  app secret ctx1 (register_req (mkBody (Some "alice") (Some "other") None None)) db1 =
    (mkResponse 400 (JMessage "Username already exists"), db1).
Proof. apply (app_register_duplicate _ _ _ (mkUser 0 "alice" (bhash "pw1" 7))); by_computation. Defined.

Lemma login_enumeration_witness :
  app secret ctx1 (login_req (mkBody (Some "mallory") (Some "guess") None None)) db1 =
    (mkResponse 401 (JMessage "Invaild Credentials"), db1) /\
  app secret ctx1 (login_req (mkBody (Some "alice") (Some "guess") None None)) db1 =
    (mkResponse 401 (JMessage "Invalid Credentials"), db1).
Proof. apply (login_enumeration _ _ _ _ (mkUser 0 "alice" (bhash "pw1" 7)) "pw1" 7); by_computation. Defined.

Lemma app_missing_token_witness :
  app secret ctx1 (mkRequest GET "/api/readCustomer" None empty_body) db1 =
    (mkResponse 403 (Text "Token Missing"), db1).
Proof. apply (app_missing_token _ _ _ _ _ _ _ RReadCustomer); [discriminate | reflexivity | by left]. Defined.

End Accounts.
