(* ===== verification/Client.v ===== *)
(** * The browser side: [fetch], [response.json()] and the shell

    The two React components (src/frontend/src/Login.jsx and
    Dashboard.jsx) talk to deployments of index.js through [fetch].  A
    deployment is a [Backend] (its secret, its clock and its database)
    reachable at an origin; the network [Net] maps origins to backends.
    A component's handler is a computation of the monad [CM S]: it reads
    and writes the world (the network, the [Shell] the components share,
    and the component's own state [S]) and may reject with a [FetchErr],
    which the handler's [catch] turns into a message.

    [Shell] holds what the components receive from their parent: the
    [token] prop with its setter and the router's location, changed by
    [navigate].  [net_step] is what the rest of the world does between
    two handlers: other clients send any request to any backend, and the
    clock of a backend moves forward. *)

From stdpp Require Import gmap.
From S2P Require Import Prelude Hex Crypto Mongo Auth Handlers.

Module Client.
Import Hex Crypto Mongo Auth Handlers.

(** ** JavaScript values the components hold *)

(** A state variable that holds [null], [undefined] or a string. *)
Inductive JsValue := JsNull | JsUndefined | JsString (s : string).

#[export] Instance JsValue_eq_dec : EqDecision JsValue.
Proof. solve_decision. Defined.

(** [`${v}`]: how a template literal renders the value. *)
Definition js_template (v : JsValue) : string :=
  match v with JsNull => "null" | JsUndefined => "undefined" | JsString s => s end.

(** JavaScript truthiness, as in [editingId ? ... : ...] and
    [{message && ...}]. *)
Definition truthy (v : JsValue) : bool :=
  match v with JsString s => negb (String.eqb s "") | _ => false end.

(** ** The network *)

Record Backend := mkBackend { srv_secret : string; srv_ctx : Ctx; srv_db : Db }.

Abbreviation Net := (gmap string Backend).

(** The parent's state the components share: the [token] prop and
    [setToken], and the location [useNavigate] changes. *)
Record Shell := mkShell { token : JsValue; location : string }.

Record World (S : Type) := mkWorld { net : Net; shell : Shell; ui : S }.
Arguments mkWorld {S} _ _ _.
Arguments net {S} _.
Arguments shell {S} _.
Arguments ui {S} _.

(** [fetch] rejects with a [TypeError] when no server answers;
    [response.json()] rejects with a [SyntaxError] on a body that is not
    JSON. *)
Inductive FetchErr := NetworkError | SyntaxError.

Abbreviation CM S := (SE (World S) FetchErr).

Section Browser.
Context `{PasswordHasher} `{JwtScheme}.
Context {S : Type}.

(** [await fetch(origin + path, { method, headers, body })]: the backend
    at [origin] runs [app] on the request and keeps the database it
    leaves; the CORS preflight is answered by [cors()] and changes
    nothing, so it is not a step of its own. *)
Definition fetch (origin : string) (req : Request) : CM S Response :=
  fun w =>
    match net w !! origin with
    | None => (inl NetworkError, w)
    | Some b =>
        let '(r, d) := app (srv_secret b) (srv_ctx b) req (srv_db b) in
        (inr r, mkWorld (<[origin := mkBackend (srv_secret b) (srv_ctx b) d]> (net w))
                        (shell w) (ui w))
    end.

(** The state setters of the components and of their parent. *)
Definition set_ui (f : S -> S) : CM S unit :=
  modify (fun w => mkWorld (net w) (shell w) (f (ui w))).

Definition setToken (v : JsValue) : CM S unit :=
  modify (fun w => mkWorld (net w) (mkShell v (location (shell w))) (ui w)).

Definition navigate (p : string) : CM S unit :=
  modify (fun w => mkWorld (net w) (mkShell (token (shell w)) p) (ui w)).
End Browser.

(** The bodies [response.json()] parses: the server's [res.json]
    values; [res.send(text)], an empty 204 and Express's HTML 404 are
    not JSON. *)
Definition parse_json (b : RespBody) : option RespBody :=
  match b with
  | JMessage _ | JToken _ | JCustomers _ => Some b
  | Text _ | NoBody | CannotRoute => None
  end.

Definition response_json {S} (r : Response) : CM S RespBody :=
  match parse_json (rbody r) with Some d => mret d | None => throw SyntaxError end.

(** [response.ok]: a status in [200, 299]. *)
Definition resp_ok (r : Response) : bool := bool_decide (200 <= status r < 300).

(** [data.message] and [data.token]: [undefined] when the parsed body
    has no such field. *)
Definition field (k : string) (d : RespBody) : JsValue :=
  match d with
  | JMessage m => if String.eqb k "message" then JsString m else JsUndefined
  | JToken t => if String.eqb k "token" then JsString t else JsUndefined
  | _ => JsUndefined
  end.

(** [`Bearer ${token}`]. *)
Definition auth_header (tok : JsValue) : option string :=
  Some (bearer +:+ js_template tok).

(** ** What the rest of the world does *)

Definition with_db (b : Backend) (d : Db) : Backend := mkBackend (srv_secret b) (srv_ctx b) d.

Section Env.
Context `{PasswordHasher} `{JwtScheme}.

(** Between two handlers of a component, another client sends any
    request to any backend, or a backend's clock moves on (and the salt
    it will draw changes); the secrets never change. *)
Inductive net_step (n : Net) : Net -> Prop :=
| NetRequest origin b req :
    n !! origin = Some b ->
    net_step n (<[origin := with_db b (app (srv_secret b) (srv_ctx b) req (srv_db b)).2]> n)
| NetClock origin b c :
    n !! origin = Some b -> now (srv_ctx b) <= now c ->
    net_step n (<[origin := mkBackend (srv_secret b) c (srv_db b)]> n).
End Env.

(** ** Running the browser primitives *)

Section Lemmas.
Context `{PasswordHasher} `{JwtScheme} {S : Type}.

Lemma fetch_run origin req (w : World S) b :
  net w !! origin = Some b ->
  fetch origin req w =
    (inr (app (srv_secret b) (srv_ctx b) req (srv_db b)).1,
     mkWorld (<[origin := with_db b (app (srv_secret b) (srv_ctx b) req (srv_db b)).2]> (net w))
             (shell w) (ui w)).
Proof.
  intros Hb. unfold fetch. rewrite Hb.
  by destruct (app (srv_secret b) (srv_ctx b) req (srv_db b)).
Qed.

Lemma fetch_offline origin req (w : World S) :
  net w !! origin = None -> fetch origin req w = (inl NetworkError, w).
Proof. intros Hb. unfold fetch. by rewrite Hb. Qed.

Lemma response_json_run r d (w : World S) :
  parse_json (rbody r) = Some d -> response_json r w = (inr d, w).
Proof. unfold response_json. by intros ->. Qed.

Lemma response_json_text r (w : World S) :
  parse_json (rbody r) = None -> response_json r w = (inl SyntaxError, w).
Proof. unfold response_json. by intros ->. Qed.
End Lemmas.

(** A request that leaves the database as it was leaves the network as
    it was. *)
Lemma insert_with_db_same (n : Net) o b : n !! o = Some b -> <[o := with_db b (srv_db b)]> n = n.
Proof. intros Hb. apply insert_id. destruct b. exact Hb. Qed.

(** Two [required] inputs, both filled: the browser lets the form
    submit. *)
Lemma required_filled a b : a <> "" -> b <> "" -> (String.eqb a "" || String.eqb b "") = false.
Proof. intros H1 H2. by apply orb_false_intro; apply String.eqb_neq. Qed.

End Client.
