(* ===== verification/Typing.v ===== *)
(** * The statuses and bodies of every route

    spec.md (6) gives, for each route, the statuses it answers and what
    each carries: 201 with a message for a registration and 400 for a
    taken name, 200 with a token or 401 for a login, and for the four
    customer routes 403/401 from the token check, their one success
    status with a message (or the list for [readCustomer]), and 500
    otherwise.  [rest_table] is that table, completed with the answers
    the framework gives: [cors()]'s 204 preflight with no body and
    Express's 404 page for a path no route matches; a 401/403 from
    [verifyToken] is plain text ([res.send]).  Every response of [app]
    is a row of the table of its method and route, whatever the request
    and the database ([app_resp_typed]); so the browser's
    [response.json()] succeeds on every ok answer but the preflight's
    ([ok_is_json]), which the Dashboard relies on when it parses before
    checking the status. *)

From S2P Require Import Prelude Hex Crypto Mongo Auth Handlers Fixtures Client.

Module Typing.
Import Hex Crypto Mongo Auth Handlers Fixtures Client.

(** What a body is, as the table speaks of it. *)
Inductive Shape := SNone | SPage | SText | SMessage | SToken | SCustomers.

#[export] Instance Shape_eq_dec : EqDecision Shape.
Proof. solve_decision. Defined.

Definition shape (b : RespBody) : Shape :=
  match b with
  | NoBody => SNone | CannotRoute => SPage | Text _ => SText
  | JMessage _ => SMessage | JToken _ => SToken | JCustomers _ => SCustomers
  end.

(** The rows of spec.md (6) for a matched route, and Express's 404. *)
Definition route_table (r : option Route) : list (nat * Shape) :=
  match r with
  | None => [(404, SPage)]
  | Some (Public RRegister) => [(201, SMessage); (400, SMessage); (500, SMessage)]
  | Some (Public RLogin) => [(200, SToken); (401, SMessage); (500, SMessage)]
  | Some (Protected p) =>
      [(403, SText); (401, SText); (500, SMessage)] ++
      match p with
      | RAddCustomer => [(201, SMessage)]
      | RReadCustomer => [(200, SCustomers)]
      | RUpdateCustomer _ | RDeleteCustomer _ => [(200, SMessage)]
      end
  end.

(** [cors()] answers every preflight before routing. *)
Definition rest_table (m : Method) (r : option Route) : list (nat * Shape) :=
  match m with OPTIONS => [(204, SNone)] | _ => route_table r end.

Definition row_of (resp : Response) : nat * Shape := (status resp, shape (rbody resp)).

(** A handler whose every normal answer satisfies [P]. *)
Definition returns (P : Response -> bool) (m : M Response) : Prop :=
  forall s r s', m s = (inr r, s') -> P r = true.

Lemma returns_ret P r : P r = true -> returns P (mret r).
Proof. by intros Hr s r' s' [= <- _]. Qed.

Lemma returns_bind {X} P (m : M X) (k : X -> M Response) :
  (forall x, returns P (k x)) -> returns P (m ≫= k).
Proof.
  intros Hk s r s'. rewrite SE_bind_run. destruct (m s) as [[e|x] s1]; [done|]. apply Hk.
Qed.

Lemma returns_throw P e : returns P (throw e).
Proof. done. Qed.

(** Walk a handler's binds and branches down to its [mret]s, checking each. *)
Ltac typed :=
  match goal with
  | |- returns _ (_ ≫= _) => apply returns_bind; intros ?; typed
  | |- returns _ (match ?x with _ => _ end) => destruct x; typed
  | |- returns _ (mret _) => apply returns_ret; reflexivity
  | |- returns _ (throw _) => apply returns_throw
  end.

Definition in_table (r : option Route) (resp : Response) : bool := bool_decide (row_of resp ∈ route_table r).

Lemma catch_500_in_table rt m s : returns (in_table (Some rt)) m -> in_table (Some rt) (catch_500 m s).1 = true.
Proof.
  intros Hm. unfold catch_500. destruct (m s) as [[e|x] s'] eqn:E; [|by eapply Hm].
  destruct rt as [[]|[]]; reflexivity.
Qed.

Lemma verifyToken_denied_code `{JwtScheme} k t h st msg :
  verifyToken k t h = AuthDenied st msg -> st = 403 \/ st = 401.
Proof. unfold verifyToken. repeat case_match; intros [= <- <-]; auto. Qed.

Section Typed.
Context `{PasswordHasher} `{JwtScheme}.

Lemma handlers_in_table secret ctx b :
  returns (in_table (Some (Public RRegister))) (register (salt ctx) b) /\
  returns (in_table (Some (Public RLogin))) (login secret (now ctx) b) /\
  forall r uid, returns (in_table (Some (Protected r))) (protected_handler r uid b).
Proof.
  unfold register, login, protected_handler, addCustomer, readCustomer, updateCustomer, deleteCustomer.
  repeat split; [..|intros [] ?]; typed.
Qed.

Lemma app_in_table secret ctx req s :
  bool_decide (row_of (app secret ctx req s).1 ∈ rest_table (method req) (route (method req) (path req))) = true.
Proof.
  destruct (handlers_in_table secret ctx (body req)) as (Hr & Hl & Hp).
  unfold app, rest_table. destruct (method req); try reflexivity;
    destruct (route _ (path req)) as [[[]|r]|]; try reflexivity;
    try (by apply catch_500_in_table);
    destruct (verifyToken _ _ _) as [st msg|uid] eqn:Hv; try (by apply catch_500_in_table);
    destruct (verifyToken_denied_code _ _ _ _ _ Hv) as [-> | ->]; destruct r; reflexivity.
Qed.

(** C19: Every response of the application is a row of spec.md (6) for
    its method and route: a registration answers 201, 400 or 500 with a
    message, a login 200 with a token or 401/500 with a message, each
    customer route its own success (201 for a creation, the list for a
    read, 200 with a message for an update or a delete), 401/403 as text
    from the token check, or 500 with a message; a preflight 204 with no
    body, and an unmatched path Express's 404. *)
Theorem app_resp_typed secret ctx req s :
  row_of (app secret ctx req s).1 ∈ rest_table (method req) (route (method req) (path req)).
Proof. apply (bool_decide_eq_true_1 _), app_in_table. Qed.

(** Every row of every route's table: what [response.json()] can meet. *)
Lemma rest_table_rows m r x :
  x ∈ rest_table m r ->
  x ∈ [(204, SNone); (404, SPage); (403, SText); (401, SText); (200, SToken); (200, SCustomers)] \/
  snd x = SMessage.
Proof.
  revert x. apply Forall_forall.
  destruct m; try (destruct r as [[[]|[]]|]); apply (bool_decide_eq_true_1 _); reflexivity.
Qed.

(** C34: What [response.json()] meets: an answer in the 2xx range other than
    the preflight's 204 always has a JSON body, so a client that parses
    an ok response before anything else never throws a [SyntaxError]. *)
Theorem ok_is_json secret ctx req s :
  let r := (app secret ctx req s).1 in
  resp_ok r = true -> status r <> 204 -> is_Some (parse_json (rbody r)).
Proof.
  intros r Hok H204. pose proof (app_in_table secret ctx req s) as Ht. fold r in Ht.
  apply bool_decide_eq_true_1, rest_table_rows in Ht.
  unfold resp_ok in Hok. apply bool_decide_eq_true in Hok. unfold row_of in Ht.
  destruct (rbody r); simpl in *; eauto; exfalso; destruct Ht as [Ht|Ht]; try discriminate;
    set_unfold in Ht; destruct_or! Ht; simplify_eq; lia.
Qed.
End Typed.

Lemma ok_is_json_witness :
  let r := (app secret ctx1 (mkRequest GET "/api/readCustomer" auth_alice empty_body) db1).1 in
  resp_ok r = true /\ status r <> 204 /\ is_Some (parse_json (rbody r)).
Proof.
  intros r. assert (Hok : resp_ok r = true) by reflexivity.
  assert (H204 : status r <> 204) by (vm_compute; discriminate).
  split; [done|split; [done|]]. exact (ok_is_json _ _ _ _ Hok H204).
Defined.

End Typing.
