(* ===== verification/Login.v ===== *)
(** * The Login component (src/frontend/src/Login.jsx)

    The component's state is [username], [password] and [message]
    (lines 6-8); [handleSubmit] (lines 11-31) posts the two fields to
    [/api/Login] on the deployed host, stores [data.token] with the
    parent's [setToken] and navigates to [/dashboard] when the response
    is ok, shows [data.message] otherwise, and shows ["Server Error"]
    when [fetch] or [response.json()] rejects.  The form is submitted
    only when both inputs are non-empty: they carry [required] (lines 42
    and 49), which the browser checks before [onSubmit] runs. *)

From stdpp Require Import gmap.
From S2P Require Import Prelude Hex Crypto Mongo Auth Handlers Fixtures Accounts Client.

Module LoginPage.
Import Hex Crypto Mongo Auth Handlers Accounts Client.

Record LoginState := mkLoginState {
  l_username : string; l_password : string; l_message : JsValue }.

(** [useState('')] three times. *)
Definition login_initial : LoginState := mkLoginState "" "" (JsString "").

(** The host [handleSubmit] posts to (line 14). *)
Definition login_origin : string := "https://gym-membership-management.onrender.com".

Section Component.
Context `{PasswordHasher} `{JwtScheme}.

Definition setUsername (s : string) : CM LoginState unit :=
  set_ui (fun ls => mkLoginState s (l_password ls) (l_message ls)).
Definition setPassword (s : string) : CM LoginState unit :=
  set_ui (fun ls => mkLoginState (l_username ls) s (l_message ls)).
Definition setMessage (v : JsValue) : CM LoginState unit :=
  set_ui (fun ls => mkLoginState (l_username ls) (l_password ls) v).

(** The request of lines 14-20: [JSON.stringify({ username, password })]. *)
Definition login_request (ls : LoginState) : Request :=
  mkRequest POST "/api/Login" None (mkBody (Some (l_username ls)) (Some (l_password ls)) None None).

(** [handleSubmit] (lines 11-31); the fields are the values of the
    render the handler was created in. *)
Definition handleSubmit : CM LoginState unit :=
  ls ← gets ui;
  try_catch
    (response ← fetch login_origin (login_request ls);
     data ← response_json response;
     if resp_ok response then setToken (field "token" data);; navigate "/dashboard"
     else setMessage (field "message" data))
    (fun _ => setMessage (JsString "Server Error")).

(** What the user can do on the page: type in either input, or submit
    the form, which the [required] inputs block while one is empty. *)
Inductive LoginEvent := TypeUsername (s : string) | TypePassword (s : string) | SubmitLogin.

Definition login_event (e : LoginEvent) : CM LoginState unit :=
  match e with
  | TypeUsername s => setUsername s
  | TypePassword s => setPassword s
  | SubmitLogin =>
      ls ← gets ui;
      if String.eqb (l_username ls) "" || String.eqb (l_password ls) "" then mret ()
      else handleSubmit
  end.
End Component.

(** ** The rendered page (lines 33-56) *)

(** A React element: a tag with its attributes and children, or text. *)
Inductive VNode := Elem (tag : string) (attrs : list (string * string)) (children : list VNode) | TextNode (s : string).

Definition vchildren (v : VNode) : list VNode := match v with Elem _ _ cs => cs | TextNode _ => [] end.

(** [{message && <p>{message}</p>}]: a falsy message renders nothing. *)
Definition login_view (ls : LoginState) : VNode :=
  Elem "div" []
    ([Elem "h2" [] [TextNode "Login"];
      Elem "form" []
        [Elem "input" [("type", "text"); ("placeholder", "Username"); ("value", l_username ls); ("required", "")] [];
         Elem "input" [("type", "password"); ("placeholder", "Password"); ("value", l_password ls); ("required", "")] [];
         Elem "button" [("type", "submit")] [TextNode "Login"]]] ++
     (if truthy (l_message ls) then [Elem "p" [] [TextNode (js_template (l_message ls))]] else []) ++
     [Elem "p" [] [TextNode "Don't have an account? "; Elem "Link" [("to", "/register")] [TextNode "Register"]]]).

(** ** Properties *)

Section Props.
Context `{PasswordHasher} `{JwtScheme}.

(** C12: Logging in through the page: a stored user who types a password
    bcrypt matches is given a token the deployment accepts for one hour
    as that user, and is sent to [/dashboard]; the database is not
    changed. *)
Theorem login_page_success (w : World LoginState) b u pw salt0 t :
  net w !! login_origin = Some b -> db_wf (srv_db b) -> u ∈ users (srv_db b) ->
  password u = bhash pw salt0 -> pw <> "" ->
  l_username (ui w) = username u -> l_password (ui w) = pw ->
  t < now (srv_ctx b) + 3600 ->
  exists tok,
    login_event SubmitLogin w =
      (inr tt, mkWorld (net w) (mkShell (JsString tok) "/dashboard") (ui w)) /\
    verifyToken (srv_secret b) t (auth_header (JsString tok)) = AuthOk (oid_hex (u_id u)).
Proof.
  intros Hb Hwf Hu Hpw Hpw0 Hun Hp Ht.
  assert (Hne : username u <> "").
  { destruct Hwf as (_ & _ & Hall & _). by eapply Forall_forall in Hall as (_ & ? & _). }
  exists (jwt_sign_1h (srv_secret b) (oid_hex (u_id u)) (now (srv_ctx b))). split.
  - cbn [login_event]. rewrite SE_bind_run. cbn [gets].
    rewrite required_filled by congruence.
    unfold handleSubmit. rewrite SE_bind_run. cbn [gets try_catch]. rewrite SE_bind_run.
    rewrite (fetch_run _ _ _ b Hb). unfold login_request. rewrite Hun, Hp.
    rewrite (app_login_match _ _ _ u pw salt0 None None Hwf Hu Hpw pw eq_refl).
    cbn -[jwt_sign_1h]. by rewrite (insert_with_db_same _ _ _ Hb).
  - unfold auth_header, js_template. rewrite verify_issued.
    by destruct (Nat.ltb_spec t (now (srv_ctx b) + 3600)); [|lia].
Qed.

(** C33: The page posts to the deployed host and nowhere else: when nothing
    answers there, every submission ends in ["Server Error"], whatever
    runs at the other origins (the Dashboard's [localhost:5000]
    included), and no token is set. *)
Theorem login_page_offline (w : World LoginState) :
  net w !! login_origin = None ->
  l_username (ui w) <> "" -> l_password (ui w) <> "" ->
  login_event SubmitLogin w =
    (inr tt, mkWorld (net w) (shell w)
                     (mkLoginState (l_username (ui w)) (l_password (ui w)) (JsString "Server Error"))).
Proof.
  intros Hb H1 H2. cbn [login_event]. rewrite SE_bind_run. cbn [gets].
  rewrite required_filled by done.
  unfold handleSubmit. rewrite SE_bind_run. cbn [gets try_catch]. rewrite SE_bind_run.
  by rewrite fetch_offline.
Qed.

(** C13: A refused login through the page: when the deployment answers
    the submission with a JSON message and a status outside 2xx (the two
    401s of the login route), the page keeps its token and location,
    stores the server's message, and shows it under the form. *)
Theorem login_page_rejected (w : World LoginState) b st m d :
  net w !! login_origin = Some b -> l_username (ui w) <> "" -> l_password (ui w) <> "" ->
  app (srv_secret b) (srv_ctx b) (login_request (ui w)) (srv_db b) = (mkResponse st (JMessage m), d) ->
  resp_ok (mkResponse st (JMessage m)) = false ->
  let ls' := mkLoginState (l_username (ui w)) (l_password (ui w)) (JsString m) in
  login_event SubmitLogin w =
    (inr tt, mkWorld (<[login_origin := mkBackend (srv_secret b) (srv_ctx b) d]> (net w)) (shell w) ls') /\
  (m <> "" -> Elem "p" [] [TextNode m] ∈ vchildren (login_view ls')).
Proof.
  intros Hb H1 H2 Happ Hok ls'. split.
  - cbn [login_event]. rewrite SE_bind_run. cbn [gets].
    rewrite required_filled by done.
    unfold handleSubmit. rewrite SE_bind_run. cbn [gets try_catch]. rewrite SE_bind_run.
    rewrite (fetch_run _ _ _ b Hb), Happ.
    cbn. by rewrite Hok.
  - intros Hm. simpl. rewrite (proj2 (negb_true_iff _)) by (by apply String.eqb_neq).
    set_solver.
Qed.
End Props.

(** ** Witnesses: alice of [Fixtures] logs in *)
Import Fixtures.

Definition login_page (n : Net) : World LoginState :=
  mkWorld n (mkShell JsNull "/login") (mkLoginState "alice" "pw1" (JsString "")).

Lemma login_page_success_witness :
  let w := login_page (<[login_origin := mkBackend secret ctx1 db1]> ∅) in
  exists tok,
    login_event SubmitLogin w =
      (inr tt, mkWorld (net w) (mkShell (JsString tok) "/dashboard") (ui w)) /\
    verifyToken secret 100 (auth_header (JsString tok)) = AuthOk (oid_hex 0).
Proof.
  intros w.
  apply (login_page_success w (mkBackend secret ctx1 db1) (mkUser 0 "alice" (bhash "pw1" 7)) "pw1" 7 100);
    by_computation.
Defined.

(** Only the Dashboard's backend runs. *)
Lemma login_page_offline_witness :
  let w := login_page (<[ "http://localhost:5000" := mkBackend secret ctx1 db1]> ∅) in
  login_event SubmitLogin w =
    (inr tt, mkWorld (net w) (shell w)
                     (mkLoginState (l_username (ui w)) (l_password (ui w)) (JsString "Server Error"))).
Proof. intros w. apply login_page_offline; by_computation. Defined.

(** alice types a wrong password. *)
Lemma login_page_rejected_witness :
  let w := mkWorld (<[login_origin := mkBackend secret ctx1 db1]> ∅) (mkShell JsNull "/login")
                   (mkLoginState "alice" "guess" (JsString "")) in
  let ls' := mkLoginState "alice" "guess" (JsString "Invalid Credentials") in
  login_event SubmitLogin w =
    (inr tt, mkWorld (<[login_origin := mkBackend secret ctx1 db1]> (net w)) (shell w) ls') /\
  ("Invalid Credentials" <> "" -> Elem "p" [] [TextNode "Invalid Credentials"] ∈ vchildren (login_view ls')).
Proof.
  intros w ls'.
  apply (login_page_rejected w (mkBackend secret ctx1 db1) 401 "Invalid Credentials" db1); by_computation.
Defined.

End LoginPage.
