(* ===== verification/Dashboard.v ===== *)
(** * The Dashboard component (src/frontend/src/Dashboard.jsx)

    The component's state (lines 6-10) is the customer list it shows,
    the two form fields, the id of the record being edited and a
    message.  Its handlers capture the [token] prop of the render they
    were created in, which is why each takes it as an argument:
    [fetchCustomers] (lines 17-33) loads the list on mount (the
    [useEffect] of lines 13-15) and after every successful change;
    [handleAdd] (35-58), [handleUpdate] (66-90) and [handleDelete]
    (92-110) send one request each to [localhost:5000]; [handleEdit]
    (60-64) fills the form from a row; the Cancel button (138) and
    [handleLogout] (112-115) reset the form and leave the page.  The form
    dispatches on [editingId] (122) and is only submitted when both
    [required] inputs are non-empty (128, 135).

    [fetchCustomers] is called without [await]; it catches every
    rejection itself, and this model runs it to completion where it is
    called, before the next user event. *)

From stdpp Require Import gmap.
From S2P Require Import Prelude Hex Crypto Mongo Auth Handlers Fixtures Isolation Client.

Module DashboardPage.
Import Hex Crypto Mongo Auth Handlers Isolation Client.

Record DashState := mkDash {
  d_customers : RespBody;
  d_name : string;
  d_membershipType : string;
  d_editingId : JsValue;
  d_message : JsValue }.

(** [useState([])], [useState('')] twice, [useState(null)],
    [useState('')]. *)
Definition dash_initial : DashState := mkDash (JCustomers []) "" "" JsNull (JsString "").

(** The host every request of the component goes to (lines 19, 38, 69,
    94). *)
Definition api_origin : string := "http://localhost:5000".

Section Component.
Context `{PasswordHasher} `{JwtScheme}.

Definition setCustomers (v : RespBody) : CM DashState unit :=
  set_ui (fun d => mkDash v (d_name d) (d_membershipType d) (d_editingId d) (d_message d)).
Definition setName (s : string) : CM DashState unit :=
  set_ui (fun d => mkDash (d_customers d) s (d_membershipType d) (d_editingId d) (d_message d)).
Definition setMembershipType (s : string) : CM DashState unit :=
  set_ui (fun d => mkDash (d_customers d) (d_name d) s (d_editingId d) (d_message d)).
Definition setEditingId (v : JsValue) : CM DashState unit :=
  set_ui (fun d => mkDash (d_customers d) (d_name d) (d_membershipType d) v (d_message d)).
Definition setMessage (v : JsValue) : CM DashState unit :=
  set_ui (fun d => mkDash (d_customers d) (d_name d) (d_membershipType d) (d_editingId d) v).

(** [fetchCustomers] (lines 17-33): the status is checked before the
    body is parsed. *)
Definition fetchCustomers (token : JsValue) : CM DashState unit :=
  try_catch
    (response ← fetch api_origin (mkRequest GET "/api/readCustomer" (auth_header token) empty_body);
     if resp_ok response then data ← response_json response; setCustomers data
     else setMessage (JsString "Failed to fetch customers"))
    (fun _ => setMessage (JsString "Server Error")).

(** [JSON.stringify({ name, membershipType })]. *)
Definition form_body (d : DashState) : Body :=
  mkBody None None (Some (d_name d)) (Some (d_membershipType d)).

(** [handleAdd] (lines 35-58): the body is parsed before the status is
    checked. *)
Definition handleAdd (token : JsValue) : CM DashState unit :=
  d ← gets ui;
  try_catch
    (response ← fetch api_origin (mkRequest POST "/api/Customer" (auth_header token) (form_body d));
     data ← response_json response;
     if resp_ok response then
       setMessage (JsString "Customer Added Successfully");; setName "";; setMembershipType "";;
       fetchCustomers token
     else setMessage (field "message" data))
    (fun _ => setMessage (JsString "Server Error")).

(** [handleEdit] (lines 60-64): the row's [_id] is its hex string. *)
Definition handleEdit (c : Customer) : CM DashState unit :=
  setName (name c);; setMembershipType (membershipType c);;
  setEditingId (JsString (oid_hex (c_id c))).

(** [handleUpdate] (lines 66-90): [`/api/Customer/${editingId}`]. *)
Definition handleUpdate (token : JsValue) : CM DashState unit :=
  d ← gets ui;
  try_catch
    (response ← fetch api_origin
                  (mkRequest PUT (customer_path (js_template (d_editingId d))) (auth_header token)
                     (form_body d));
     data ← response_json response;
     if resp_ok response then
       setMessage (JsString "Customer Updated Successfully");; setName "";; setMembershipType "";;
       setEditingId JsNull;; fetchCustomers token
     else setMessage (field "message" data))
    (fun _ => setMessage (JsString "Server Error")).

(** [handleDelete] (lines 92-110). *)
Definition handleDelete (token : JsValue) (id : string) : CM DashState unit :=
  try_catch
    (response ← fetch api_origin (mkRequest DELETE (customer_path id) (auth_header token) empty_body);
     data ← response_json response;
     if resp_ok response then
       setMessage (JsString "Customer Deleted Successfully");; fetchCustomers token
     else setMessage (field "message" data))
    (fun _ => setMessage (JsString "Server Error")).

(** [handleLogout] (lines 112-115). *)
Definition handleLogout : CM DashState unit :=
  setToken JsNull;; navigate "/login".

(** The Cancel button (line 138). *)
Definition handleCancel : CM DashState unit :=
  setEditingId JsNull;; setName "";; setMembershipType "".

(** The rows [customers.map] renders (lines 143-149). *)
Definition rows (v : RespBody) : list Customer :=
  match v with JCustomers l => l | _ => [] end.

(** What the user can do once the page is mounted: type in the inputs,
    submit the form, press Cancel, a row's Edit or Delete, or Logout. *)
Inductive DashEvent :=
| TypeName (s : string)
| TypeMembershipType (s : string)
| SubmitForm
| CancelEdit
| EditRow (c : Customer)
| DeleteRow (c : Customer)
| Logout.

(** The handler the event runs, with the [token] of the current render;
    [onSubmit={editingId ? handleUpdate : handleAdd}] (line 122). *)
Definition dash_handler (token : JsValue) (e : DashEvent) : CM DashState unit :=
  match e with
  | TypeName s => setName s
  | TypeMembershipType s => setMembershipType s
  | SubmitForm =>
      d ← gets ui;
      if String.eqb (d_name d) "" || String.eqb (d_membershipType d) "" then mret ()
      else if truthy (d_editingId d) then handleUpdate token else handleAdd token
  | CancelEdit => handleCancel
  | EditRow c => handleEdit c
  | DeleteRow c => handleDelete token (oid_hex (c_id c))
  | Logout => handleLogout
  end.

Definition dash_event (e : DashEvent) : CM DashState unit :=
  token ← gets (fun w => token (shell w)); dash_handler token e.

(** Events a user can cause: the Cancel button exists only while
    editing, the row buttons only for the rows on screen. *)
Definition enabled (e : DashEvent) (d : DashState) : Prop :=
  match e with
  | CancelEdit => truthy (d_editingId d) = true
  | EditRow c | DeleteRow c => c ∈ rows (d_customers d)
  | _ => True
  end.

(** A run of events, one after the other. *)
Fixpoint dash_run (es : list DashEvent) : CM DashState unit :=
  match es with
  | [] => mret ()
  | e :: es' => dash_event e;; dash_run es'
  end.

(** The page's life from the world [w0] it is mounted in: the mount
    effect, then user events while the page is shown, interleaved with
    what other clients and the clocks do. *)
Inductive dash_reach (w0 : World DashState) : World DashState -> Prop :=
| ReachMount :
    dash_reach w0 (fetchCustomers (token (shell w0)) (mkWorld (net w0) (shell w0) dash_initial)).2
| ReachEvent w e :
    dash_reach w0 w -> location (shell w) = "/dashboard" -> enabled e (ui w) ->
    dash_reach w0 (dash_event e w).2
| ReachEnv w n :
    dash_reach w0 w -> net_step (net w) n -> dash_reach w0 (mkWorld n (shell w) (ui w)).
End Component.

(** ** The page shows only its user's records *)

(** The backend at [api_origin], if any, signs with [k]. *)
Definition secret_at (k : string) (n : Net) : Prop :=
  forall b, n !! api_origin = Some b -> srv_secret b = k.

(** Whatever the time, [k] accepts [`Bearer ${tok}`] for user [u] or
    not at all. *)
Definition token_for `{JwtScheme} (k : string) (u : N) (tok : JsValue) : Prop :=
  forall t uid, verifyToken k t (auth_header tok) = AuthOk uid -> uid = oid_hex u.

(** The list on screen is an array of records of [u]. *)
Definition owned_rows (u : N) (v : RespBody) : Prop :=
  match v with JCustomers l => Forall (fun c => user c = u) l | _ => False end.

Section Invariant.
Context `{PasswordHasher} `{JwtScheme}.
Context (k : string) (u : N) (tok : JsValue).

(** While the page is shown, its token is [tok] and its rows are
    [u]'s; the API backend keeps its secret throughout. *)
Definition dash_inv (w : World DashState) : Prop :=
  secret_at k (net w) /\
  (location (shell w) = "/dashboard" -> token (shell w) = tok /\ owned_rows u (d_customers (ui w))).

Definition keeps {A} (m : CM DashState A) : Prop := forall w, dash_inv w -> dash_inv (m w).2.

Lemma keeps_ret {A} (x : A) : keeps (mret x).
Proof. by intros w. Qed.

Lemma keeps_gets {A} (f : World DashState -> A) : keeps (gets f).
Proof. by intros w. Qed.

Lemma keeps_bind {A B} (m : CM DashState A) (f : A -> CM DashState B) :
  keeps m -> (forall x, keeps (f x)) -> keeps (m ≫= f).
Proof.
  intros Hm Hf w Hw. rewrite SE_bind_run. specialize (Hm w Hw).
  destruct (m w) as [[?|x] w']; [exact Hm | by apply Hf].
Qed.

Lemma keeps_try_catch {A} (m : CM DashState A) h :
  keeps m -> (forall e, keeps (h e)) -> keeps (try_catch m h).
Proof.
  intros Hm Hh w Hw. cbn. specialize (Hm w Hw).
  destruct (m w) as [[?|x] w']; [by apply Hh | exact Hm].
Qed.

Lemma keeps_set_ui f : (forall d, d_customers (f d) = d_customers d) -> keeps (set_ui f).
Proof. intros Hf w [Hs Hl]. split; [done|]. cbn. rewrite Hf. exact Hl. Qed.

Lemma secret_at_insert n o b d :
  secret_at k n -> n !! o = Some b -> secret_at k (<[o := with_db b d]> n).
Proof.
  intros Hs Hb b'. destruct (decide (o = api_origin)) as [->|Ho].
  - rewrite lookup_insert_eq. intros [= <-]. cbn. by apply Hs.
  - rewrite lookup_insert_ne by done. apply Hs.
Qed.

Lemma keeps_fetch o req : keeps (fetch o req).
Proof.
  intros w [Hs Hl]. destruct (net w !! o) as [b|] eqn:Hb.
  - rewrite (fetch_run _ _ _ b Hb). split; [by apply secret_at_insert|exact Hl].
  - by rewrite fetch_offline.
Qed.

Lemma keeps_response_json r : keeps (response_json r).
Proof. unfold response_json. case_match; [apply keeps_ret | by intros w]. Qed.

Lemma keeps_setName s : keeps (setName s).
Proof. by apply keeps_set_ui. Qed.
Lemma keeps_setMembershipType s : keeps (setMembershipType s).
Proof. by apply keeps_set_ui. Qed.
Lemma keeps_setEditingId v : keeps (setEditingId v).
Proof. by apply keeps_set_ui. Qed.
Lemma keeps_setMessage v : keeps (setMessage v).
Proof. by apply keeps_set_ui. Qed.
End Invariant.

#[export] Hint Resolve keeps_ret keeps_gets keeps_fetch keeps_response_json keeps_setName
  keeps_setMembershipType keeps_setEditingId keeps_setMessage : gym.

(** The denials of [verifyToken] are 401 and 403. *)
Lemma verifyToken_denied_status `{JwtScheme} k t h st msg :
  verifyToken k t h = AuthDenied st msg -> st = 403 \/ st = 401.
Proof. unfold verifyToken. repeat case_match; intros [= <- _]; auto. Qed.

Lemma denied_not_ok st msg : st = 403 \/ st = 401 -> resp_ok (mkResponse st (Text msg)) = false.
Proof. intros [-> | ->]; by vm_compute. Qed.

Lemma route_read : route GET "/api/readCustomer" = Some (Protected RReadCustomer).
Proof. reflexivity. Qed.

Lemma Forall_filter_owned u l : Forall (fun c => user c = u) (List.filter (owned_by u) l).
Proof.
  apply Forall_forall. intros c Hc%list_elem_of_In. apply filter_In in Hc as [_ Hc].
  by apply bool_decide_eq_true_1 in Hc.
Qed.

(** The request [fetchCustomers] sends changes nothing, and when it is
    ok it is the list of [u]'s records. *)
Lemma app_read_dash `{PasswordHasher} `{JwtScheme} k u tok ctx s :
  token_for k u tok -> (u < oid_bound)%N ->
  let r := app k ctx (mkRequest GET "/api/readCustomer" (auth_header tok) empty_body) s in
  r.2 = s /\
  (resp_ok r.1 = true -> r.1 = mkResponse 200 (JCustomers (List.filter (owned_by u) (customers s)))).
Proof.
  intros Htok Hu. destruct (verifyToken k (now ctx) (auth_header tok)) as [st msg|uid] eqn:Hv.
  - apply verifyToken_denied_status in Hv as Hst. unfold app. cbn [method path authorization body].
    rewrite route_read, Hv. cbn. split; [done|]. by rewrite denied_not_ok.
  - apply Htok in Hv as Huid. subst uid.
    by rewrite (app_read_spec _ _ _ _ _ _ u Hv (cast_oid_hex u Hu)).
Qed.

Section Handlers.
Context `{PasswordHasher} `{JwtScheme}.
Context (k : string) (u : N) (tok : JsValue).
Hypothesis Htok : token_for k u tok.
Hypothesis Hu : (u < oid_bound)%N.

Lemma keeps_fetchCustomers : keeps k u tok (fetchCustomers tok).
Proof.
  intros w [Hs Hl]. unfold fetchCustomers. cbn [try_catch]. rewrite SE_bind_run.
  destruct (net w !! api_origin) as [b|] eqn:Hb; [|rewrite fetch_offline by exact Hb; apply (keeps_setMessage k u tok); by split].
  rewrite (fetch_run _ _ _ b Hb). rewrite (Hs b Hb).
  destruct (app_read_dash k u tok (srv_ctx b) (srv_db b) Htok Hu) as [_ Hok].
  assert (Hs' : secret_at k (<[api_origin := with_db b
     (app k (srv_ctx b) (mkRequest GET "/api/readCustomer" (auth_header tok) empty_body) (srv_db b)).2]>
     (net w))) by (apply secret_at_insert; [exact Hs | exact Hb]).
  destruct (resp_ok _) eqn:Hr.
  - rewrite (Hok eq_refl). cbn. split; [done|]. intros Hloc. split; [by apply Hl|].
    apply Forall_filter_owned.
  - cbn. split; [done|exact Hl].
Qed.

Hint Resolve keeps_fetchCustomers : gym.

Ltac keeps_tac :=
  repeat first [ solve [eauto with gym] | apply keeps_bind; [|intros ?]
               | apply keeps_try_catch; [|intros ?] | case_match ].

Lemma keeps_handleAdd : keeps k u tok (handleAdd tok).
Proof. unfold handleAdd. keeps_tac. Qed.

Lemma keeps_handleUpdate : keeps k u tok (handleUpdate tok).
Proof. unfold handleUpdate. keeps_tac. Qed.

Lemma keeps_handleDelete i : keeps k u tok (handleDelete tok i).
Proof. unfold handleDelete. keeps_tac. Qed.

Lemma keeps_handleEdit c : keeps k u tok (handleEdit c).
Proof. unfold handleEdit. keeps_tac. Qed.

Lemma keeps_handleCancel : keeps k u tok handleCancel.
Proof. unfold handleCancel. keeps_tac. Qed.

(** Logout leaves the page, so the rows need no longer be [u]'s. *)
Lemma keeps_handleLogout : keeps k u tok handleLogout.
Proof. intros w [Hs _]. by split. Qed.

Lemma keeps_dash_handler e : keeps k u tok (dash_handler tok e).
Proof.
  destruct e; cbn [dash_handler];
    auto using keeps_handleEdit, keeps_handleCancel, keeps_handleLogout, keeps_handleDelete with gym.
  apply keeps_bind; [auto with gym|]. intros d.
  repeat case_match; auto using keeps_handleUpdate, keeps_handleAdd with gym.
Qed.

Lemma dash_event_inv e w :
  dash_inv k u tok w -> location (shell w) = "/dashboard" -> dash_inv k u tok (dash_event e w).2.
Proof.
  intros Hw Hloc. unfold dash_event. rewrite SE_bind_run. cbn [gets].
  destruct Hw as [Hs Hl] eqn:Hw'. rewrite (proj1 (Hl Hloc)). by apply keeps_dash_handler.
Qed.

Lemma net_step_secret n n' : secret_at k n -> net_step n n' -> secret_at k n'.
Proof.
  intros Hs [o b req Hb | o b c Hb _].
  - by apply secret_at_insert.
  - intros b'. destruct (decide (o = api_origin)) as [->|Ho].
    + rewrite lookup_insert_eq. intros [= <-]. cbn. by apply Hs.
    + rewrite lookup_insert_ne by done. apply Hs.
Qed.
End Handlers.

(** ** What the user sees after each action *)

Lemma app_denied `{PasswordHasher} `{JwtScheme} secret ctx m p h b s r st msg :
  m <> OPTIONS -> route m p = Some (Protected r) ->
  verifyToken secret (now ctx) h = AuthDenied st msg ->
  app secret ctx (mkRequest m p h b) s = (mkResponse st (Text msg), s).
Proof.
  intros Hm Hr Hv. unfold app. cbn [method path authorization body].
  destruct m; try congruence; by rewrite Hr, Hv.
Qed.

Lemma srv_db_with_db b d : srv_db (with_db b d) = d.
Proof. reflexivity. Qed.

Lemma ok_status st b : 200 <= st < 300 -> resp_ok (mkResponse st b) = true.
Proof. intros Hs. by apply bool_decide_eq_true_2. Qed.

(** Run a handler's binds, keeping the backend updates and
    [fetchCustomers] folded. *)
Ltac dash_step :=
  unfold dash_run, dash_event, dash_handler, handleAdd, handleUpdate, handleDelete, handleEdit,
    setName, setMembershipType, setEditingId, setMessage, setCustomers;
  repeat progress (rewrite ?SE_bind_run;
                   cbn -[with_db resp_ok fetchCustomers fetch oid_hex customer_path]).

Section Flows.
Context `{PasswordHasher} `{JwtScheme}.

(** [fetchCustomers] with an accepted token puts the caller's records
    on screen and changes nothing else. *)
Lemma fetchCustomers_run tok (w : World DashState) b uid u :
  net w !! api_origin = Some b ->
  verifyToken (srv_secret b) (now (srv_ctx b)) (auth_header tok) = AuthOk uid -> cast_oid uid = Some u ->
  fetchCustomers tok w =
    (inr tt, mkWorld (net w) (shell w)
       (mkDash (JCustomers (List.filter (owned_by u) (customers (srv_db b))))
               (d_name (ui w)) (d_membershipType (ui w)) (d_editingId (ui w)) (d_message (ui w)))).
Proof.
  intros Hb Hv Hu. unfold fetchCustomers. cbn [try_catch]. rewrite SE_bind_run.
  rewrite (fetch_run _ _ _ b Hb), (app_read_spec _ _ _ _ _ _ u Hv Hu).
  cbn -[with_db resp_ok]. rewrite ok_status by lia. cbn -[with_db].
  by rewrite insert_with_db_same.
Qed.

(** Submitting the form in add mode: the page runs [handleAdd]. *)
Lemma submit_add (w : World DashState) :
  d_name (ui w) <> "" -> d_membershipType (ui w) <> "" -> truthy (d_editingId (ui w)) = false ->
  dash_event SubmitForm w = handleAdd (token (shell w)) w.
Proof.
  intros Hn Ht Hed. unfold dash_event. rewrite SE_bind_run. cbn [gets dash_handler].
  rewrite SE_bind_run. cbn [gets]. by rewrite required_filled, Hed.
Qed.
End Flows.


Lemma dash_reach_inv `{PasswordHasher} `{JwtScheme} k u w0 w :
  token_for k u (token (shell w0)) -> (u < oid_bound)%N -> secret_at k (net w0) ->
  dash_reach w0 w -> dash_inv k u (token (shell w0)) w.
Proof.
  intros Htok Hu Hs Hr. induction Hr as [|w e Hr IH Hloc _|w n Hr IH Hn].
  - apply keeps_fetchCustomers; [done..|]. split; [done|]. intros _. split; [done|]. constructor.
  - by apply dash_event_inv.
  - destruct IH as [Hs' Hl]. split; [by eapply net_step_secret|exact Hl].
Qed.

(** An issued token names its user, whenever it is checked. *)
Lemma token_for_issued `{JwtScheme} k u t : token_for k u (JsString (jwt_sign_1h k (oid_hex u) t)).
Proof.
  intros t' uid. unfold auth_header, js_template. rewrite verify_issued.
  by case_match; [intros [= <-]|].
Qed.

Section Props.
Context `{PasswordHasher} `{JwtScheme}.

(** C6: The page shows only its user's records: mounted with a token the
    API backend accepts for user [u] and nobody else, the list on screen
    holds only [u]'s records in every state the page reaches while it is
    shown, whatever the user clicks, whatever other clients send to the
    backend and however the clocks move. *)
Theorem dashboard_shows_only_own (w0 w : World DashState) k u :
  token_for k u (token (shell w0)) -> (u < oid_bound)%N -> secret_at k (net w0) ->
  dash_reach w0 w -> location (shell w) = "/dashboard" ->
  exists l, d_customers (ui w) = JCustomers l /\ Forall (fun c => user c = u) l.
Proof.
  intros Htok Hu Hs Hr Hloc.
  destruct (dash_reach_inv k u w0 w Htok Hu Hs Hr) as [_ Hl].
  destruct (Hl Hloc) as [_ Hown]. destruct (d_customers (ui w)); try done. by eexists.
Qed.

(** C14: Adding through the page: with an accepted token and both fields
    filled, the record is stored under the caller, the form is cleared,
    the message says so, and the list on screen becomes the caller's
    records, the new one last. *)
Theorem dashboard_add (w : World DashState) b uid u :
  net w !! api_origin = Some b ->
  verifyToken (srv_secret b) (now (srv_ctx b)) (auth_header (token (shell w))) = AuthOk uid ->
  cast_oid uid = Some u ->
  d_name (ui w) <> "" -> d_membershipType (ui w) <> "" -> truthy (d_editingId (ui w)) = false ->
  let s := srv_db b in
  let c := mkCustomer (next_oid s) (d_name (ui w)) (d_membershipType (ui w)) u in
  dash_event SubmitForm w =
    (inr tt, mkWorld (<[api_origin := with_db b (mkDb (users s) (customers s ++ [c]) (next_oid s + 1))]>
                        (net w))
                     (shell w)
                     (mkDash (JCustomers (List.filter (owned_by u) (customers s) ++ [c])) "" ""
                             (d_editingId (ui w)) (JsString "Customer Added Successfully"))).
Proof.
  intros Hb Hv Hu Hn Ht Hed s c. rewrite submit_add by done.
  unfold handleAdd. rewrite SE_bind_run. cbn [gets try_catch]. rewrite SE_bind_run.
  rewrite (fetch_run _ _ _ b Hb).
  rewrite (app_addCustomer _ _ _ _ _ uid u (d_name (ui w)) (d_membershipType (ui w))) by done.
  dash_step. rewrite ok_status by lia. dash_step.
  rewrite (fetchCustomers_run _ _ (with_db b (mkDb (users s) (customers s ++ [c]) (next_oid s + 1))) uid u);
    [| cbn [net]; by rewrite lookup_insert_eq | exact Hv | exact Hu].
  rewrite srv_db_with_db. cbn [customers]. rewrite List.filter_app. cbn.
  unfold owned_by at 2. by rewrite bool_decide_eq_true_2.
Qed.
(** C15: Editing through the page: Edit on a row, new values typed in, then
    Update.  The PUT carries the row's id, the stored record is updated
    as [findOneAndUpdate] does, the form is reset and leaves edit mode,
    and the list on screen is re-read. *)
Theorem dashboard_edit_update (w : World DashState) b uid u c n t :
  net w !! api_origin = Some b ->
  verifyToken (srv_secret b) (now (srv_ctx b)) (auth_header (token (shell w))) = AuthOk uid ->
  cast_oid uid = Some u -> (c_id c < oid_bound)%N -> n <> "" -> t <> "" ->
  let s := srv_db b in
  let l := updated (c_id c) u (mkBody None None (Some n) (Some t)) s in
  dash_run [EditRow c; TypeName n; TypeMembershipType t; SubmitForm] w =
    (inr tt, mkWorld (<[api_origin := with_db b (with_customers s l)]> (net w)) (shell w)
                     (mkDash (JCustomers (List.filter (owned_by u) l)) "" "" JsNull
                             (JsString "Customer Updated Successfully"))).
Proof.
  intros Hb Hv Hu Hc Hn Ht s l. dash_step.
  rewrite (proj2 (String.eqb_neq n "") Hn), (proj2 (String.eqb_neq t "") Ht). cbn.
  dash_step.
  rewrite (fetch_run _ _ _ b); [|exact Hb].
  rewrite (app_update_spec _ _ _ _ _ uid u (c_id c) Hv Hu Hc).
  dash_step. rewrite ok_status by lia. dash_step.
  rewrite (fetchCustomers_run _ _ (with_db b (with_customers s l)) uid u);
    [| cbn [net]; by rewrite lookup_insert_eq | exact Hv | exact Hu].
  by rewrite srv_db_with_db.
Qed.

(** C16: Deleting through the page: Delete on a row sends the row's id, the
    record is removed as [findOneAndDelete] does, and the list on screen
    is re-read. *)
Theorem dashboard_delete (w : World DashState) b uid u c :
  net w !! api_origin = Some b ->
  verifyToken (srv_secret b) (now (srv_ctx b)) (auth_header (token (shell w))) = AuthOk uid ->
  cast_oid uid = Some u -> (c_id c < oid_bound)%N ->
  let s := srv_db b in
  let l := deleted (c_id c) u s in
  dash_event (DeleteRow c) w =
    (inr tt, mkWorld (<[api_origin := with_db b (with_customers s l)]> (net w)) (shell w)
                     (mkDash (JCustomers (List.filter (owned_by u) l)) (d_name (ui w))
                             (d_membershipType (ui w)) (d_editingId (ui w))
                             (JsString "Customer Deleted Successfully"))).
Proof.
  intros Hb Hv Hu Hc s l. dash_step.
  rewrite (fetch_run _ _ _ b); [|exact Hb].
  rewrite (app_delete_spec _ _ _ _ _ uid u (c_id c) Hv Hu Hc).
  dash_step. rewrite ok_status by lia. dash_step.
  rewrite (fetchCustomers_run _ _ (with_db b (with_customers s l)) uid u);
    [| cbn [net]; by rewrite lookup_insert_eq | exact Hv | exact Hu].
  by rewrite srv_db_with_db.
Qed.

(** C31: A refused token is reported as a server failure: [verifyToken]
    answers 401 or 403 with a text body, [handleAdd] parses the body
    before it looks at the status, and the parse fails, so the page says
    ["Server Error"]; the same refusal while loading the list says
    ["Failed to fetch customers"].  Nothing is stored either way. *)
Theorem dashboard_denied_message (w : World DashState) b st msg :
  net w !! api_origin = Some b ->
  verifyToken (srv_secret b) (now (srv_ctx b)) (auth_header (token (shell w))) = AuthDenied st msg ->
  d_name (ui w) <> "" -> d_membershipType (ui w) <> "" -> truthy (d_editingId (ui w)) = false ->
  let d := ui w in
  dash_event SubmitForm w =
    (inr tt, mkWorld (net w) (shell w)
       (mkDash (d_customers d) (d_name d) (d_membershipType d) (d_editingId d) (JsString "Server Error"))) /\
  fetchCustomers (token (shell w)) w =
    (inr tt, mkWorld (net w) (shell w)
       (mkDash (d_customers d) (d_name d) (d_membershipType d) (d_editingId d)
               (JsString "Failed to fetch customers"))).
Proof.
  intros Hb Hv Hn Ht Hed d. apply verifyToken_denied_status in Hv as Hst. split.
  - rewrite submit_add by done. unfold handleAdd. dash_step.
    rewrite (fetch_run _ _ _ b); [|exact Hb].
    rewrite (app_denied _ _ POST _ _ _ _ RAddCustomer st msg); [|done|reflexivity|exact Hv].
    dash_step. by rewrite insert_with_db_same.
  - unfold fetchCustomers. dash_step. rewrite (fetch_run _ _ _ b); [|exact Hb].
    rewrite (app_denied _ _ GET _ _ _ _ RReadCustomer st msg); [|done|reflexivity|exact Hv].
    dash_step. rewrite denied_not_ok by done. dash_step. by rewrite insert_with_db_same.
Qed.
End Props.

(** ** Witnesses: alice (user 0 of [Fixtures]) on the page, the API
    backend serving [db1] *)
Import Fixtures.

Definition backend1 : Backend := mkBackend secret ctx1 db1.
Definition net1 : Net := <[api_origin := backend1]> ∅.
Definition tok_alice : JsValue := JsString (jwt_sign_1h secret (oid_hex 0) 0).
Definition page (d : DashState) : World DashState := mkWorld net1 (mkShell tok_alice "/dashboard") d.
Definition mounted : World DashState :=
  (fetchCustomers tok_alice (mkWorld net1 (mkShell tok_alice "/dashboard") dash_initial)).2.

Lemma secret_at_net1 : secret_at secret net1.
Proof. intros b. unfold net1. rewrite lookup_insert_eq. by intros [= <-]. Qed.

Lemma dashboard_shows_only_own_witness :
  exists l, d_customers (ui mounted) = JCustomers l /\ Forall (fun c => user c = 0%N) l.
Proof.
  apply (dashboard_shows_only_own (page dash_initial) mounted secret 0).
  - apply token_for_issued.
  - by_computation.
  - apply secret_at_net1.
  - apply ReachMount.
  - by_computation.
Defined.

Lemma dashboard_add_witness :
  let w := page (mkDash (JCustomers []) "Cy" "Gold" JsNull (JsString "")) in
  let s := db1 in
  let c := mkCustomer (next_oid s) "Cy" "Gold" 0 in
  dash_event SubmitForm w =
    (inr tt, mkWorld (<[api_origin := with_db backend1 (mkDb (users s) (customers s ++ [c]) (next_oid s + 1))]>
                        (net w))
                     (shell w)
                     (mkDash (JCustomers (List.filter (owned_by 0) (customers s) ++ [c])) "" ""
                             JsNull (JsString "Customer Added Successfully"))).
Proof. intros w s c. apply (dashboard_add w backend1 (oid_hex 0) 0); by_computation. Defined.

Lemma dashboard_edit_update_witness :
  let c := mkCustomer 1 "Bob" "Gold" 0 in
  let l := updated (c_id c) 0 (mkBody None None (Some "Robert") (Some "Platinum")) db1 in
  dash_run [EditRow c; TypeName "Robert"; TypeMembershipType "Platinum"; SubmitForm] (page dash_initial) =
    (inr tt, mkWorld (<[api_origin := with_db backend1 (with_customers db1 l)]> net1)
                     (mkShell tok_alice "/dashboard")
                     (mkDash (JCustomers (List.filter (owned_by 0) l)) "" "" JsNull
                             (JsString "Customer Updated Successfully"))).
Proof. intros c l. apply (dashboard_edit_update (page dash_initial) backend1 (oid_hex 0) 0); by_computation. Defined.

Lemma dashboard_delete_witness :
  let c := mkCustomer 1 "Bob" "Gold" 0 in
  let l := deleted (c_id c) 0 db1 in
  dash_event (DeleteRow c) (page dash_initial) =
    (inr tt, mkWorld (<[api_origin := with_db backend1 (with_customers db1 l)]> net1)
                     (mkShell tok_alice "/dashboard")
                     (mkDash (JCustomers (List.filter (owned_by 0) l)) "" "" JsNull
                             (JsString "Customer Deleted Successfully"))).
Proof. intros c l. apply (dashboard_delete (page dash_initial) backend1 (oid_hex 0) 0); by_computation. Defined.

(** The token expired: alice's token checked at second 4000. *)
Definition late_page (d : DashState) : World DashState :=
  mkWorld (<[api_origin := mkBackend secret (mkCtx 4000 0) db1]> ∅) (mkShell tok_alice "/dashboard") d.

Lemma dashboard_denied_message_witness :
  let w := late_page (mkDash (JCustomers []) "Cy" "Gold" JsNull (JsString "")) in
  let d := ui w in
  dash_event SubmitForm w =
    (inr tt, mkWorld (net w) (shell w)
       (mkDash (d_customers d) (d_name d) (d_membershipType d) (d_editingId d) (JsString "Server Error"))) /\
  fetchCustomers (token (shell w)) w =
    (inr tt, mkWorld (net w) (shell w)
       (mkDash (d_customers d) (d_name d) (d_membershipType d) (d_editingId d)
               (JsString "Failed to fetch customers"))).
Proof.
  intros w d. apply (dashboard_denied_message w (mkBackend secret (mkCtx 4000 0) db1) 401 "Invalid Token");
    by_computation.
Defined.

End DashboardPage.
