(* ===== verification/Store.v ===== *)
(** * The ownership-scoped record store of the specification, refined

    spec.md (4.3) describes the customer routes as a record store: a
    finite map from record ids to records [{name, membershipType,
    owner}], with [Create] (both fields validated non-empty, a fresh id),
    [ListByOwner], and [Update]/[Delete] that act only on a record of the
    caller and are otherwise a silent no-op that reports success.  This
    file states that contract as the step relation [spec_step] on a
    [Store], relates the backend's [customers] collection to it by the
    abstraction [abs], and proves that [app] implements it: each customer
    request with an accepted token takes [abs] of the database along one
    abstract step, and answers as that step says, for one request and for
    any sequence of them. *)

From stdpp Require Import gmap.
From S2P Require Import Prelude Hex Crypto Mongo Auth Handlers Fixtures Isolation.

Module RecordStore.
Import Hex Crypto Mongo Auth Handlers Isolation.

(** ** The specification *)

Record Rec := mkRec { r_name : string; r_membershipType : string; r_owner : N }.

#[export] Instance Rec_eq_dec : EqDecision Rec.
Proof. solve_decision. Defined.

Abbreviation Store := (gmap N Rec).

Inductive Op :=
| Create (n t : string)
| ListByOwner
| Update (i : N) (n t : string)
| Delete (i : N).

Inductive Result := Created | Rejected | Listed (m : Store) | Done.

(** [Update]/[Delete]: act on record [i] when the caller owns it,
    otherwise change nothing. *)
Definition a_update (p i : N) (n t : string) (m : Store) : Store :=
  match m !! i with
  | Some r => if decide (r_owner r = p) then <[i := mkRec n t p]> m else m
  | None => m
  end.

Definition a_delete (p i : N) (m : Store) : Store :=
  match m !! i with
  | Some r => if decide (r_owner r = p) then delete i m else m
  | None => m
  end.

Definition owned_by_p (p : N) (ir : N * Rec) : Prop := r_owner ir.2 = p.

#[export] Instance owned_by_p_dec p ir : Decision (owned_by_p p ir).
Proof. unfold owned_by_p. apply _. Defined.

(** One operation of principal [p]: the store before, the result, the
    store after. *)
Inductive spec_step (p : N) : Op -> Store -> Result -> Store -> Prop :=
| SCreate n t i m :
    n <> "" -> t <> "" -> m !! i = None ->
    spec_step p (Create n t) m Created (<[i := mkRec n t p]> m)
| SCreateInvalid n t m :
    n = "" \/ t = "" -> spec_step p (Create n t) m Rejected m
| SList m : spec_step p ListByOwner m (Listed (filter (owned_by_p p) m)) m
| SUpdate i n t m : spec_step p (Update i n t) m Done (a_update p i n t m)
| SDelete i m : spec_step p (Delete i) m Done (a_delete p i m).

Inductive spec_steps (p : N) : list Op -> Store -> list Result -> Store -> Prop :=
| SNil m : spec_steps p [] m [] m
| SCons op ops m r rs m' m'' :
    spec_step p op m r m' -> spec_steps p ops m' rs m'' -> spec_steps p (op :: ops) m (r :: rs) m''.

(** ** The abstraction of the [customers] collection *)

Definition rec_of (c : Customer) : Rec := mkRec (name c) (membershipType c) (user c).

Fixpoint abs (l : list Customer) : Store :=
  match l with
  | [] => ∅
  | c :: l' => <[c_id c := rec_of c]> (abs l')
  end.

(** The request an operation is sent as, with the header [h]. *)
Definition to_request (h : option string) (op : Op) : Request :=
  match op with
  | Create n t => mkRequest POST "/api/Customer" h (mkBody None None (Some n) (Some t))
  | ListByOwner => mkRequest GET "/api/readCustomer" h empty_body
  | Update i n t => mkRequest PUT (customer_path (oid_hex i)) h (mkBody None None (Some n) (Some t))
  | Delete i => mkRequest DELETE (customer_path (oid_hex i)) h empty_body
  end.

(** What the response says of the abstract result: 201 with its message
    for a creation, an error status for a rejection, the list whose
    abstraction is the listed store, 200 for an update or a delete. *)
Definition resp_refines (r : Response) (res : Result) : Prop :=
  match res with
  | Created => r = mkResponse 201 (JMessage "Customer Added Successfully")
  | Rejected => 400 <= status r
  | Listed m => exists l, r = mkResponse 200 (JCustomers l) /\ NoDup (c_id <$> l) /\ abs l = m
  | Done => status r = 200
  end.

(** Ids in requests are ids the server produced. *)
Definition op_ok (op : Op) : Prop :=
  match op with
  | Update i _ _ | Delete i => (i < oid_bound)%N
  | _ => True
  end.

(** [n] requests with the header [h], one after the other. *)
Section Run.
Context `{PasswordHasher} `{JwtScheme}.

Fixpoint app_run (secret : string) (ctx : Ctx) (h : option string) (ops : list Op) (s : Db)
  : list Response * Db :=
  match ops with
  | [] => ([], s)
  | op :: ops' =>
      let '(r, s1) := app secret ctx (to_request h op) s in
      let '(rs, s2) := app_run secret ctx h ops' s1 in
      (r :: rs, s2)
  end.
End Run.

(** ** [abs] commutes with the list operations of the collection *)

Lemma abs_lookup_None l i : i ∉ c_id <$> l -> abs l !! i = None.
Proof.
  induction l as [|c l IH]; [done|]. rewrite fmap_cons, not_elem_of_cons. intros [Hi Hl].
  cbn. rewrite lookup_insert_ne by done. by apply IH.
Qed.

Lemma abs_snoc l c : c_id c ∉ c_id <$> l -> abs (l ++ [c]) = <[c_id c := rec_of c]> (abs l).
Proof.
  induction l as [|x l IH]; [done|]. rewrite fmap_cons, not_elem_of_cons. intros [Hx Hl].
  cbn. rewrite IH by done. by apply insert_insert_ne.
Qed.

Lemma abs_filter u l :
  NoDup (c_id <$> l) -> abs (List.filter (owned_by u) l) = filter (owned_by_p u) (abs l).
Proof.
  induction l as [|c l IH]; [done|]. rewrite fmap_cons, NoDup_cons. intros [Hc Hl]. cbn.
  unfold owned_by at 1. case_bool_decide as Hu; cbn.
  - rewrite map_filter_insert_True by done. by rewrite IH.
  - rewrite map_filter_insert_False by done. rewrite IH by done.
    by rewrite delete_id by (by apply abs_lookup_None).
Qed.

Lemma abs_update o u n t l :
  NoDup (c_id <$> l) ->
  abs (update_first (id_owned_by o u) (apply_update (Some n) (Some t)) l).2 = a_update u o n t (abs l).
Proof.
  induction l as [|c l IH]; [done|]. rewrite fmap_cons, NoDup_cons. intros [Hc Hl]. cbn.
  unfold id_owned_by at 1, owned_by. destruct (bool_decide (c_id c = o)) eqn:Ho;
    [apply bool_decide_eq_true_1 in Ho|apply bool_decide_eq_false_1 in Ho];
    [destruct (bool_decide (user c = u)) eqn:Hu;
       [apply bool_decide_eq_true_1 in Hu|apply bool_decide_eq_false_1 in Hu]|]; cbn.
  - subst. unfold a_update. rewrite lookup_insert_eq, decide_True by done.
    by rewrite insert_insert_eq.
  - subst. destruct update_first as [r l''] eqn:U. cbn in IH |- *. rewrite IH by done.
    unfold a_update. rewrite lookup_insert_eq, decide_False by done.
    by rewrite abs_lookup_None.
  - destruct update_first as [r l''] eqn:U. cbn in IH |- *. rewrite IH by done.
    unfold a_update. rewrite lookup_insert_ne by done.
    destruct (abs l !! o) as [r'|]; [|done]. case_decide; [|done].
    by apply insert_insert_ne.
Qed.

Lemma abs_delete o u l :
  NoDup (c_id <$> l) -> abs (delete_first (id_owned_by o u) l).2 = a_delete u o (abs l).
Proof.
  induction l as [|c l IH]; [done|]. rewrite fmap_cons, NoDup_cons. intros [Hc Hl]. cbn.
  unfold id_owned_by at 1, owned_by. destruct (bool_decide (c_id c = o)) eqn:Ho;
    [apply bool_decide_eq_true_1 in Ho|apply bool_decide_eq_false_1 in Ho];
    [destruct (bool_decide (user c = u)) eqn:Hu;
       [apply bool_decide_eq_true_1 in Hu|apply bool_decide_eq_false_1 in Hu]|]; cbn.
  - subst. unfold a_delete. rewrite lookup_insert_eq, decide_True by done.
    rewrite delete_insert_eq. by rewrite delete_id by (by apply abs_lookup_None).
  - subst. destruct delete_first as [r l''] eqn:U. cbn in IH |- *. rewrite IH by done.
    unfold a_delete. rewrite lookup_insert_eq, decide_False by done.
    by rewrite abs_lookup_None.
  - destruct delete_first as [r l''] eqn:U. cbn in IH |- *. rewrite IH by done.
    unfold a_delete. rewrite lookup_insert_ne by done.
    destruct (abs l !! o) as [r'|]; [|done]. case_decide; [|done].
    by rewrite delete_insert_ne.
Qed.

(** ** [app] implements the store *)

Section Refinement.
Context `{PasswordHasher} `{JwtScheme}.

(** A customer request with an accepted token keeps [db_wf]. *)
Lemma app_protected_wf secret ctx m path h b s r uid :
  m <> OPTIONS -> route m path = Some (Protected r) ->
  verifyToken secret (now ctx) h = AuthOk uid ->
  db_wf s -> db_wf (app secret ctx (mkRequest m path h b) s).2.
Proof.
  intros Hm Hr Hv Hs. rewrite (app_protected _ _ _ _ _ _ _ r uid) by done.
  rewrite catch_500_state. by apply protected_handler_wf.
Qed.

(** A creation with an empty or missing field: the id is drawn, the
    save fails validation, and the handler's [catch] answers 500. *)
Lemma app_add_invalid secret ctx h s uid un pw nm mt :
  verifyToken secret (now ctx) h = AuthOk uid -> required nm = None \/ required mt = None ->
  app secret ctx (mkRequest POST "/api/Customer" h (mkBody un pw nm mt)) s =
    (server_error, mkDb (users s) (customers s) (next_oid s + 1)).
Proof.
  intros Hv Hnt.
  rewrite (app_protected _ _ _ _ _ _ _ RAddCustomer uid) by done.
  unfold catch_500, protected_handler, addCustomer, Customer_create, Customer_save.
  rewrite !SE_bind_run. cbn [new_oid b_name b_membershipType].
  destruct Hnt as [Hn | Ht]; [rewrite Hn|rewrite Ht; destruct (required nm)]; done.
Qed.

Lemma next_oid_not_in s : db_wf s -> next_oid s ∉ c_id <$> customers s.
Proof.
  intros (_ & _ & _ & _ & Hlt) (c & Hc & Hin)%list_elem_of_fmap.
  eapply Forall_forall in Hlt; [|exact Hin]. simpl in Hlt. lia.
Qed.

(** One customer request refines one step of the store, and keeps the
    database well formed. *)
Lemma refine_step secret ctx h s uid p op :
  db_wf s -> verifyToken secret (now ctx) h = AuthOk uid -> cast_oid uid = Some p -> op_ok op ->
  let rs := app secret ctx (to_request h op) s in
  exists res, spec_step p op (abs (customers s)) res (abs (customers rs.2)) /\
              resp_refines rs.1 res /\ db_wf rs.2.
Proof.
  intros Hwf Hv Hp Hop rs. pose proof Hwf as (_ & _ & _ & Hnd & _).
  assert (Hwf' : db_wf rs.2).
  { subst rs. destruct op; cbn [to_request].
    - by apply (app_protected_wf _ _ _ _ _ _ _ RAddCustomer uid).
    - by apply (app_protected_wf _ _ _ _ _ _ _ RReadCustomer uid).
    - apply (app_protected_wf _ _ _ _ _ _ _ (RUpdateCustomer (oid_hex i)) uid); [done| |done..].
      auto using route_update, oid_hex_nonempty, oid_hex_nosep.
    - apply (app_protected_wf _ _ _ _ _ _ _ (RDeleteCustomer (oid_hex i)) uid); [done| |done..].
      auto using route_delete, oid_hex_nonempty, oid_hex_nosep. }
  subst rs. destruct op as [n t| |i n t|i]; cbn [to_request] in *.
  - destruct (decide (n = "" \/ t = "")) as [Hnt|Hnt].
    + rewrite (app_add_invalid _ _ _ _ uid) in * by (done || (destruct Hnt as [-> | ->]; [left|right]; done)).
      exists Rejected. split; [by constructor|]. split; [cbn; lia|done].
    + rewrite (app_addCustomer _ _ _ _ _ uid p n t) in * by (done || naive_solver).
      exists Created. split; [|done]. cbn [fst snd customers]. rewrite abs_snoc.
      * constructor; [naive_solver|naive_solver|by apply abs_lookup_None, next_oid_not_in].
      * by apply next_oid_not_in.
  - rewrite (app_read_spec _ _ _ _ _ uid p) in * by done. cbn.
    eexists. split; [constructor|]. split; [|done].
    eexists. split; [done|]. split; [|by apply abs_filter].
    eapply NoDup_fmap_sublist; [apply filter_sublist_of|exact Hnd].
  - rewrite (app_update_spec _ _ _ _ _ uid p) in * by done.
    exists Done. split; [|done]. cbn [fst snd customers with_customers]. unfold updated. cbn [b_name b_membershipType].
    rewrite abs_update by done. constructor.
  - rewrite (app_delete_spec _ _ _ _ _ uid p) in * by done.
    exists Done. split; [|done]. cbn [fst snd customers with_customers]. unfold deleted.
    rewrite abs_delete by done. constructor.
Qed.

(** C7: The backend implements the specification's record store: from a
    well-formed database, any sequence of customer requests that one
    caller sends with an accepted token moves the abstraction of the
    [customers] collection along a run of the abstract store (fresh ids
    for creations, the ownership filter for listing, the silent no-op
    for updates and deletes aimed at records the caller does not own),
    and each response says what the abstract step returns. *)
Theorem app_refines_store secret ctx h uid p ops s :
  db_wf s -> verifyToken secret (now ctx) h = AuthOk uid -> cast_oid uid = Some p ->
  Forall op_ok ops ->
  exists res,
    spec_steps p ops (abs (customers s)) res (abs (customers (app_run secret ctx h ops s).2)) /\
    Forall2 resp_refines (app_run secret ctx h ops s).1 res.
Proof.
  intros Hwf Hv Hp Hops. revert s Hwf. induction Hops as [|op ops Hop Hops IH]; intros s Hwf.
  - exists []. split; constructor.
  - destruct (refine_step secret ctx h s uid p op Hwf Hv Hp Hop) as (r & Hstep & Hr & Hwf').
    cbn [app_run]. destruct (app secret ctx (to_request h op) s) as [r1 s1]. cbn in *.
    destruct (IH s1 Hwf') as (rs & Hsteps & Hrs).
    destruct (app_run secret ctx h ops s1) as [rs1 s2]. cbn in *.
    exists (r :: rs). split; [by econstructor|by constructor].
Qed.

(** C24: A creation the specification rejects as a [ValidationError], to
    be surfaced as a 4xx (spec.md 7), is answered 500 ["Server Error"]:
    when [name] or [membershipType] is missing from the body or empty,
    Mongoose's validation error reaches the handler's generic [catch].
    Nothing is stored; only the id drawn for the document is used up. *)
Theorem create_invalid_500 secret ctx h s uid un pw nm mt :
  verifyToken secret (now ctx) h = AuthOk uid ->
  (nm = None \/ nm = Some "") \/ (mt = None \/ mt = Some "") ->
  app secret ctx (mkRequest POST "/api/Customer" h (mkBody un pw nm mt)) s =
    (mkResponse 500 (JMessage "Server Error"), mkDb (users s) (customers s) (next_oid s + 1)).
Proof.
  intros Hv Hnt. apply (app_add_invalid _ _ _ _ uid); [done|].
  destruct Hnt as [[-> | ->] | [-> | ->]]; [left|left|right|right]; done.
Qed.
End Refinement.

(** ** Witnesses: alice of [Fixtures] sends five requests *)
Import Fixtures.

Definition ops1 : list Op :=
  [Create "Cy" "Gold"; ListByOwner; Update 1 "Robert" "Platinum"; Delete 2; Create "" "Gold"].

Lemma app_refines_store_witness :
  exists res,
    spec_steps 0 ops1 (abs (customers db1)) res (abs (customers (app_run secret ctx1 auth_alice ops1 db1).2)) /\
    Forall2 resp_refines (app_run secret ctx1 auth_alice ops1 db1).1 res.
Proof.
  apply (app_refines_store _ _ _ (oid_hex 0)); [by_computation..|].
  repeat constructor; by_computation.
Defined.

(** The form sent without a membership type. *)
Lemma create_invalid_500_witness :
  app secret ctx1 (mkRequest POST "/api/Customer" auth_alice (mkBody None None (Some "Cy") None)) db1 =
    (mkResponse 500 (JMessage "Server Error"), mkDb (users db1) (customers db1) (next_oid db1 + 1)).
Proof. apply (create_invalid_500 _ _ _ _ (oid_hex 0)); [by_computation|right; left; reflexivity]. Defined.

End RecordStore.
