(* ===== verification/Concurrency.v ===== *)
(** * Concurrent requests, interleaved at their [await] points

    Node runs one handler at a time, but an [async] handler gives the
    event loop back at each [await]; between two of its awaited calls,
    any other request may run its own.  [Prog] is a handler cut at its
    [await]s: a chain of atomic calls ([M] computations), each tagged as
    a Mongoose call or a bcryptjs call, and a final response.  Each route of index.js is written as a [Prog], and
    [app_prog] is the whole application; run alone, it is [app]
    ([app_prog_equiv]).  A configuration [Conf] holds the requests in
    flight and the database; [cstep] lets a new request arrive or any
    request in flight run its next awaited call.  Under every
    interleaving the database stays well formed ([concurrent_wf]); but
    two registrations of one username can both pass [User.findOne], and
    the second then fails on the unique index with a 500
    ([register_race]), where run one after the other it is refused with
    400. *)

From stdpp Require Import list relations.
From S2P Require Import Prelude Hex Crypto Mongo Auth Handlers Fixtures Isolation Accounts.

Module Concurrency.
Import Hex Crypto Mongo Auth Handlers Isolation Accounts.

(** ** Handlers cut at their [await]s *)

(** What an awaited call waits on: a Mongoose model call, answered by
    the database server, or a library call (bcryptjs) the process
    computes itself. *)
Inductive Call := DbCall | LibCall.

Inductive Prog (A : Type) : Type :=
| PRet (a : A)
| PAwait (X : Type) (c : Call) (m : M X) (k : X -> Prog A).
Arguments PRet {A} a.
Arguments PAwait {A X} c m k.

(** The handler run without interruption. *)
Fixpoint run_seq {A} (p : Prog A) : M A :=
  match p with
  | PRet a => mret a
  | PAwait _ m k => x ← m; run_seq (k x)
  end.

(** A request in flight, run to its end with no other request between
    its calls; a rejection goes to the handler's [catch]. *)
Fixpoint run_thread (p : Prog Response) (s : Db) : Response * Db :=
  match p with
  | PRet r => (r, s)
  | PAwait _ m k =>
      match m s with
      | (inl _, s') => (server_error, s')
      | (inr x, s') => run_thread (k x) s'
      end
  end.

Section Progs.
Context `{PasswordHasher} `{JwtScheme}.

(** [POST /api/register]: three awaits (lines 57, 60, 67). *)
Definition register_prog (salt : nat) (b : Body) : Prog Response :=
  PAwait DbCall (User_findOne (b_username b)) (fun oldUser =>
  match oldUser with
  | Some _ => PRet (mkResponse 400 (JMessage "Username already exists"))
  | None =>
      PAwait LibCall (bcrypt_hash (b_password b) salt) (fun hashedPassword =>
      PAwait DbCall (User_create (b_username b) hashedPassword) (fun _ =>
      PRet (mkResponse 201 (JMessage "User Registered Successfully"))))
  end).

(** [POST /api/Login]: two awaits (lines 79, 83). *)
Definition login_prog (secret : string) (now : nat) (b : Body) : Prog Response :=
  PAwait DbCall (User_findOne (b_username b)) (fun user =>
  match user with
  | None => PRet (mkResponse 401 (JMessage "Invaild Credentials"))
  | Some u =>
      PAwait LibCall (bcrypt_compare (b_password b) (password u)) (fun isMatch : bool =>
      if isMatch then PRet (mkResponse 200 (JToken (jwt_sign_1h secret (oid_hex (u_id u)) now)))
      else PRet (mkResponse 401 (JMessage "Invalid Credentials")))
  end).

(** The four customer handlers: one await each. *)
Definition protected_prog (r : ProtectedRoute) (uid : string) (b : Body) : Prog Response :=
  match r with
  | RAddCustomer =>
      PAwait DbCall (Customer_create (b_name b) (b_membershipType b) uid) (fun _ =>
      PRet (mkResponse 201 (JMessage "Customer Added Successfully")))
  | RReadCustomer =>
      PAwait DbCall (Customer_find uid) (fun customers => PRet (mkResponse 200 (JCustomers customers)))
  | RUpdateCustomer id =>
      PAwait DbCall (Customer_findOneAndUpdate id uid (b_name b) (b_membershipType b)) (fun _ =>
      PRet (mkResponse 200 (JMessage "Customer Updated Successfully")))
  | RDeleteCustomer id =>
      PAwait DbCall (Customer_findOneAndDelete id uid) (fun _ =>
      PRet (mkResponse 200 (JMessage "Customer Deleted Successfully")))
  end.

(** The application, as [app] routes it; [verifyToken] runs before the
    handler's first await. *)
Definition app_prog (secret : string) (ctx : Ctx) (req : Request) : Prog Response :=
  match method req with
  | OPTIONS => PRet (mkResponse 204 NoBody)
  | m =>
      match route m (path req) with
      | None => PRet (mkResponse 404 CannotRoute)
      | Some (Public RRegister) => register_prog (salt ctx) (body req)
      | Some (Public RLogin) => login_prog secret (now ctx) (body req)
      | Some (Protected r) =>
          match verifyToken secret (now ctx) (authorization req) with
          | AuthDenied st msg => PRet (mkResponse st (Text msg))
          | AuthOk uid => protected_prog r uid (body req)
          end
      end
  end.
End Progs.

(** ** Run alone, the cut handlers are the handlers *)

Lemma run_thread_seq p s : run_thread p s = catch_500 (run_seq p) s.
Proof.
  revert s. induction p as [r|X c m k IH]; intros s; [done|]. cbn.
  unfold catch_500 in *. rewrite SE_bind_run. destruct (m s) as [[e|x] s']; [done|]. apply IH.
Qed.

Section Equiv.
Context `{PasswordHasher} `{JwtScheme}.

Lemma register_prog_seq salt b s : run_seq (register_prog salt b) s = register salt b s.
Proof.
  unfold register, register_prog. cbn [run_seq]. rewrite !SE_bind_run.
  destruct (User_findOne (b_username b) s) as [[e|[u|]] s1]; [done..|].
  cbn [run_seq]. rewrite !SE_bind_run. destruct (bcrypt_hash _ _ s1) as [[e|h] s2]; done.
Qed.

Lemma login_prog_seq secret now b s : run_seq (login_prog secret now b) s = login secret now b s.
Proof.
  unfold login, login_prog. cbn [run_seq]. rewrite !SE_bind_run.
  destruct (User_findOne (b_username b) s) as [[e|[u|]] s1]; [done| |done].
  cbn [run_seq]. rewrite !SE_bind_run. destruct (bcrypt_compare _ _ s1) as [[e|[]] s2]; done.
Qed.

Lemma protected_prog_seq r uid b s :
  run_seq (protected_prog r uid b) s = protected_handler r uid b s.
Proof. by destruct r. Qed.

(** Cutting the handlers at their [await]s changes nothing when a
    request runs alone: the cut application answers every request as
    [app] does and leaves the same database. *)
Theorem app_prog_equiv secret ctx req s : run_thread (app_prog secret ctx req) s = app secret ctx req s.
Proof.
  rewrite run_thread_seq. unfold app, app_prog, catch_500.
  destruct (method req); try done;
    destruct (route _ (path req)) as [[[]|r]|]; try done;
    try destruct (verifyToken _ _ _); try done;
    by rewrite ?register_prog_seq, ?login_prog_seq, ?protected_prog_seq.
Qed.
End Equiv.

(** ** Requests in flight *)

(** The next awaited call of a request; a rejection ends it in its
    [catch] with a 500.  A finished request keeps its response. *)
Definition thread_step (p : Prog Response) (s : Db) : option (Prog Response * Db) :=
  match p with
  | PRet _ => None
  | PAwait _ m k =>
      match m s with
      | (inl _, s') => Some (PRet server_error, s')
      | (inr x, s') => Some (k x, s')
      end
  end.

Record Conf := mkConf { inflight : list (Prog Response); cdb : Db }.

(** A request in flight runs its next awaited call. *)
Inductive crun : Conf -> Conf -> Prop :=
| CRun c i p p' s' :
    inflight c !! i = Some p -> thread_step p (cdb c) = Some (p', s') ->
    crun c (mkConf (<[i := p']> (inflight c)) s').

Section Steps.
Context `{PasswordHasher} `{JwtScheme} (secret : string).

(** A request arrives (at the time and with the salt of [ctx]), or one
    in flight resumes. *)
Inductive cstep : Conf -> Conf -> Prop :=
| CArrive c ctx req : cstep c (mkConf (inflight c ++ [app_prog secret ctx req]) (cdb c))
| CResume c c' : crun c c' -> cstep c c'.
End Steps.

(** ** The database stays well formed under every interleaving *)

(** Every awaited call of the request keeps [db_wf]. *)
Inductive prog_wf : Prog Response -> Prop :=
| WRet r : prog_wf (PRet r)
| WAwait X c (m : M X) k : preserves m -> (forall x, prog_wf (k x)) -> prog_wf (PAwait c m k).

#[local] Hint Constructors prog_wf : gym.
#[local] Hint Resolve User_findOne_wf User_create_wf Customer_create_wf Customer_find_wf
  Customer_findOneAndUpdate_wf Customer_findOneAndDelete_wf bcrypt_hash_wf bcrypt_compare_wf : gym.

Section Wf.
Context `{PasswordHasher} `{JwtScheme}.

Lemma register_prog_wf salt b : prog_wf (register_prog salt b).
Proof.
  constructor; [apply User_findOne_wf|]. intros [u|]; [constructor|].
  constructor; [apply bcrypt_hash_wf|]. intros h.
  constructor; [apply User_create_wf|]. intros _. constructor.
Qed.

Lemma login_prog_wf secret now b : prog_wf (login_prog secret now b).
Proof.
  constructor; [apply User_findOne_wf|]. intros [u|]; [|constructor].
  constructor; [apply bcrypt_compare_wf|]. intros []; constructor.
Qed.

Lemma protected_prog_wf r uid b : prog_wf (protected_prog r uid b).
Proof. destruct r; (constructor; [auto with gym|intros; constructor]). Qed.

Lemma app_prog_wf secret ctx req : prog_wf (app_prog secret ctx req).
Proof.
  unfold app_prog. repeat case_match; auto using register_prog_wf, login_prog_wf, protected_prog_wf with gym.
Qed.

Lemma thread_step_wf p s p' s' :
  prog_wf p -> db_wf s -> thread_step p s = Some (p', s') -> prog_wf p' /\ db_wf s'.
Proof.
  intros [r|X c m k Hm Hk] Hs; [done|]. cbn. specialize (Hm s Hs).
  destruct (m s) as [[e|x] s1]; intros [= <- <-]; auto with gym.
Qed.

Definition conf_wf (c : Conf) : Prop := db_wf (cdb c) /\ Forall prog_wf (inflight c).

Lemma cstep_wf secret c c' : cstep secret c c' -> conf_wf c -> conf_wf c'.
Proof.
  intros [c0 ctx req | c0 c1 [c2 i p p' s' Hi Hp]] [Hs Hl].
  - split; [done|]. apply Forall_app; split; [done|]. repeat constructor. apply app_prog_wf.
  - destruct (thread_step_wf p (cdb c2) p' s') as [Hp' Hs']; [by eapply Forall_lookup_1|done..|].
    split; [done|]. by apply Forall_insert.
Qed.
Lemma rtc_conf_wf secret c c' : rtc (cstep secret) c c' -> conf_wf c -> conf_wf c'.
Proof. induction 1; eauto using cstep_wf. Qed.
End Wf.

Section Race.
Context `{PasswordHasher} `{JwtScheme}.

(** C20: Whatever requests arrive and however their awaited calls
    interleave, the collections stay well formed: ids distinct and
    below the counter, usernames distinct and non-empty (the unique
    index), hashes non-empty. *)
Theorem concurrent_wf secret s c :
  db_wf s -> rtc (cstep secret) (mkConf [] s) c -> db_wf (cdb c).
Proof.
  intros Hs Hr. enough (conf_wf c) as [? _] by done.
  eapply rtc_conf_wf; [exact Hr|]. split; [done|constructor].
Qed.

(** ** Two registrations of one name *)

(** A registration after [User.findOne] found nobody: hashing, then
    saving. *)
Definition reg_save (un h : string) : Prog Response :=
  PAwait DbCall (User_create (Some un) h) (fun _ =>
  PRet (mkResponse 201 (JMessage "User Registered Successfully"))).

Definition reg_hash (salt : nat) (un pw : string) : Prog Response :=
  PAwait LibCall (bcrypt_hash (Some pw) salt) (fun h => reg_save un h).

Lemma reg_step_find salt un pw s :
  un ∉ username <$> users s ->
  thread_step (register_prog salt (mkBody (Some un) (Some pw) None None)) s = Some (reg_hash salt un pw, s).
Proof.
  intros Hf. unfold thread_step, register_prog. rewrite User_findOne_run. cbn [b_username].
  by rewrite find_username_none.
Qed.

Lemma reg_step_hash salt un pw s :
  thread_step (reg_hash salt un pw) s = Some (reg_save un (bhash pw salt), s).
Proof. reflexivity. Qed.

Lemma reg_step_save un h s :
  un <> "" -> h <> "" -> un ∉ username <$> users s ->
  thread_step (reg_save un h) s =
    Some (PRet (mkResponse 201 (JMessage "User Registered Successfully")),
          mkDb (users s ++ [mkUser (next_oid s) un h]) (customers s) (next_oid s + 1)).
Proof. intros Hun Hh Hf. unfold thread_step, reg_save. by rewrite User_create_spec. Qed.

(** The unique index refuses a second user of the name: the save
    rejects with a duplicate key, after the id was drawn. *)
Lemma reg_step_save_dup un h s :
  un <> "" -> h <> "" -> un ∈ username <$> users s ->
  thread_step (reg_save un h) s =
    Some (PRet server_error, mkDb (users s) (customers s) (next_oid s + 1)).
Proof.
  intros Hun Hh Hin. unfold thread_step, reg_save, User_create, User_save.
  rewrite SE_bind_run. cbn [new_oid]. rewrite !required_nonempty by done.
  rewrite SE_bind_run. cbn [gets users].
  replace (existsb _ _) with true; [done|]. symmetry. apply existsb_exists.
  apply list_elem_of_fmap in Hin as (u & -> & Hu). exists u.
  split; [by apply list_elem_of_In|]. by apply String.eqb_eq.
Qed.

(** C25: Registration is check-then-act across [await]s: two requests for
    one free username can both find no user, both hash, and then the
    first is stored (201) while the second fails on the unique index and
    is answered 500 ["Server Error"], not the 400 ["Username already
    exists"] the same request gets when the two run one after the
    other.  Only the first user is stored. *)
Theorem register_race secret (ctx1 ctx2 : Ctx) s un (pw1 pw2 : string) :
  un <> "" -> un ∉ username <$> users s ->
  exists c,
    rtc (cstep secret) (mkConf [] s) c /\
    inflight c = [PRet (mkResponse 201 (JMessage "User Registered Successfully")); PRet server_error] /\
    users (cdb c) = users s ++ [mkUser (next_oid s) un (bhash pw1 (salt ctx1))].
Proof.
  intros Hun Hf. eexists. split.
  - eapply rtc_l; [apply (CArrive _ _ ctx1 (register_req (mkBody (Some un) (Some pw1) None None)))|].
    eapply rtc_l; [apply (CArrive _ _ ctx2 (register_req (mkBody (Some un) (Some pw2) None None)))|].
    eapply rtc_l; [apply CResume; eapply (CRun _ 0); [reflexivity|by apply reg_step_find]|].
    eapply rtc_l; [apply CResume; eapply (CRun _ 1); [reflexivity|by apply reg_step_find]|].
    eapply rtc_l; [apply CResume; eapply (CRun _ 0); [reflexivity|apply reg_step_hash]|].
    eapply rtc_l; [apply CResume; eapply (CRun _ 1); [reflexivity|apply reg_step_hash]|].
    eapply rtc_l; [apply CResume; eapply (CRun _ 0); [reflexivity|apply reg_step_save; auto using bhash_nonempty]|].
    eapply rtc_l; [apply CResume; eapply (CRun _ 1); [reflexivity|apply reg_step_save_dup; auto using bhash_nonempty]|].
    + cbn. rewrite fmap_app. set_solver.
    + apply rtc_refl.
  - split; reflexivity.
Qed.
End Race.

(** ** Witnesses, on the database of [Fixtures] *)
Import Fixtures.

Lemma concurrent_wf_witness :
  db_wf (cdb (mkConf ([] ++ [app_prog secret ctx1 (register_req (mkBody (Some "carol") (Some "pw3") None None))])
                     db1)).
Proof.
  apply (concurrent_wf secret db1); [by_computation|].
  apply rtc_once. apply (CArrive _ (mkConf [] db1) ctx1).
Defined.

Lemma register_race_witness :
  exists c,
    rtc (cstep secret) (mkConf [] db1) c /\
    inflight c = [PRet (mkResponse 201 (JMessage "User Registered Successfully")); PRet server_error] /\
    users (cdb c) = users db1 ++ [mkUser (next_oid db1) "carol" (bhash "pw3" (salt ctx1))].
Proof. apply (register_race secret ctx1 (mkCtx 11 5) db1 "carol" "pw3" "pw4"); by_computation. Defined.

End Concurrency.
