(* ===== verification/Startup.v ===== *)
(** * Server start-up: configuration and the listening socket

    The top of src/backend/index.js reads its configuration
    ([dotenv.config()], line 8; [JWT_SECRET], line 9; [PORT], line 11)
    and its last statement calls [app.listen(port, ...)] (lines 156-158).
    [PORT] has no default, so what the server listens on is decided by
    Node's [net.Server.listen] on whatever string (or [undefined]) the
    environment holds:
    - [undefined] asks for port 0: the operating system picks a free
      port of its ephemeral range;
    - a string that JavaScript's [Number()] reads as negative or NaN
      is a pipe name: the server listens on a local socket, not TCP;
    - any other string must pass [validatePort] (an integer in
      [0, 65535], not blank), or [listen] throws [ERR_SOCKET_BAD_PORT]
      at start-up.
    [str_to_number] is [Number()] on a string of ASCII characters: the
    StringNumericLiteral grammar (surrounding white space, [0x]/[0o]/[0b]
    integers, a signed decimal with fraction and exponent, [Infinity]).
    A decimal is read exactly, as mantissa and power of ten; [Number()]
    rounds it to a double, which agrees on every numeral of at most 15
    significant digits and differs only on longer ones ("5000.0000000000000001"
    reads as 5000 in Node and as a fraction here) and on underflow.

    The Dashboard fetches [http://localhost:5000] ([api_origin]); the
    server is at that origin only when it is bound to port 5000
    ([startup_net_api]).  With [PORT] unset it never is, and the
    start-up log prints [http://localhost:undefined]
    ([port_unset_unreachable]). *)

From Stdlib Require Import Ascii String.
From stdpp Require Import gmap strings pretty.
From S2P Require Import Prelude Hex Crypto Mongo Auth Handlers Fixtures Isolation Client Dashboard.

Module Startup.
Import Hex Crypto Mongo Auth Handlers Fixtures Client DashboardPage.

Abbreviation Env := (gmap string string).

(** [dotenv.config()]: the pairs of the [.env] file are added to
    [process.env] without overriding a variable that is already set; of
    two assignments of one key in the file the later wins. *)
Definition dotenv_config (env : Env) (file : list (string * string)) : Env :=
  env ∪ list_to_map (reverse file).

(** ** [Number()] on a string *)

Inductive JsNumber :=
| NaN
| Infinity (neg : bool)
| Finite (neg : bool) (m : N) (e : Z).   (* (-1)^neg * m * 10^e *)

Definition is_ws (c : ascii) : bool :=
  bool_decide (nat_of_ascii c ∈ [9; 10; 11; 12; 13; 32]).

Fixpoint drop_ws (cs : list ascii) : list ascii :=
  match cs with c :: r => if is_ws c then drop_ws r else cs | [] => [] end.

Definition trim (cs : list ascii) : list ascii := reverse (drop_ws (reverse (drop_ws cs))).

Definition ascii_in (c : ascii) (s : string) : bool := existsb (Ascii.eqb c) (list_ascii_of_string s).

(** The value of a digit in base [b] (at most 16). *)
Definition digit_val (b : N) (c : ascii) : option N :=
  let n := N.of_nat (nat_of_ascii c) in
  let d := if (48 <=? n)%N && (n <=? 57)%N then Some (n - 48)%N
           else if (97 <=? n)%N && (n <=? 102)%N then Some (n - 87)%N
           else if (65 <=? n)%N && (n <=? 70)%N then Some (n - 55)%N else None in
  match d with Some v => if (v <? b)%N then Some v else None | None => None end.

Fixpoint digits_acc (b acc : N) (cs : list ascii) : option N :=
  match cs with
  | [] => Some acc
  | c :: r => match digit_val b c with Some d => digits_acc b (acc * b + d)%N r | None => None end
  end.

Definition digits (b : N) (cs : list ascii) : option N :=
  match cs with [] => None | _ => digits_acc b 0 cs end.

Fixpoint span_digits (cs : list ascii) : list ascii * list ascii :=
  match cs with
  | c :: r =>
      match digit_val 10 c with
      | Some _ => let '(d, rest) := span_digits r in (c :: d, rest)
      | None => ([], cs)
      end
  | [] => ([], [])
  end.

Definition sign (cs : list ascii) : bool * list ascii :=
  match cs with
  | c :: r => if Ascii.eqb c "+" then (false, r) else if Ascii.eqb c "-" then (true, r) else (false, cs)
  | [] => (false, [])
  end.

Definition exponent (cs : list ascii) : option Z :=
  match cs with
  | [] => Some 0%Z
  | c :: r =>
      if ascii_in c "eE" then
        let '(neg, ds) := sign r in
        match digits 10 ds with Some d => Some (if neg then (- Z.of_N d)%Z else Z.of_N d) | None => None end
      else None
  end.

(** StrUnsignedDecimalLiteral: digits, an optional [.] and digits (one
    of the two digit runs non-empty), an optional exponent. *)
Definition decimal (cs : list ascii) : option (N * Z) :=
  let '(ip, r1) := span_digits cs in
  let '(fp, r2) := match r1 with
                   | c :: r => if Ascii.eqb c "." then span_digits r else ([], r1)
                   | [] => ([], [])
                   end in
  if bool_decide (ip = [] /\ fp = []) then None else
  match exponent r2, digits_acc 10 0 (ip ++ fp) with
  | Some e, Some m => Some (m, (e - Z.of_nat (length fp))%Z)
  | _, _ => None
  end.

(** NonDecimalIntegerLiteral: [0x], [0o] or [0b] and its digits. *)
Definition radix (cs : list ascii) : option (N * list ascii) :=
  match cs with
  | z :: x :: r =>
      if Ascii.eqb z "0" then
        if ascii_in x "xX" then Some (16%N, r)
        else if ascii_in x "oO" then Some (8%N, r)
        else if ascii_in x "bB" then Some (2%N, r) else None
      else None
  | _ => None
  end.

Definition str_to_number (s : string) : JsNumber :=
  match trim (list_ascii_of_string s) with
  | [] => Finite false 0 0
  | cs =>
      match radix cs with
      | Some (b, ds) => match digits b ds with Some v => Finite false v 0 | None => NaN end
      | None =>
          let '(neg, r) := sign cs in
          if bool_decide (r = list_ascii_of_string "Infinity") then Infinity neg
          else match decimal r with Some (m, e) => Finite neg m e | None => NaN end
      end
  end.

(** ** [app.listen(port)] *)

(** [toNumber(x) = (x = Number(x)) >= 0 ? x : false]: a string for
    which it is [false] is a pipe name. *)
Definition nonneg (n : JsNumber) : bool :=
  match n with
  | NaN => false
  | Infinity neg => negb neg
  | Finite neg m _ => negb neg || (m =? 0)%N
  end.

(** The integer in [0, 65535] a number is, if it is one:
    [+port === (+port >>> 0) && port <= 0xFFFF] of [validatePort]. *)
Definition valid_port (n : JsNumber) : option N :=
  match n with
  | Finite neg m e =>
      let v := if (m =? 0)%N then Some 0%N else if neg then None else
               match e with
               | Z0 => Some m
               | Zpos p => if (Npos p <=? 4)%N then Some (m * 10 ^ Npos p)%N else None
               | Zneg p => if (Npos p <? N.size m)%N && (m mod 10 ^ Npos p =? 0)%N
                           then Some (m / 10 ^ Npos p)%N else None
               end in
      match v with Some p => if (p <=? 65535)%N then Some p else None | None => None end
  | _ => None
  end.

Inductive Listen :=
| ListenTCP (p : N)             (* port 0: one the system picks *)
| ListenPipe (path : string)
| BadPort (port : string).      (* ERR_SOCKET_BAD_PORT thrown by listen *)

Definition listen_target (port : option string) : Listen :=
  match port with
  | None => ListenTCP 0
  | Some s =>
      let n := str_to_number s in
      if negb (nonneg n) then ListenPipe s
      else if bool_decide (trim (list_ascii_of_string s) = []) then BadPort s
      else match valid_port n with Some p => ListenTCP p | None => BadPort s end
  end.

(** ** The started server *)

(** The TCP port the server is bound to, [eph] being the one the system
    picks for port 0. *)
Definition bound_port (l : Listen) (eph : N) : option N :=
  match l with
  | ListenTCP 0 => Some eph
  | ListenTCP p => Some p
  | _ => None
  end.

Definition origin_of (p : N) : string := "http://localhost:" +:+ pretty p.

(** The network the browser sees once index.js has run with process
    environment [env] and [.env] file [file]: the backend, with the
    secret of line 9, at the origin of the port it is bound to. *)
Definition startup_net (env : Env) (file : list (string * string)) (eph : N) (ctx : Ctx) (db : Db) : Net :=
  let env' := dotenv_config env file in
  match bound_port (listen_target (env' !! "PORT")) eph with
  | Some p => {[ origin_of p := mkBackend (jwt_secret (env' !! "JWT_SECRET")) ctx db ]}
  | None => ∅
  end.

(** The URL of the start-up log line ([`http://localhost:${port}`]). *)
Definition running_url (port : option string) : string :=
  "http://localhost:" +:+ js_template (match port with Some s => JsString s | None => JsUndefined end).

(** ** [Number()] reads a decimal numeral as its value *)

Definition dec_digit (c : ascii) : Prop := is_Some (digit_val 10 c).

(** A decimal digit is none of the characters the grammar branches on. *)
Lemma dec_digit_plain c :
  dec_digit c ->
  is_ws c = false /\ Ascii.eqb c "+" = false /\ Ascii.eqb c "-" = false /\
  Ascii.eqb c "." = false /\ ascii_in c "eExXoObB" = false /\ c <> "I"%char.
Proof.
  unfold dec_digit. destruct c as [[] [] [] [] [] [] [] []]; vm_compute;
    intros [? Hd]; try discriminate; repeat split; discriminate.
Qed.

Lemma pretty_N_char_val d : (d < 10)%N -> digit_val 10 (pretty_N_char d) = Some d.
Proof.
  intros Hd. assert (d = 0 \/ d = 1 \/ d = 2 \/ d = 3 \/ d = 4 \/ d = 5 \/ d = 6 \/ d = 7 \/ d = 8 \/ d = 9)%N
    as Hc by lia. by repeat destruct Hc as [->|Hc]; [..|subst].
Qed.

Lemma digits_acc_app b acc l1 l2 :
  digits_acc b acc (l1 ++ l2) = digits_acc b acc l1 ≫= fun a => digits_acc b a l2.
Proof. revert acc. induction l1 as [|c l1 IH]; intros acc; simpl; [done|]. by destruct (digit_val b c). Qed.

Lemma drop_ws_digits cs : Forall dec_digit cs -> drop_ws cs = cs.
Proof. intros [|c r Hc _]; [done|]. simpl. by rewrite (proj1 (dec_digit_plain c Hc)). Qed.

Lemma trim_digits cs : Forall dec_digit cs -> trim cs = cs.
Proof.
  intros H. unfold trim. rewrite (drop_ws_digits cs), (drop_ws_digits (reverse cs)) by (rewrite ?Forall_reverse; done).
  apply reverse_involutive.
Qed.

Lemma span_digits_all cs : Forall dec_digit cs -> span_digits cs = (cs, []).
Proof. induction 1 as [|c r [d Hd] _ IH]; simpl; [done|]. by rewrite Hd, IH. Qed.

(** The digits [pretty_N_go x] puts in front of its accumulator. *)
Lemma pretty_N_go_digits x :
  exists ds, (forall s, list_ascii_of_string (pretty_N_go x s) = ds ++ list_ascii_of_string s) /\
    Forall dec_digit ds /\ forall acc, digits_acc 10 acc ds = Some (acc * 10 ^ N.of_nat (length ds) + x)%N.
Proof.
  induction (N.lt_wf_0 x) as [x _ IH].
  destruct (decide (x = 0%N)) as [->|Hx].
  { exists []. split; [|split]; [done|done|]. intros acc. simpl. f_equal. lia. }
  destruct (IH (x `div` 10)%N) as (ds & Hs & Hf & Hv); [apply N.div_lt; lia|].
  assert (Hm : (x `mod` 10 < 10)%N) by (apply N.mod_lt; lia).
  exists (ds ++ [pretty_N_char (x `mod` 10)]). split; [|split].
  - intros s. rewrite pretty_N_go_step by lia. rewrite Hs. by rewrite <- app_assoc.
  - apply Forall_app. split; [done|]. constructor; [|done]. eexists. by apply pretty_N_char_val.
  - intros acc. rewrite digits_acc_app, Hv. simpl. rewrite pretty_N_char_val by done.
    rewrite length_app, Nat2N.inj_add, N.pow_add_r. simpl. f_equal.
    rewrite (N.div_mod x 10) at 3 by lia. lia.
Qed.

Lemma pretty_N_digits n :
  exists ds, list_ascii_of_string (pretty n) = ds /\ ds <> [] /\ Forall dec_digit ds /\
    digits_acc 10 0 ds = Some n.
Proof.
  unfold pretty, pretty_N. case_decide as Hn.
  { subst. exists ["0"%char]. split_and!; [done|done| |done]. repeat constructor. by eexists. }
  destruct (pretty_N_go_digits n) as (ds & Hs & Hf & Hv). exists ds.
  rewrite Hs, app_nil_r. specialize (Hv 0%N). split_and!; [done| |done|rewrite Hv; f_equal; lia].
  intros ->. simpl in Hv. injection Hv. lia.
Qed.

Lemma decimal_digits ds :
  ds <> [] -> Forall dec_digit ds -> decimal ds = (m ← digits_acc 10 0 ds; Some (m, 0%Z)).
Proof.
  intros Hne Hf. unfold decimal. rewrite span_digits_all by done.
  destruct ds as [|c r]; [done|]. cbn -[digits_acc]. rewrite app_nil_r.
  by destruct (digits_acc _ _ _).
Qed.

Lemma radix_digits ds : Forall dec_digit ds -> radix ds = None.
Proof.
  intros Hf. destruct ds as [|c [|c' r]]; [done..|].
  apply Forall_cons in Hf as [_ Hf]. apply Forall_cons in Hf as [Hc' _].
  destruct (dec_digit_plain c' Hc') as (_ & _ & _ & _ & Hx & _). unfold ascii_in in *. simpl in *.
  repeat (apply orb_false_iff in Hx as [? Hx]). destruct (c =? "0")%char; [|done]. unfold ascii_in; simpl. by rewrite H1, H2, H3, H4, H5, H6.
Qed.

(** [Number(String(n))] is [n]. *)
Lemma str_to_number_pretty n : str_to_number (pretty n) = Finite false n 0.
Proof.
  destruct (pretty_N_digits n) as (ds & Hs & Hne & Hf & Hv). unfold str_to_number.
  rewrite Hs, trim_digits by done.
  destruct ds as [|c r]; [done|]. rewrite radix_digits by done. pose proof Hf as [Hc _]%Forall_cons.
  destruct (dec_digit_plain c Hc) as (_ & Hp & Hm & _ & _ & HI).
  simpl sign. rewrite Hp, Hm. rewrite bool_decide_eq_false_2 by (cbn; intros [= ? _]; by apply HI).
  by rewrite decimal_digits, Hv.
Qed.

Lemma origin_of_inj p q : origin_of p = origin_of q -> p = q.
Proof. unfold origin_of. by intros ?%(inj (String.app _))%(inj pretty). Qed.

Lemma api_origin_5000 : api_origin = origin_of 5000.
Proof. reflexivity. Qed.

(** ** Where the server listens *)

(** A [PORT] written as the decimal numeral of [n] makes the server
    listen on TCP port [n] when [n] is at most 65535, and makes [listen]
    throw [ERR_SOCKET_BAD_PORT] otherwise: [Number()] reads back the
    numeral [String(n)] prints. *)
Theorem port_roundtrip n :
  listen_target (Some (pretty n)) = if (n <=? 65535)%N then ListenTCP n else BadPort (pretty n).
Proof.
  destruct (pretty_N_digits n) as (ds & Hs & Hne & Hf & _). unfold listen_target.
  rewrite str_to_number_pretty, Hs. simpl nonneg. rewrite bool_decide_eq_false_2.
  - unfold valid_port. destruct (n =? 0)%N eqn:Hn; [apply N.eqb_eq in Hn as ->|]; by destruct (_ <=? _)%N.
  - by rewrite trim_digits.
Qed.

(** The browser finds the started server at [api_origin] exactly when it
    is bound to port 5000, and then it is the backend of line 9's secret. *)
Lemma startup_net_api env file eph ctx db :
  let env' := dotenv_config env file in
  startup_net env file eph ctx db !! api_origin =
    if decide (bound_port (listen_target (env' !! "PORT")) eph = Some 5000%N)
    then Some (mkBackend (jwt_secret (env' !! "JWT_SECRET")) ctx db) else None.
Proof.
  unfold startup_net. cbv zeta. rewrite api_origin_5000.
  destruct (bound_port _ eph) as [p|]; case_decide as Hp; simplify_eq.
  - by rewrite lookup_singleton_eq.
  - rewrite lookup_singleton_ne; [done|]. intros ->%origin_of_inj. by apply Hp.
  - done.
Qed.

(** C32: [PORT] has no default: when neither the environment nor [.env]
    sets it, the server listens on a port the system picks, the start-up
    log names [http://localhost:undefined], and the Dashboard's requests
    find no server. *)
Theorem port_unset_unreachable env file eph ctx db :
  (32768 <= eph)%N -> dotenv_config env file !! "PORT" = None ->
  listen_target (dotenv_config env file !! "PORT") = ListenTCP 0 /\
  running_url (dotenv_config env file !! "PORT") = "http://localhost:undefined" /\
  startup_net env file eph ctx db !! api_origin = None.
Proof.
  intros Heph Hp. rewrite startup_net_api, Hp. split_and!; [done|done|].
  rewrite decide_False; [done|]. simpl. intros [= ->]. lia.
Qed.

Lemma port_unset_unreachable_witness :
  startup_net ∅ [("JWT_SECRET", "s3cret")] 40000 ctx1 db1 !! api_origin = None.
Proof.
  assert (Heph : (32768 <= 40000)%N) by lia.
  assert (Hp : dotenv_config ∅ [("JWT_SECRET", "s3cret")] !! "PORT" = None) by (vm_compute; reflexivity).
  exact (proj2 (proj2 (port_unset_unreachable ∅ [("JWT_SECRET", "s3cret")] 40000 ctx1 db1 Heph Hp))).
Defined.

End Startup.
