(* ===== verification/Connection.v ===== *)
(** * The MongoDB connection

    index.js calls [mongoose.connect(process.env.MONGODB_URI)] at
    start-up (lines 13-19) and does not wait for it: the server listens
    at once, and the connection settles later, logging one of two lines.
    Until it is open Mongoose buffers every model call; if the initial
    connection fails (an unset URI rejects at once, an unreachable one
    after the driver gives up), it is not retried and each buffered call
    rejects after [bufferTimeoutMS] with a [MongooseError].

    [ConnState] is [mongoose.connection]'s state and [answer] says how an
    awaited call of a cut handler ([Concurrency.Prog]) answers in it:
    library calls (bcryptjs) always run, model calls run on an open
    connection, wait while it is pending, and reject once it failed.
    [run_conn] runs one request; [Server] adds the connection to the
    configurations of [Concurrency], and [sstep] lets the connection
    settle between any two steps of the requests in flight.

    Theorems: on an open connection the server is the one of
    [Concurrency] ([run_conn_open], [sstep_open]); while the connection
    is pending or failed, a request that reaches a handler waits or is
    answered 500 without touching the database, and every other request
    is answered as before ([db_unavailable]); and when the URI of the
    started process does not connect, no request of any interleaving
    changes the database or is answered with success
    ([connection_failed_invariant]). *)

From stdpp Require Import list relations.
From S2P Require Import Prelude Hex Crypto Mongo Auth Handlers Fixtures Isolation Accounts Client Typing Concurrency Startup.

Module Connection.
Import Hex Crypto Mongo Auth Handlers Fixtures Typing Concurrency Startup.

(** [mongoose.connection]: connecting, connected, or failed for good
    (the initial connection is not retried). *)
Inductive ConnState := Connecting | Connected | Failed.

#[export] Instance ConnState_eq_dec : EqDecision ConnState.
Proof. solve_decision. Defined.

(** [mongoose.connect(uri)]: [undefined] is not a connection string and
    rejects at once; a string connects when the server it names is
    reachable from the process. *)
Definition connect_outcome (uri : option string) (reachable : string -> bool) : ConnState :=
  match uri with
  | None => Failed
  | Some u => if reachable u then Connected else Failed
  end.

(** [.then] and [.catch] of lines 14-19: the line logged when the
    connection settles. *)
Definition connect_log (c : ConnState) (err : string) : option string :=
  match c with
  | Connected => Some "MongoDB Connected Successfully"
  | Failed => Some ("MongoDB Connection Error: " +:+ err)
  | Connecting => None
  end.

(** How an awaited call answers on the connection: [None] while it
    waits in Mongoose's buffer. *)
Definition answer {X} (conn : ConnState) (c : Call) (m : M X) (s : Db) : option ((Exn + X) * Db) :=
  match c, conn with
  | LibCall, _ | DbCall, Connected => Some (m s)
  | DbCall, Connecting => None
  | DbCall, Failed => Some (inl BufferTimeout, s)
  end.

(** One request run to its end on the connection, [None] if it waits. *)
Fixpoint run_conn (conn : ConnState) (p : Prog Response) (s : Db) : option (Response * Db) :=
  match p with
  | PRet r => Some (r, s)
  | PAwait c m k =>
      match answer conn c m s with
      | None => None
      | Some (inl _, s') => Some (server_error, s')
      | Some (inr x, s') => run_conn conn (k x) s'
      end
  end.

(** The next awaited call of a request in flight, on the connection. *)
Definition thread_step_conn (conn : ConnState) (p : Prog Response) (s : Db) : option (Prog Response * Db) :=
  match p with
  | PRet _ => None
  | PAwait c m k =>
      match answer conn c m s with
      | None => None
      | Some (inl _, s') => Some (PRet server_error, s')
      | Some (inr x, s') => Some (k x, s')
      end
  end.

Record Server := mkServer { conn : ConnState; sconf : Conf }.

Section Steps.
Context `{PasswordHasher} `{JwtScheme} (secret : string) (uri : option string) (reachable : string -> bool).

(** The process after start-up: a request arrives, a request in flight
    runs its next call, or the pending connection settles. *)
Inductive sstep : Server -> Server -> Prop :=
| SArrive srv ctx req :
    sstep srv (mkServer (conn srv) (mkConf (inflight (sconf srv) ++ [app_prog secret ctx req]) (cdb (sconf srv))))
| SRun srv i p p' s' :
    inflight (sconf srv) !! i = Some p -> thread_step_conn (conn srv) p (cdb (sconf srv)) = Some (p', s') ->
    sstep srv (mkServer (conn srv) (mkConf (<[i := p']> (inflight (sconf srv))) s'))
| SSettle srv :
    conn srv = Connecting -> sstep srv (mkServer (connect_outcome uri reachable) (sconf srv)).
End Steps.

(** Which requests reach a handler, and so a model call. *)
Definition handled `{JwtScheme} (secret : string) (ctx : Ctx) (req : Request) : bool :=
  match method req with
  | OPTIONS => false
  | m =>
      match route m (path req) with
      | None => false
      | Some (Public _) => true
      | Some (Protected _) =>
          match verifyToken secret (now ctx) (authorization req) with AuthOk _ => true | AuthDenied _ _ => false end
      end
  end.

(** ** On an open connection *)

Lemma answer_open {X} c (m : M X) s : answer Connected c m s = Some (m s).
Proof. by destruct c. Qed.

Lemma run_conn_open p s : run_conn Connected p s = Some (run_thread p s).
Proof.
  revert s. induction p as [r|X c m k IH]; intros s; [done|]. cbn. rewrite answer_open.
  destruct (m s) as [[e|x] s']; [done|]. apply IH.
Qed.

Lemma thread_step_conn_open p s : thread_step_conn Connected p s = thread_step p s.
Proof. destruct p as [r|X c m k]; [done|]. cbn. rewrite answer_open. by destruct (m s) as [[]]. Qed.

Section Open.
Context `{PasswordHasher} `{JwtScheme} (secret : string) (uri : option string) (reachable : string -> bool).

(** With the connection open, the process steps as [Concurrency]'s
    configurations do. *)
Lemma sstep_open srv srv' :
  conn srv = Connected ->
  sstep secret uri reachable srv srv' <-> conn srv' = Connected /\ cstep secret (sconf srv) (sconf srv').
Proof.
  intros Hc. split.
  - inversion 1 as [srv0 ctx req|srv0 i p p' s' Hi Hp|srv0 Hs]; subst; simpl; [| |congruence]; (split; [done|]).
    + apply CArrive.
    + rewrite Hc, thread_step_conn_open in Hp. apply CResume. by eapply CRun.
  - destruct srv as [c [l s0]], srv' as [c' [l' s']]; simpl in *. intros [-> Hs]; subst.
    inversion Hs as [c0 ctx req|c0 c1 Hr]; subst.
    + exact (SArrive _ _ _ (mkServer Connected _) ctx req).
    + inversion Hr as [c2 i p p' s'' Hi Hp]; subst.
      apply (SRun _ _ _ (mkServer Connected (mkConf l s0)) i p); [done|]. by rewrite thread_step_conn_open.
Qed.
End Open.

(** ** While the connection is not open *)

(** Every handler's first awaited call is a model call. *)
Definition starts_with_db (p : Prog Response) : Prop :=
  exists X (m : M X) k, p = PAwait DbCall m k.

Section Down.
Context `{PasswordHasher} `{JwtScheme}.

Lemma handlers_start_with_db salt secret now b :
  starts_with_db (register_prog salt b) /\ starts_with_db (login_prog secret now b) /\
  forall r uid, starts_with_db (protected_prog r uid b).
Proof. split_and!; [..|intros [] ?]; unfold starts_with_db; eauto. Qed.

Lemma run_conn_down c p s :
  c <> Connected -> starts_with_db p ->
  run_conn c p s = if decide (c = Connecting) then None else Some (server_error, s).
Proof. intros Hc (X & m & k & ->). by destruct c. Qed.

(** C23: While the connection is pending or has failed, a request that
    reaches a handler waits in Mongoose's buffer (pending) or is answered
    500 with the database untouched (failed), whatever the route; the
    preflight, the 404 and [verifyToken]'s refusals need no database and
    are answered as [app] answers them. *)
Theorem db_unavailable secret ctx req s c :
  c <> Connected ->
  run_conn c (app_prog secret ctx req) s =
    if handled secret ctx req then (if decide (c = Connecting) then None else Some (server_error, s))
    else Some (app secret ctx req s).
Proof.
  intros Hc. destruct (handlers_start_with_db (salt ctx) secret (now ctx) (body req)) as (Hr & Hl & Hp).
  unfold handled, app_prog, app.
  destruct (method req); try reflexivity;
    destruct (route _ (path req)) as [[[]|r]|]; try reflexivity;
    try destruct (verifyToken _ _ _); try reflexivity; by apply run_conn_down.
Qed.
End Down.

(** ** A process whose connection fails *)

(** The statuses of the answers that need no open database. *)
Definition failed_status (r : Response) : Prop := status r ∈ [204; 401; 403; 404; 500].

Lemma failed_status_denied st msg : st = 403 \/ st = 401 -> failed_status (mkResponse st (Text msg)).
Proof. intros Hst. unfold failed_status. simpl. set_unfold. lia. Qed.

(** A request in flight on a connection that is not open: answered
    with one of those statuses, or at a model call. *)
Definition down_prog (p : Prog Response) : Prop :=
  (exists r, p = PRet r /\ failed_status r) \/ starts_with_db p.

Definition down_inv (s0 : Db) (srv : Server) : Prop :=
  conn srv <> Connected /\ cdb (sconf srv) = s0 /\ Forall down_prog (inflight (sconf srv)).

Section Failed.
Context `{PasswordHasher} `{JwtScheme}.

Lemma app_prog_down secret ctx req : down_prog (app_prog secret ctx req).
Proof.
  destruct (handlers_start_with_db (salt ctx) secret (now ctx) (body req)) as (Hr & Hl & Hp).
  unfold app_prog, down_prog, failed_status.
  destruct (method req); try (left; eexists; split; [done|]; by repeat constructor);
    destruct (route _ (path req)) as [[[]|r]|]; try (left; eexists; split; [done|]; by repeat constructor);
    try (by right); destruct (verifyToken _ _ _) as [st msg|uid] eqn:Hv; try (by right);
    left; eexists; (split; [done|]); apply failed_status_denied;
    exact (verifyToken_denied_code _ _ _ _ _ Hv).
Qed.

Lemma thread_step_down c p s p' s' :
  c <> Connected -> down_prog p -> thread_step_conn c p s = Some (p', s') -> down_prog p' /\ s' = s.
Proof.
  intros Hc [(r & -> & _)|(X & m & k & ->)]; [done|]. destruct c; [done|done|].
  intros [= <- <-]. split; [|done]. left. eexists. split; [done|]. by repeat constructor.
Qed.

Lemma sstep_down secret uri reachable s0 srv srv' :
  connect_outcome uri reachable <> Connected -> down_inv s0 srv ->
  sstep secret uri reachable srv srv' -> down_inv s0 srv'.
Proof.
  intros Hout (Hc & Hs & Hf). inversion 1 as [srv1 ctx req|srv1 i p p' s' Hi Hp|srv1 Hset]; subst; simpl.
  - split_and!; [done|done|]. apply Forall_app. split; [done|]. constructor; [|done]. apply app_prog_down.
  - destruct (thread_step_down _ _ _ _ _ Hc (Forall_lookup_1 _ _ _ _ Hf Hi) Hp) as [Hp' ->].
    split_and!; [done|done|]. by apply Forall_insert.
  - done.
Qed.

(** C21: When the URI the started process reads (after [dotenv.config()])
    does not connect, unset or unreachable, then under every
    interleaving of arrivals, awaited calls and the connection settling,
    the database is never changed and every answered request has a
    status among 204, 401, 403, 404 and 500: nobody registers, logs in
    or touches a customer, and the process keeps serving. *)
Theorem connection_failed_invariant secret env file reachable s0 srv :
  let uri := dotenv_config env file !! "MONGODB_URI" in
  connect_outcome uri reachable = Failed ->
  rtc (sstep secret uri reachable) (mkServer Connecting (mkConf [] s0)) srv ->
  cdb (sconf srv) = s0 /\ Forall (fun p => forall r, p = PRet r -> failed_status r) (inflight (sconf srv)).
Proof.
  intros uri Hout Hrtc.
  assert (Hinv : down_inv s0 srv).
  { assert (Hi0 : down_inv s0 (mkServer Connecting (mkConf [] s0))) by done.
    revert Hi0. induction Hrtc as [srv0|srv0 srv1 srv2 Hs _ IH]; [done|].
    intros Hi0. apply IH. apply (sstep_down secret uri reachable s0 srv0); [congruence|done|done]. }
  destruct Hinv as (_ & Hdb & Hf). split; [done|].
  eapply Forall_impl; [exact Hf|]. intros p [(r & -> & Hr)|(X & m & k & ->)] r' Hp; congruence.
Qed.
End Failed.

(** ** Witnesses: alice logs in while the database is down *)

Definition alice_login : Request :=
  mkRequest POST "/api/Login" None (mkBody (Some "alice") (Some "pw1") None None).

Lemma db_unavailable_witness :
  Failed <> Connected /\ run_conn Failed (app_prog secret ctx1 alice_login) db1 = Some (server_error, db1).
Proof.
  assert (Hc : Failed <> Connected) by discriminate.
  split; [exact Hc|]. rewrite (db_unavailable secret ctx1 alice_login db1 Failed Hc). vm_compute. reflexivity.
Defined.

(** No [MONGODB_URI] anywhere: alice's login arrives, the connection
    fails, and her request is answered 500. *)
Lemma connection_failed_invariant_witness :
  let srv := mkServer Failed (mkConf [PRet server_error] db1) in
  cdb (sconf srv) = db1 /\ Forall (fun p => forall r, p = PRet r -> failed_status r) (inflight (sconf srv)).
Proof.
  intros srv.
  assert (Hout : connect_outcome (dotenv_config ∅ [] !! "MONGODB_URI") (fun _ => true) = Failed) by reflexivity.
  apply (connection_failed_invariant secret ∅ [] (fun _ => true) db1 srv Hout).
  eapply rtc_l; [apply (SArrive _ _ _ _ ctx1 alice_login)|]. simpl.
  eapply rtc_l; [by apply SSettle|]. rewrite Hout.
  eapply rtc_l; [apply (SRun _ _ _ _ 0 (app_prog secret ctx1 alice_login)); [done|vm_compute; reflexivity]|].
  apply rtc_refl.
Defined.

End Connection.
